(* ========================================================================== *)
(*  andrnx/gnsslogger.py : measurement-processing engine of the Android       *)
(*  GNSS logger to RINEX converter, shallowly embedded in Rocq.               *)
(*                                                                            *)
(*  Modelling conventions.                                                    *)
(*  - Python floats are idealised as exact rationals (Q): the claims are      *)
(*    about the arithmetic of the code, not about binary64 rounding.          *)
(*  - Python's built-in [round] on a float rounds half to even; [int] on a    *)
(*    float truncates toward zero; [math.floor] is the floor.                 *)
(*  - A [datetime.datetime] is the number of microseconds elapsed since       *)
(*    0001-01-01 00:00:00, within [datetime.min, datetime.max]; a             *)
(*    [timedelta] is a number of microseconds, its days bounded by            *)
(*    999999999 in absolute value.  Leaving either range raises               *)
(*    OverflowError, as CPython does.                                         *)
(*  - A record field holds what the log parser produced: a number, or the     *)
(*    unconverted string when float() failed on it.                           *)
(*  - Exceptions are the [Err] case of a result type.                         *)
(* ========================================================================== *)

From Stdlib Require Import ZArith QArith Qround Qabs Lqa Lia Ascii String List Permutation Sorted.
From stdpp Require Import base gmap strings list.

Import ListNotations.
Open Scope string_scope.
Open Scope Q_scope.

(* -------------------------------------------------------------------------- *)
(** * Python values, exceptions and the error monad *)

Inductive pyerr : Type :=
| ValueError
| TypeError
| KeyError
| OverflowError
| ZeroDivisionError.

Inductive result (A : Type) : Type :=
| Ok (a : A)
| Err (e : pyerr).
Arguments Ok {A} a.
Arguments Err {A} e.

Definition rbind {A B : Type} (m : result A) (k : A -> result B) : result B :=
  match m with
  | Ok a => k a
  | Err e => Err e
  end.

Notation "'let!' x ':=' m 'in' k" := (rbind m (fun x => k))
  (at level 200, x name, m at level 100, right associativity).

(** A field of a parsed log row: a float, or the string float() refused. *)
Inductive fieldval : Type :=
| FNum (q : Q)
| FStr (s : string).

(** Arithmetic on a field: a string operand raises TypeError. *)
Definition num_of (v : fieldval) : result Q :=
  match v with
  | FNum q => Ok q
  | FStr _ => Err TypeError
  end.

(** [float(v)] on a field: a string left by the parser is refused again. *)
Definition py_float (v : fieldval) : result Q :=
  match v with
  | FNum q => Ok q
  | FStr _ => Err ValueError
  end.

(** Strict comparison [a < b] on floats. *)
Definition Qlt_bool (a b : Q) : bool := negb (Qle_bool b a).

(** [a / b] on floats. *)
Definition py_div (a b : Q) : result Q :=
  if Qeq_bool b 0 then Err ZeroDivisionError else Ok (a / b).

(** Python's [round(x)]: nearest integer, ties to the even one. *)
Definition py_round (x : Q) : Z :=
  let f := Qfloor x in
  let r := x - inject_Z f in
  if Qlt_bool r (1 # 2) then f
  else if Qlt_bool (1 # 2) r then (f + 1)%Z
  else if Z.even f then f else (f + 1)%Z.

(** Python's [int(x)] on a float: truncation toward zero. *)
Definition py_int (x : Q) : Z := Z.quot (Qnum x) (Zpos (Qden x)).

(* -------------------------------------------------------------------------- *)
(** * Constants *)

Definition STATE_2ND_CODE_LOCK : Z := 65536.
Definition STATE_BIT_SYNC : Z := 2.
Definition STATE_CODE_LOCK : Z := 1.
Definition STATE_GAL_E1BC_CODE_LOCK : Z := 1024.
Definition STATE_GAL_E1B_PAGE_SYNC : Z := 4096.
Definition STATE_GAL_E1C_2ND_CODE_LOCK : Z := 2048.
Definition STATE_GLO_STRING_SYNC : Z := 64.
Definition STATE_GLO_TOD_DECODED : Z := 128.
Definition STATE_SBAS_SYNC : Z := 8192.
Definition STATE_SUBFRAME_SYNC : Z := 4.
Definition STATE_SYMBOL_SYNC : Z := 32.
Definition STATE_TOW_DECODED : Z := 8.

Definition ADR_STATE_VALID : Z := 1.

Definition SPEED_OF_LIGHT : Q := 299792458.
Definition GPS_WEEKSECS : Q := 604800.
Definition NS_TO_S : Q := 1 # 1000000000.
Definition BDST_TO_GPST : Q := 14.
Definition GLOT_TO_UTC : Z := 10800.
Definition DAYSEC : Z := 86400.
Definition CURRENT_GPS_LEAP_SECOND : Z := 18.

Definition CONSTELLATION_GPS : Z := 1.
Definition CONSTELLATION_SBAS : Z := 2.
Definition CONSTELLATION_GLONASS : Z := 3.
Definition CONSTELLATION_QZSS : Z := 4.
Definition CONSTELLATION_BEIDOU : Z := 5.
Definition CONSTELLATION_GALILEO : Z := 6.
Definition CONSTELLATION_UNKNOWN : Z := 0.

(** [CONSTELLATION_LETTER[ctype]]: a missing key raises KeyError. *)
Definition CONSTELLATION_LETTER (ctype : Z) : result string :=
  if (ctype =? CONSTELLATION_GPS)%Z then Ok "G"
  else if (ctype =? CONSTELLATION_SBAS)%Z then Ok "S"
  else if (ctype =? CONSTELLATION_GLONASS)%Z then Ok "R"
  else if (ctype =? CONSTELLATION_QZSS)%Z then Ok "J"
  else if (ctype =? CONSTELLATION_BEIDOU)%Z then Ok "C"
  else if (ctype =? CONSTELLATION_GALILEO)%Z then Ok "E"
  else if (ctype =? CONSTELLATION_UNKNOWN)%Z then Ok "X"
  else Err KeyError.

(* -------------------------------------------------------------------------- *)
(** * Week crossover (check_week_crossover) *)

Definition check_week_crossover (tRxSeconds tTxSeconds : Q) : Q :=
  let tau := tRxSeconds - tTxSeconds in
  if Qlt_bool (GPS_WEEKSECS / 2) tau then
    let del_sec := inject_Z (py_round (tau / GPS_WEEKSECS)) * GPS_WEEKSECS in
    let rho_sec := tau - del_sec in
    if Qlt_bool 10 rho_sec then 0 else rho_sec
  else tau.

(* -------------------------------------------------------------------------- *)
(** * Frequency band and RINEX attribute *)

(** The carrier frequency field; an empty field means GPS L1. *)
Definition get_rnx_band_from_freq (frequency : fieldval) : result Z :=
  let! ifreq :=
    match frequency with
    | FStr EmptyString => Ok 154%Z
    | FStr _ => Err TypeError
    | FNum f => Ok (py_round (f / 10230000))
    end in
  if (154 <=? ifreq)%Z then Ok 1%Z
  else if (ifreq =? 115)%Z then Ok 5%Z
  else if (ifreq =? 153)%Z then Ok 2%Z
  else Err ValueError.

Definition get_rnx_attr (band : Z) (constellation : string) (state : Z) : string :=
  let attr := "C" in
  let attr :=
    if ((band =? 1)%Z && String.eqb constellation "E")%bool then
      if ((Z.land state STATE_GAL_E1C_2ND_CODE_LOCK =? 0)%Z
          && negb (Z.land state STATE_GAL_E1B_PAGE_SYNC =? 0)%Z)%bool
      then "B" else attr
    else attr in
  let attr := if (band =? 5)%Z then "Q" else attr in
  let attr := if ((band =? 2)%Z && String.eqb constellation "C")%bool then "I" else attr in
  attr.

(* -------------------------------------------------------------------------- *)
(** * Measurements, satellite names and observable codes *)

(** One parsed [Raw] row of the log.  The four integer-typed columns are
    converted with int() by the parser and are always integers. *)
Record measurement : Type := {
  TimeNanos : fieldval;
  FullBiasNanos : fieldval;
  BiasNanos : fieldval;
  TimeOffsetNanos : fieldval;
  ReceivedSvTimeNanos : fieldval;
  PseudorangeRateMetersPerSecond : fieldval;
  AccumulatedDeltaRangeMeters : fieldval;
  AccumulatedDeltaRangeState : Z;
  CarrierFrequencyHz : fieldval;
  ConstellationType : Z;
  Svid : Z;
  State : Z;
  Cn0DbHz : fieldval
}.

(** Decimal digits of a natural number, most significant first. *)
Fixpoint digits_aux (fuel : nat) (n : N) (acc : string) : string :=
  match fuel with
  | O => acc
  | S fuel' =>
      let acc' := String (ascii_of_N (48 + N.modulo n 10)) acc in
      if (n <? 10)%N then acc' else digits_aux fuel' (N.div n 10) acc'
  end.

Definition str_of_N (n : N) : string :=
  digits_aux (S (N.to_nat (N.log2 n))) n EmptyString.

(** [str(z)] for a Python int. *)
Definition str_of_Z (z : Z) : string :=
  if (z <? 0)%Z then String "-"%char (str_of_N (Z.abs_N z)) else str_of_N (Z.abs_N z).

(** [format(z, '02d')]: sign, then the digits zero-padded to width 2. *)
Definition format_02d (z : Z) : string :=
  let ds := str_of_N (Z.abs_N z) in
  if (z <? 0)%Z then String "-"%char ds
  else if (String.length ds <? 2)%nat then String "0"%char ds
  else ds.

Definition get_frequency (measurement : measurement) : fieldval :=
  match CarrierFrequencyHz measurement with
  | FStr EmptyString => FNum (154 * 10230000)
  | v => v
  end.

Definition get_constellation (measurement : measurement) : result string :=
  CONSTELLATION_LETTER (ConstellationType measurement).

Definition get_satname (measurement : measurement) : result string :=
  let! c := get_constellation measurement in
  let svid := Svid measurement in
  let satname := String.append c (format_02d svid) in
  if ((50 <? svid)%Z && String.eqb c "R")%bool then Err ValueError
  else Ok satname.

Definition get_obscode (measurement : measurement) : result string :=
  let! band := get_rnx_band_from_freq (get_frequency measurement) in
  let! constellation := get_constellation measurement in
  let attr := get_rnx_attr band constellation (State measurement) in
  Ok (String.append (str_of_Z band) attr).

(* -------------------------------------------------------------------------- *)
(** * Validity checks *)

Definition check_adr_state (measurement : measurement) : result bool :=
  let state := AccumulatedDeltaRangeState measurement in
  if (Z.land state ADR_STATE_VALID =? 0)%Z then Err ValueError else Ok true.

(** One [if (state & FLAG) == 0: raise ValueError(...)] test. *)
Definition require_bit (state flag : Z) : result unit :=
  if (Z.land state flag =? 0)%Z then Err ValueError else Ok tt.

Definition check_sync_state (measurement : measurement) : result bool :=
  let state := State measurement in
  let constellation := ConstellationType measurement in
  let frequency := get_frequency measurement in
  let! frequency_band := get_rnx_band_from_freq frequency in
  if (constellation =? CONSTELLATION_GPS)%Z then
    let! _ := require_bit state STATE_CODE_LOCK in
    let! _ := require_bit state STATE_TOW_DECODED in
    let! _ := require_bit state STATE_BIT_SYNC in
    let! _ := require_bit state STATE_SUBFRAME_SYNC in
    Ok true
  else if (constellation =? CONSTELLATION_SBAS)%Z then
    let! _ := require_bit state STATE_CODE_LOCK in
    let! _ := require_bit state STATE_TOW_DECODED in
    let! _ := require_bit state STATE_BIT_SYNC in
    let! _ := require_bit state STATE_SYMBOL_SYNC in
    let! _ := require_bit state STATE_SBAS_SYNC in
    Ok true
  else if (constellation =? CONSTELLATION_GLONASS)%Z then
    let! _ := require_bit state STATE_CODE_LOCK in
    let! _ := require_bit state STATE_SYMBOL_SYNC in
    let! _ := require_bit state STATE_BIT_SYNC in
    let! _ := require_bit state STATE_GLO_TOD_DECODED in
    let! _ := require_bit state STATE_GLO_STRING_SYNC in
    Ok true
  else if (constellation =? CONSTELLATION_QZSS)%Z then
    let! _ := require_bit state STATE_CODE_LOCK in
    let! _ := require_bit state STATE_TOW_DECODED in
    let! _ := require_bit state STATE_BIT_SYNC in
    let! _ := require_bit state STATE_SUBFRAME_SYNC in
    Ok true
  else if (constellation =? CONSTELLATION_BEIDOU)%Z then
    let! _ := require_bit state STATE_CODE_LOCK in
    let! _ := require_bit state STATE_TOW_DECODED in
    let! _ := require_bit state STATE_BIT_SYNC in
    let! _ := require_bit state STATE_SUBFRAME_SYNC in
    Ok true
  else if (constellation =? CONSTELLATION_GALILEO)%Z then
    if (frequency_band =? 1)%Z then
      let! _ := require_bit state STATE_GAL_E1BC_CODE_LOCK in
      if (Z.land state STATE_GAL_E1C_2ND_CODE_LOCK =? 0)%Z then
        let! _ := require_bit state STATE_TOW_DECODED in
        let! _ := require_bit state STATE_BIT_SYNC in
        let! _ := require_bit state STATE_GAL_E1B_PAGE_SYNC in
        Ok true
      else
        let! _ := require_bit state STATE_GAL_E1C_2ND_CODE_LOCK in
        Ok true
    else if (frequency_band =? 5)%Z then
      let! _ := require_bit state STATE_CODE_LOCK in
      let! _ := require_bit state STATE_TOW_DECODED in
      let! _ := require_bit state STATE_BIT_SYNC in
      let! _ := require_bit state STATE_SUBFRAME_SYNC in
      Ok true
    else Ok true
  else if (constellation =? CONSTELLATION_UNKNOWN)%Z then
    let! _ := require_bit state STATE_CODE_LOCK in
    let! _ := require_bit state STATE_TOW_DECODED in
    Ok true
  else Err ValueError.

(* -------------------------------------------------------------------------- *)
(** * datetime arithmetic *)

Definition US_PER_S : Z := 1000000.
Definition US_PER_DAY : Z := 86400000000.

(** [datetime.max] = 9999-12-31 23:59:59.999999. *)
Definition DATETIME_MAX : Z := 3652059 * US_PER_DAY - 1.

(** [GPSTIME = datetime(1980, 1, 6)]: 722819 days after 0001-01-01. *)
Definition GPSTIME : Z := 722819 * US_PER_DAY.

(** Building a [timedelta] of [us] microseconds. *)
Definition timedelta (us : Z) : result Z :=
  let days := (us / US_PER_DAY)%Z in
  if ((-999999999 <=? days) && (days <=? 999999999))%Z%bool then Ok us
  else Err OverflowError.

(** [datetime + timedelta]. *)
Definition dt_add (d td : Z) : result Z :=
  let r := (d + td)%Z in
  if ((0 <=? r) && (r <=? DATETIME_MAX))%Z%bool then Ok r else Err OverflowError.

(** [timedelta(seconds=s)] for a float [s]: rounded to the microsecond,
    ties to even. *)
Definition us_of_seconds (s : Q) : Z := py_round (s * inject_Z US_PER_S).

(** [d.replace(microsecond=0)], i.e. [datetime(d.year, ..., d.second)]. *)
Definition dt_whole_seconds (d : Z) : Z := (d - d mod US_PER_S)%Z.

(** [datetime(d.year, d.month, d.day)]. *)
Definition dt_midnight (d : Z) : Z := (d - d mod US_PER_DAY)%Z.

(** [d.isoweekday()]: 0001-01-01 is a Monday (1). *)
Definition isoweekday (d : Z) : Z := ((d / US_PER_DAY) mod 7 + 1)%Z.

(* -------------------------------------------------------------------------- *)
(** * Time systems *)

Definition glot_to_gpst (gpst_current_epoch : Z) (tod_seconds : Q) : result Q :=
  let tod_sec := py_int tod_seconds in
  let! shift := timedelta ((3 * 3600 - CURRENT_GPS_LEAP_SECOND) * US_PER_S)%Z in
  let! glo_epoch := dt_add (dt_whole_seconds gpst_current_epoch) shift in
  let! tod_delta := timedelta (tod_sec * US_PER_S)%Z in
  let! glo_tod := dt_add (dt_midnight glo_epoch) tod_delta in
  let day_of_week_sec := (isoweekday glo_tod * DAYSEC)%Z in
  Ok (inject_Z day_of_week_sec + tod_seconds - inject_Z GLOT_TO_UTC
      + inject_Z CURRENT_GPS_LEAP_SECOND).

(** The GPS week, time of week and epoch block of [process]: returns
    [(gpst_epoch, gpssow, frac)]. *)
Definition gps_time (timenanos fullbiasnanos biasnanos : Q) (integerize : bool)
    : result (Z * Q * Q) :=
  let gpsweek := Qfloor (- fullbiasnanos * NS_TO_S / GPS_WEEKSECS) in
  let local_est_GPS_time := timenanos - (fullbiasnanos + biasnanos) in
  let gpssow := local_est_GPS_time * NS_TO_S - inject_Z gpsweek * GPS_WEEKSECS in
  let frac := if integerize then gpssow - inject_Z (py_int (gpssow + (1 # 2))) else 0 in
  let! delta := timedelta (gpsweek * 7 * US_PER_DAY + us_of_seconds (gpssow - frac))%Z in
  let! gpst_epoch := dt_add GPSTIME delta in
  Ok (gpst_epoch, gpssow, frac).

(* -------------------------------------------------------------------------- *)
(** * Processed measurements *)

(** [{'epoch': epoch, sat: {code: value, ...}, ...}].  Dictionaries are
    compared by content in Python, so they are finite maps here. *)
Record pm : Type := {
  pm_epoch : Z;
  pm_sats : gmap string (gmap string fieldval)
}.

(** [process(measurement, fullbiasnanos, integerize, pseudorange_bias)];
    [Ok None] is the [return None] of the code. *)
Definition process (measurement : measurement) (fullbiasnanos : option Q)
    (integerize : bool) (pseudorange_bias : Q) : result (option pm) :=
  match get_satname measurement with
  | Err ValueError => Ok None
  | Err e => Err e
  | Ok satname =>
    let! obscode := get_obscode measurement in
    let fullbias :=
      match fullbiasnanos with
      | None => FullBiasNanos measurement
      | Some f => FNum f
      end in
    let! timenanos := py_float (TimeNanos measurement) in
    let biasnanos :=
      match py_float (BiasNanos measurement) with Ok b => b | Err _ => 0 end in
    let! fb := num_of fullbias in
    let! t := gps_time timenanos fb biasnanos integerize in
    let '(gpst_epoch, gpssow, frac) := t in
    let timeoffsetnanos :=
      match py_float (TimeOffsetNanos measurement) with Ok o => o | Err _ => 0 end in
    let tRxSeconds := gpssow - timeoffsetnanos * NS_TO_S in
    let! freq := num_of (get_frequency measurement) in
    let! wavelength := py_div SPEED_OF_LIGHT freq in
    let! range :=
      match check_sync_state measurement with
      | Err ValueError => Ok (FNum 0)
      | Err e => Err e
      | Ok _ =>
        let constellation := ConstellationType measurement in
        let! rstn := num_of (ReceivedSvTimeNanos measurement) in
        let! tau :=
          if (constellation =? CONSTELLATION_GLONASS)%Z then
            let tod_secs := rstn * NS_TO_S in
            let! tTxSeconds := glot_to_gpst gpst_epoch tod_secs in
            Ok (check_week_crossover tRxSeconds tTxSeconds)
          else if (constellation =? CONSTELLATION_BEIDOU)%Z then
            let tTxSeconds := rstn * NS_TO_S + BDST_TO_GPST in
            Ok (check_week_crossover tRxSeconds tTxSeconds)
          else
            let tTxSeconds := rstn * NS_TO_S in
            Ok (check_week_crossover tRxSeconds tTxSeconds) in
        let range := tau * SPEED_OF_LIGHT - pseudorange_bias in
        if integerize then
          let! prr := num_of (PseudorangeRateMetersPerSecond measurement) in
          Ok (FNum (range - frac * prr))
        else Ok (FNum range)
      end in
    let! cphase :=
      match check_adr_state measurement with
      | Err ValueError => Ok (FNum 0)
      | Err e => Err e
      | Ok _ =>
        let! adr := num_of (AccumulatedDeltaRangeMeters measurement) in
        let! c := py_div adr wavelength in
        Ok (FNum c)
      end in
    let! prr := num_of (PseudorangeRateMetersPerSecond measurement) in
    let! doppler := py_div (- prr) wavelength in
    let cn0 := Cn0DbHz measurement in
    Ok (Some {| pm_epoch := gpst_epoch;
                pm_sats := {[ satname :=
                  <[ String.append "C" obscode := range ]>
                  (<[ String.append "L" obscode := cphase ]>
                  (<[ String.append "D" obscode := FNum doppler ]>
                  {[ String.append "S" obscode := cn0 ]})) ]} |})
  end.

(* -------------------------------------------------------------------------- *)
(** * Epoch merger *)

(** The satellite loop of [merge]: for every satellite of [m], if [res] has
    it, [res[sat].update(m[sat])] (the entry's codes win), else
    [res[sat] = m[sat]]. *)
Definition union_sats (res m : pm) : gmap string (gmap string fieldval) :=
  union_with (fun old new => Some (new ∪ old)) (pm_sats res) (pm_sats m).

(** One iteration of the loop of [merge]: [res] is the running result, [m]
    the next entry; [None] entries and entries of another epoch are skipped. *)
Definition merge_step (res : option pm) (m : option pm) : option pm :=
  match m with
  | None => res
  | Some m =>
    match res with
    | None => Some m
    | Some r =>
      if decide (pm_epoch m = pm_epoch r) then
        Some {| pm_epoch := pm_epoch r;
                pm_sats := union_sats r m |}
      else Some r
    end
  end.

Definition merge (measdict : list (option pm)) : option pm :=
  fold_left merge_step measdict None.

(** A raw row of the log used by the examples: GPS-like clock fields
    (week 1984, 76801 s into the week) and the given satellite, state,
    ADR state, carrier frequency and TimeNanos. *)
Definition gnss_row (ctype svid state adr_state : Z) (freq timenanos : fieldval)
    : measurement :=
  {| TimeNanos := timenanos;
     FullBiasNanos := FNum (-1200000000000000000);
     BiasNanos := FNum 0;
     TimeOffsetNanos := FNum 0;
     ReceivedSvTimeNanos := FNum 76800930000000;
     PseudorangeRateMetersPerSecond := FNum 10;
     AccumulatedDeltaRangeMeters := FNum 5;
     AccumulatedDeltaRangeState := adr_state;
     CarrierFrequencyHz := freq;
     ConstellationType := ctype;
     Svid := svid;
     State := state;
     Cn0DbHz := FNum 40 |}.

(** The transmit time as the spec describes it: GLONASS through
    glot_to_gpst, BeiDou shifted by 14 s, the others as received. *)
Definition spec_tTx (constellation gpst_epoch : Z) (rstn : Q) : result Q :=
  if (constellation =? CONSTELLATION_GLONASS)%Z then glot_to_gpst gpst_epoch (rstn * NS_TO_S)
  else if (constellation =? CONSTELLATION_BEIDOU)%Z then Ok (rstn * NS_TO_S + 14)
  else Ok (rstn * NS_TO_S).

(** The full bias process uses, and the BiasNanos and TimeOffsetNanos it
    falls back from. *)
Definition effective_fullbias (measurement : measurement) (fullbiasnanos : option Q) : fieldval :=
  match fullbiasnanos with
  | None => FullBiasNanos measurement
  | Some f => FNum f
  end.

Definition biasnanos_of (measurement : measurement) : Q :=
  match py_float (BiasNanos measurement) with Ok b => b | Err _ => 0 end.

Definition timeoffsetnanos_of (measurement : measurement) : Q :=
  match py_float (TimeOffsetNanos measurement) with Ok o => o | Err _ => 0 end.

(** The record process builds for one satellite. *)
Definition pm_record (epoch : Z) (satname obscode : string) (range cphase : fieldval)
    (doppler : Q) (cn0 : fieldval) : pm :=
  {| pm_epoch := epoch;
     pm_sats := {[ satname :=
       <[ String.append "C" obscode := range ]>
       (<[ String.append "L" obscode := cphase ]>
       (<[ String.append "D" obscode := FNum doppler ]>
       {[ String.append "S" obscode := cn0 ]})) ]} |}.

(** Reading a merged record: the value of observable [code] of satellite
    [sat], and whether [sat] is present. *)
Definition obs_lookup (r : pm) (sat code : string) : option fieldval :=
  match pm_sats r !! sat with Some d => d !! code | None => None end.

Definition has_sat (r : pm) (sat : string) : bool :=
  match pm_sats r !! sat with Some _ => true | None => false end.

Definition has_obs (r : pm) (sat code : string) : bool :=
  match obs_lookup r sat code with Some _ => true | None => false end.

Definition entry_has_sat (sat : string) (x : option pm) : bool :=
  match x with Some p => has_sat p sat | None => false end.

(** The value of [(sat, code)] in the last entry of [l] that has it, or
    [acc] if none has it. *)
Definition last_obs (l : list (option pm)) (sat code : string)
    (acc : option fieldval) : option fieldval :=
  fold_left (fun acc x =>
    match x with
    | Some p => match obs_lookup p sat code with Some v => Some v | None => acc end
    | None => acc
    end) l acc.

(** All entries of [l] that are not [None] carry the epoch [T]. *)
Definition same_epoch (T : Z) (l : list (option pm)) : Prop :=
  Forall (fun x => match x with Some p => pm_epoch p = T | None => True end) l.

(** No pair (satellite, code) is set by two entries of [l]. *)
Definition unique_obs (l : list pm) : Prop :=
  forall sat code, (length (List.filter (fun p => has_obs p sat code) l) <= 1)%nat.

(* -------------------------------------------------------------------------- *)
(** * Day crossover *)

Definition check_day_crossover (tRxSeconds tTxSeconds : Q) : Q :=
  let tau := tRxSeconds - tTxSeconds in
  if Qlt_bool (inject_Z DAYSEC / 2) tau then
    let del_sec := inject_Z (py_round (tau / inject_Z DAYSEC)) * inject_Z DAYSEC in
    let rho_sec := tau - del_sec in
    if Qlt_bool 10 rho_sec then 0 else rho_sec
  else tau.

(* -------------------------------------------------------------------------- *)
(** * Observable lists and GLONASS frequency channels *)

(** A [for] loop over [l] whose body may raise. *)
Fixpoint fold_result {A B : Type} (f : A -> B -> result A) (acc : A) (l : list B)
    : result A :=
  match l with
  | [] => Ok acc
  | x :: l' => let! acc' := f acc x in fold_result f acc' l'
  end.

Definition OBS_LIST : list string := ["C"; "L"; "D"; "S"].

(** [sorted] on a list of strings (code-point order). *)
Fixpoint insert_sorted (x : string) (l : list string) : list string :=
  match l with
  | [] => [x]
  | y :: l' => if String.leb x y then x :: l else y :: insert_sorted x l'
  end.

Definition py_sorted (l : list string) : list string := fold_right insert_sorted [] l.

(** The body of the loop of [get_obslist] for one measurement. *)
Definition obslist_add (obslist : gmap string (list string)) (measurement : measurement)
    : result (gmap string (list string)) :=
  let! obscode := get_obscode measurement in
  let! constellation := get_constellation measurement in
  let obslist :=
    match obslist !! constellation with
    | None => <[constellation := []]> obslist
    | Some _ => obslist
    end in
  let arr := default [] (obslist !! constellation) in
  if existsb (String.eqb obscode) arr then Ok obslist
  else Ok (<[constellation := (arr ++ [obscode])%list]> obslist).

(** [[m + o for o in arr for m in OBS_LIST]] *)
Definition obs_expand (arr : list string) : list string :=
  concat (map (fun o => map (fun m => String.append m o) OBS_LIST) arr).

Definition get_obslist (batches : list (list measurement))
    : result (gmap string (list string)) :=
  let! obslist := fold_result obslist_add ∅ (concat batches) in
  Ok ((fun arr => obs_expand (py_sorted arr)) <$> obslist).

Definition GLO_L1_CENTER_FREQ : Q := 1602000000.
Definition GLO_L1_DFREQ : Q := 562500.

(** The body of the loop of [get_glo_freq_chn_list] for one measurement. *)
Definition glo_chn_add (freq_chn_list : gmap string Z) (measurement : measurement)
    : result (gmap string Z) :=
  if (ConstellationType measurement =? CONSTELLATION_GLONASS)%Z then
    let! sat := get_satname measurement in
    match freq_chn_list !! sat with
    | Some _ => Ok freq_chn_list
    | None =>
      let! freq := num_of (get_frequency measurement) in
      let freq_chn := py_round ((freq - GLO_L1_CENTER_FREQ) / GLO_L1_DFREQ) in
      Ok (<[sat := freq_chn]> freq_chn_list)
    end
  else Ok freq_chn_list.

Definition get_glo_freq_chn_list (batches : list (list measurement))
    : result (gmap string Z) :=
  fold_result glo_chn_add ∅ (concat batches).

(** The state of the first loop of get_obslist after the measurements [seen]. *)
Definition obslist_inv (seen : list measurement) (acc : gmap string (list string)) : Prop :=
  (forall c, is_Some (acc !! c) <-> exists m, In m seen /\ get_constellation m = Ok c) /\
  (forall c arr, acc !! c = Some arr -> forall o,
     In o arr <-> exists m, In m seen /\ get_constellation m = Ok c /\ get_obscode m = Ok o) /\
  (forall c arr, acc !! c = Some arr -> List.NoDup arr).

(** The state of the loop of get_glo_freq_chn_list after the measurements
    [seen], at satellite [sat]: it is a key iff a GLONASS measurement of
    [seen] has its name, and its value comes from the first such one. *)
Definition glo_chn_at (seen : list measurement) (acc : gmap string Z) (sat : string) : Prop :=
  match acc !! sat with
  | None => forall m, In m seen -> ConstellationType m = CONSTELLATION_GLONASS ->
              get_satname m <> Ok sat
  | Some n => exists pre m post f, seen = (pre ++ m :: post)%list /\
      ConstellationType m = CONSTELLATION_GLONASS /\ get_satname m = Ok sat /\
      (forall m', In m' pre -> ConstellationType m' = CONSTELLATION_GLONASS ->
         get_satname m' <> Ok sat) /\
      num_of (get_frequency m) = Ok f /\
      n = py_round ((f - GLO_L1_CENTER_FREQ) / GLO_L1_DFREQ)
  end.

(* -------------------------------------------------------------------------- *)
(** * Log batches (GnssLog.raw_batches) *)

Definition BATCH_DELIMITER : string := "TimeNanos".

(** [d[k]] on a parsed row: a missing key raises KeyError. *)
Definition dict_get (d : gmap string fieldval) (k : string) : result fieldval :=
  match d !! k with Some v => Ok v | None => Err KeyError end.

(** Python's [==] on two field values: floats by value, strings by content;
    a float is never equal to a string. *)
Definition fieldval_eqb (a b : fieldval) : bool :=
  match a, b with
  | FNum x, FNum y => Qeq_bool x y
  | FStr s, FStr t => String.eqb s t
  | _, _ => false
  end.

Section RawBatches.

(** [self.__parse_line__]: the row of one line of the log, or the exception it
    raises.  The grouping below does not depend on how a line is parsed. *)
Variable parse_line : string -> result (gmap string fieldval).

(** The [for line in fh] loop of [raw_batches] with the current [batch];
    the result is the list of all the batches the generator yields. *)
Fixpoint raw_batches_loop (lines : list string) (batch : list (gmap string fieldval))
    : result (list (list (gmap string fieldval))) :=
  match lines with
  | [] => Ok [batch]
  | line :: rest =>
    if String.prefix "Raw" line then
      let! line_fields := parse_line line in
      let! new_batch :=
        match batch with
        | [] => Ok false
        | b0 :: _ =>
          let! t := dict_get line_fields BATCH_DELIMITER in
          let! t0 := dict_get b0 BATCH_DELIMITER in
          Ok (negb (fieldval_eqb t t0))
        end in
      if new_batch then
        let! bs := raw_batches_loop rest [line_fields] in
        Ok (batch :: bs)
      else raw_batches_loop rest (batch ++ [line_fields])%list
    else raw_batches_loop rest batch
  end.

Definition raw_batches (lines : list string) : result (list (list (gmap string fieldval))) :=
  raw_batches_loop lines [].

End RawBatches.

(** Every row after the first of a batch has the delimiter value of the first. *)
Definition batch_uniform (batch : list (gmap string fieldval)) : Prop :=
  match batch with
  | [] => True
  | r0 :: rs => Forall (fun r => exists t t0, r !! BATCH_DELIMITER = Some t /\
                          r0 !! BATCH_DELIMITER = Some t0 /\ fieldval_eqb t t0 = true) rs
  end.

(** The first rows of two consecutive batches have different delimiter values. *)
Fixpoint batches_split (bs : list (list (gmap string fieldval))) : Prop :=
  match bs with
  | b1 :: ((b2 :: _) as bs') =>
    match b1, b2 with
    | r1 :: _, r2 :: _ => exists t1 t2, r1 !! BATCH_DELIMITER = Some t1 /\
        r2 !! BATCH_DELIMITER = Some t2 /\ fieldval_eqb t2 t1 = false
    | _, _ => False
    end /\ batches_split bs'
  | _ => True
  end.

(* -------------------------------------------------------------------------- *)
(** * Log header (GnssLogHeader) *)

(** Text of the log.  A Python [str] read from the log is represented as a
    [string] whose characters are its code points, one [ascii] (0-255) each:
    the model covers texts whose code points are all below 256 (Latin-1).

    [str.isspace] on one such character: tab, newline, vertical tab, form
    feed, carriage return, the separators U+001C-U+001F, space, NEXT LINE
    (U+0085) and NO-BREAK SPACE (U+00A0); these are exactly the whitespace
    characters of Unicode below U+0100, so [py_lstrip], [py_rstrip] and
    [py_strip] are [str.lstrip()], [str.rstrip()] and [str.strip()]. *)
Definition py_isspace (a : ascii) : bool :=
  let n := nat_of_ascii a in
  ((9 <=? n) && (n <=? 13))%nat || ((28 <=? n) && (n <=? 32))%nat
  || (n =? 133)%nat || (n =? 160)%nat.

Fixpoint py_lstrip (s : string) : string :=
  match s with
  | EmptyString => EmptyString
  | String a s' => if py_isspace a then py_lstrip s' else s
  end.

Fixpoint py_rstrip (s : string) : string :=
  match s with
  | EmptyString => EmptyString
  | String a s' =>
    let r := py_rstrip s' in
    match r with
    | EmptyString => if py_isspace a then EmptyString else String a EmptyString
    | _ => String a r
    end
  end.

(** [s.strip()] *)
Definition py_strip (s : string) : string := py_rstrip (py_lstrip s).

(** [s.split(sep)] for a one-character separator. *)
Fixpoint py_split (sep : ascii) (s : string) : list string :=
  match s with
  | EmptyString => [EmptyString]
  | String a s' =>
    let parts := py_split sep s' in
    if Ascii.eqb a sep then EmptyString :: parts
    else match parts with
         | p :: ps => String a p :: ps
         | [] => [String a EmptyString]
         end
  end.

(** [s[n:]] *)
Fixpoint str_drop (n : nat) (s : string) : string :=
  match n, s with
  | O, _ => s
  | S _, EmptyString => EmptyString
  | S n', String _ s' => str_drop n' s'
  end.

(** [c not in s] *)
Definition no_char (c : ascii) (s : string) : Prop := forall i, String.get i s <> Some c.

(** [GnssLogHeader.get_fieldnames]: the field names of a [# Raw,...] line,
    stored under its first field. *)
Definition get_fieldnames (fields : gmap string (list string)) (line : string)
    : gmap string (list string) :=
  match map py_strip (py_split ","%char (py_strip (str_drop 2 line))) with
  | key :: field_names => <[key := field_names]> fields
  | [] => fields
  end.

(** [s.endswith(c)] for one character. *)
Fixpoint str_endswith (c : ascii) (s : string) : bool :=
  match s with
  | EmptyString => false
  | String a EmptyString => Ascii.eqb a c
  | String _ s' => str_endswith c s'
  end.

(** [s[:-1]] *)
Fixpoint str_init (s : string) : string :=
  match s with
  | EmptyString => EmptyString
  | String a EmptyString => EmptyString
  | String a s' => String a (str_init s')
  end.

(** The [for field in fields[1:]] loop of [GnssLogHeader.parse_version], with
    the local [key] ([None] while unassigned).  [None] as a result: the loop
    raises, UnboundLocalError when a value comes before any [key:] field. *)
Fixpoint parse_version_loop (parameters : gmap string string) (key : option string)
    (fields : list string) : option (gmap string string) :=
  match fields with
  | [] => Some parameters
  | field :: rest =>
    if str_endswith ":"%char field then
      let k := str_init field in
      parse_version_loop (<[k := EmptyString]> parameters) (Some k) rest
    else
      match key with
      | None => None
      | Some k =>
        match parameters !! k with
        | Some v => parse_version_loop (<[k := (v ++ " " ++ field)%string]> parameters) (Some k) rest
        | None => None
        end
      end
  end.

(** [GnssLogHeader.parse_version]: the new [self.parameters], or [None] when
    it raises. *)
Definition parse_version (parameters : gmap string string) (line : string)
    : option (gmap string string) :=
  match py_split " "%char (py_strip line) with
  | _ :: fields =>
    match parse_version_loop parameters None fields with
    | Some p => Some (py_strip <$> p)
    | None => None
    end
  | [] => Some parameters
  end.

Definition version_tokens (kvs : list (string * list string)) : list string :=
  List.concat (map (fun kv => (fst kv ++ ":")%string :: snd kv) kvs).

Definition version_word_ok (w : string) : Prop :=
  w <> EmptyString /\ py_strip w = w /\ no_char " "%char w /\ str_endswith ":"%char w = false.

Fixpoint no_char_b (c : ascii) (s : string) : bool :=
  match s with
  | EmptyString => true
  | String a s' => negb (Ascii.eqb a c) && no_char_b c s'
  end.

Definition version_example : list (string * list string) :=
  [("Version", ["v2.0.0.1"]); ("Platform", ["10"]); ("Manufacturer", ["Google"]);
   ("Model", ["Pixel"; "4"])].

(** [re.split('[...]', s)] for a pattern that is one character class: the
    string cut at every character of the class. *)
Fixpoint re_split_class (cs : list ascii) (s : string) : list string :=
  match s with
  | EmptyString => [EmptyString]
  | String a s' =>
    let parts := re_split_class cs s' in
    if existsb (Ascii.eqb a) cs then EmptyString :: parts
    else match parts with
         | p :: ps => String a p :: ps
         | [] => [String a EmptyString]
         end
  end.

(** [str.lower] on one character below U+0100: the capitals A-Z,
    U+00C0-U+00D6 and U+00D8-U+00DE move 32 code points up; every other
    character of the range is its own lower case. *)
Definition py_lower_char (a : ascii) : ascii :=
  let n := nat_of_ascii a in
  if (((65 <=? n) && (n <=? 90)) || ((192 <=? n) && (n <=? 214))
      || ((216 <=? n) && (n <=? 222)))%nat
  then ascii_of_nat (n + 32) else a.

Fixpoint py_lower (s : string) : string :=
  match s with
  | EmptyString => EmptyString
  | String a s' => String (py_lower_char a) (py_lower s')
  end.

(** [line.startswith('#')] *)
Definition starts_with_hash (line : string) : bool :=
  match line with
  | String a _ => Ascii.eqb a "#"%char
  | EmptyString => false
  end.

Record GnssLogHeader : Type := {
  parameters : gmap string string;
  fields : gmap string (list string)
}.

(** The separators of [re.split('[: ,]', ...)] in [GnssLogHeader.__init__]. *)
Definition HEADER_SEPARATORS : list ascii := [":"%char; " "%char; ","%char].

(** One header line: [getattr(GnssLogHeader, 'parse_' + fields[1].lower())]
    called on it.  [None]: the line raises (IndexError when it has one field,
    AttributeError when no such method exists, or from [parse_version]). *)
Definition header_line (h : GnssLogHeader) (line : string) : option GnssLogHeader :=
  match re_split_class HEADER_SEPARATORS (py_strip line) with
  | _ :: f1 :: _ =>
    let method_name := py_lower f1 in
    if String.eqb method_name "header" then Some h
    else if String.eqb method_name "version" then
      match parse_version (parameters h) line with
      | Some p => Some {| parameters := p; fields := fields h |}
      | None => None
      end
    else if (String.eqb method_name "fix" || String.eqb method_name "raw"
             || String.eqb method_name "nav")%bool then
      Some {| parameters := parameters h; fields := get_fieldnames (fields h) line |}
    else None
  | _ => None
  end.

(** The [for line in fh] loop of [GnssLogHeader.__init__]. *)
Fixpoint header_loop (h : GnssLogHeader) (lines : list string) : option GnssLogHeader :=
  match lines with
  | [] => Some h
  | line :: rest =>
    if negb (starts_with_hash line) then Some h
    else if String.eqb (py_strip line) "#" then header_loop h rest
    else match header_line h line with
         | Some h' => header_loop h' rest
         | None => None
         end
  end.

(** [GnssLogHeader(filename)] on the lines of the file. *)
Definition GnssLogHeader_init (lines : list string) : option GnssLogHeader :=
  header_loop {| parameters := ∅; fields := ∅ |} lines.

Definition is_lower_letter (a : ascii) : bool :=
  let n := nat_of_ascii a in ((97 <=? n) && (n <=? 122))%nat.

Definition FIELD_DECLARATIONS : list string := ["fix"; "raw"; "nav"].

Definition header_example : list (string * list string) :=
  [("Raw", ["utcTimeMillis"; "TimeNanos"]); ("Fix", ["Provider"; "Latitude"])].

(* -------------------------------------------------------------------------- *)
(** * Parsing one line of the log (GnssLog.__parse_line__) *)

(** The outcome of [GnssLog.__parse_line__]: a row, one of the exceptions of
    [result], or the IndexError of [field_names[i]]. *)
Inductive line_result : Type :=
| LineOk (row : gmap string fieldval)
| LineErr (e : pyerr)
| LineIndexError.

Section ParseLine.

(** [self.__field_conversion__(fname, valuestr)]. *)
Variable field_conversion : string -> string -> result fieldval.

(** The dict comprehension of [__parse_line__], [i] running over the values. *)
Fixpoint parse_line_loop (field_names values : list string) (row : gmap string fieldval) {struct values}
    : line_result :=
  match values with
  | [] => LineOk row
  | v :: vs =>
    match field_names with
    | [] => LineIndexError
    | n :: ns =>
      match field_conversion n v with
      | Ok x => parse_line_loop ns vs (<[n := x]> row)
      | Err e => LineErr e
      end
    end
  end.

(** [GnssLog.__parse_line__], with [self.header.fields] as [header_fields]. *)
Definition __parse_line__ (header_fields : gmap string (list string)) (line : string)
    : line_result :=
  match py_split ","%char (py_strip line) with
  | kind :: values =>
    match header_fields !! kind with
    | Some field_names => parse_line_loop field_names values ∅
    | None => LineErr KeyError
    end
  | [] => LineIndexError
  end.

End ParseLine.

(** The Raw declaration of the examples. *)
Definition parse_line_example_header : gmap string (list string) :=
  {[ "Raw" := ["utcTimeMillis"; "TimeNanos"; "Svid"] ]}.

(* ========================================================================== *)
(** * Properties *)

(** ** Numeric helpers *)

Lemma Qlt_bool_iff (a b : Q) : Qlt_bool a b = true <-> a < b.
Proof.
  unfold Qlt_bool. rewrite negb_true_iff.
  split; intro H.
  - apply Qnot_le_lt. intro H'. apply Qle_bool_iff in H'. congruence.
  - destruct (Qle_bool b a) eqn:E; [|reflexivity].
    apply Qle_bool_iff in E. exfalso. apply (Qlt_not_le a b); assumption.
Qed.

Lemma Qlt_bool_false (a b : Q) : Qlt_bool a b = false <-> b <= a.
Proof.
  unfold Qlt_bool. rewrite negb_false_iff. apply Qle_bool_iff.
Qed.

(** Python's [round] lands within one half of its argument. *)
Lemma py_round_spec (x : Q) :
  x - (1 # 2) <= inject_Z (py_round x) /\ inject_Z (py_round x) <= x + (1 # 2).
Proof.
  unfold py_round.
  pose proof (Qfloor_le x) as Hlo. pose proof (Qlt_floor x) as Hhi.
  set (f := Qfloor x) in *.
  rewrite inject_Z_plus in Hhi. change (inject_Z 1) with 1 in Hhi.
  destruct (Qlt_bool (x - inject_Z f) (1 # 2)) eqn:E1.
  - apply Qlt_bool_iff in E1. split; lra.
  - apply Qlt_bool_false in E1.
    destruct (Qlt_bool (1 # 2) (x - inject_Z f)) eqn:E2.
    + rewrite inject_Z_plus. change (inject_Z 1) with 1. split; lra.
    + apply Qlt_bool_false in E2.
      destruct (Z.even f); [|rewrite inject_Z_plus; change (inject_Z 1) with 1];
        split; lra.
Qed.

(** Below the half-week threshold the difference is returned as it is. *)
Lemma check_week_crossover_below (tRxSeconds tTxSeconds : Q) :
  tRxSeconds - tTxSeconds <= 302400 ->
  check_week_crossover tRxSeconds tTxSeconds = tRxSeconds - tTxSeconds.
Proof.
  intro H. unfold check_week_crossover.
  replace (Qlt_bool (GPS_WEEKSECS / 2) (tRxSeconds - tTxSeconds)) with false;
    [reflexivity|].
  symmetry. apply Qlt_bool_false.
  assert (Hw : GPS_WEEKSECS / 2 == 302400) by reflexivity. lra.
Qed.

(** Above it, the result is zero or the residual after removing whole weeks,
    which then lies between minus half a week and ten seconds. *)
Lemma check_week_crossover_above (tRxSeconds tTxSeconds : Q) :
  302400 < tRxSeconds - tTxSeconds ->
  check_week_crossover tRxSeconds tTxSeconds = 0 \/
  (check_week_crossover tRxSeconds tTxSeconds =
     (tRxSeconds - tTxSeconds)
     - inject_Z (py_round ((tRxSeconds - tTxSeconds) / 604800)) * 604800 /\
   -302400 <= check_week_crossover tRxSeconds tTxSeconds /\
   check_week_crossover tRxSeconds tTxSeconds <= 10).
Proof.
  intro H. unfold check_week_crossover.
  replace (Qlt_bool (GPS_WEEKSECS / 2) (tRxSeconds - tTxSeconds)) with true
    by (symmetry; apply Qlt_bool_iff;
        assert (Hw : GPS_WEEKSECS / 2 == 302400) by reflexivity; lra).
  set (tau := tRxSeconds - tTxSeconds) in *.
  pose proof (py_round_spec (tau / GPS_WEEKSECS)) as [Hl Hh].
  set (k := inject_Z (py_round (tau / GPS_WEEKSECS))) in *.
  unfold GPS_WEEKSECS in *.
  destruct (Qlt_bool 10 (tau - k * 604800)) eqn:E.
  - left. reflexivity.
  - right. apply Qlt_bool_false in E.
    assert (Hd : tau / 604800 == tau * (1 # 604800)) by reflexivity.
    split; [reflexivity | split; lra].
Qed.

(** ** The merge loop *)

Lemma merge_step_same (r m : pm) :
  pm_epoch m = pm_epoch r ->
  merge_step (Some r) (Some m) =
  Some {| pm_epoch := pm_epoch r; pm_sats := union_sats r m |}.
Proof.
  intro H. simpl. destruct (decide _); [reflexivity | contradiction].
Qed.

Lemma merge_step_other (r m : pm) :
  pm_epoch m <> pm_epoch r -> merge_step (Some r) (Some m) = Some r.
Proof.
  intro H. simpl. destruct (decide _); [contradiction | reflexivity].
Qed.

Lemma obs_lookup_union (r m : pm) (sat code : string) :
  obs_lookup {| pm_epoch := pm_epoch r; pm_sats := union_sats r m |} sat code =
  match obs_lookup m sat code with Some v => Some v | None => obs_lookup r sat code end.
Proof.
  unfold obs_lookup, union_sats; simpl. rewrite lookup_union_with.
  destruct (pm_sats r !! sat) as [d0|], (pm_sats m !! sat) as [d|]; simpl.
  - rewrite lookup_union. destruct (d !! code), (d0 !! code); reflexivity.
  - reflexivity.
  - destruct (d !! code); reflexivity.
  - reflexivity.
Qed.

Lemma has_sat_union (r m : pm) (sat : string) :
  has_sat {| pm_epoch := pm_epoch r; pm_sats := union_sats r m |} sat =
  (has_sat r sat || has_sat m sat)%bool.
Proof.
  unfold has_sat, union_sats; simpl. rewrite lookup_union_with.
  destruct (pm_sats r !! sat), (pm_sats m !! sat); reflexivity.
Qed.

Lemma fold_merge_some (l : list (option pm)) (r0 : pm) :
  exists r, fold_left merge_step l (Some r0) = Some r /\ pm_epoch r = pm_epoch r0.
Proof.
  revert r0. induction l as [|[m|] l IH]; intro r0; simpl.
  - exists r0. split; reflexivity.
  - destruct (decide (pm_epoch m = pm_epoch r0)).
    + destruct (IH {| pm_epoch := pm_epoch r0; pm_sats := union_sats r0 m |})
        as [r [Hr He]].
      exists r. split; [exact Hr | exact He].
    + apply IH.
  - apply IH.
Qed.

(** What a merge started from [r0] contains comes from [r0] or from an entry
    carrying [r0]'s epoch. *)
Lemma fold_merge_sources (l : list (option pm)) (r0 r : pm) :
  fold_left merge_step l (Some r0) = Some r ->
  pm_epoch r = pm_epoch r0 /\
  (forall sat code v, obs_lookup r sat code = Some v ->
     obs_lookup r0 sat code = Some v \/
     exists p, In (Some p) l /\ pm_epoch p = pm_epoch r0 /\ obs_lookup p sat code = Some v) /\
  (forall sat, has_sat r sat = true ->
     has_sat r0 sat = true \/
     exists p, In (Some p) l /\ pm_epoch p = pm_epoch r0 /\ has_sat p sat = true).
Proof.
  revert r0. induction l as [|[m|] l IH]; intros r0 Hf; simpl in Hf.
  - injection Hf as <-. split; [reflexivity|].
    split; intros; left; assumption.
  - destruct (decide (pm_epoch m = pm_epoch r0)) as [Heq|Hne].
    + destruct (IH _ Hf) as [He [Ho Hs]]. simpl in He.
      split; [exact He|]. split.
      * intros sat code v Hv. destruct (Ho sat code v Hv) as [H0|[p [Hin [Hp Hpv]]]].
        -- rewrite obs_lookup_union in H0.
           destruct (obs_lookup m sat code) eqn:Em.
           ++ right. exists m. injection H0 as ->.
              split; [left; reflexivity | split; assumption].
           ++ left. exact H0.
        -- right. exists p. split; [right; exact Hin | split; assumption].
      * intros sat Hv. destruct (Hs sat Hv) as [H0|[p [Hin [Hp Hpv]]]].
        -- rewrite has_sat_union in H0. apply orb_true_iff in H0 as [H0|H0].
           ++ left. exact H0.
           ++ right. exists m. split; [left; reflexivity | split; assumption].
        -- right. exists p. split; [right; exact Hin | split; assumption].
    + destruct (IH _ Hf) as [He [Ho Hs]].
      split; [exact He|]. split.
      * intros sat code v Hv. destruct (Ho sat code v Hv) as [H0|[p [Hin Hp]]].
        -- left. exact H0.
        -- right. exists p. split; [right; exact Hin | exact Hp].
      * intros sat Hv. destruct (Hs sat Hv) as [H0|[p [Hin Hp]]].
        -- left. exact H0.
        -- right. exists p. split; [right; exact Hin | exact Hp].
  - destruct (IH _ Hf) as [He [Ho Hs]].
    split; [exact He|]. split.
    + intros sat code v Hv. destruct (Ho sat code v Hv) as [H0|[p [Hin Hp]]].
      * left. exact H0.
      * right. exists p. split; [right; exact Hin | exact Hp].
    + intros sat Hv. destruct (Hs sat Hv) as [H0|[p [Hin Hp]]].
      * left. exact H0.
      * right. exists p. split; [right; exact Hin | exact Hp].
Qed.

(** Over entries of one epoch, a merge started from [r0] holds, for every
    (satellite, code), the value of the last entry that sets it. *)
Lemma fold_merge_same (T : Z) (l : list (option pm)) (r0 : pm) :
  pm_epoch r0 = T -> same_epoch T l ->
  exists r, fold_left merge_step l (Some r0) = Some r /\ pm_epoch r = T /\
    (forall sat code, obs_lookup r sat code = last_obs l sat code (obs_lookup r0 sat code)) /\
    (forall sat, has_sat r sat = (has_sat r0 sat || existsb (entry_has_sat sat) l)%bool).
Proof.
  revert r0. induction l as [|[m|] l IH]; intros r0 H0 Hl; simpl.
  - exists r0. split; [reflexivity|]. split; [exact H0|].
    split; [reflexivity|]. intro sat. rewrite orb_false_r. reflexivity.
  - inversion Hl as [|? ? Hm Hl']; subst.
    rewrite decide_True by (rewrite Hm; reflexivity).
    destruct (IH {| pm_epoch := pm_epoch r0; pm_sats := union_sats r0 m |}
                 eq_refl Hl') as [r [Hr [He [Ho Hs]]]].
    exists r. split; [exact Hr|]. split; [exact He|]. split.
    + intros sat code. rewrite Ho, obs_lookup_union. reflexivity.
    + intro sat. rewrite Hs, has_sat_union. simpl. rewrite orb_assoc. reflexivity.
  - inversion Hl as [|? ? _ Hl']; subst.
    destruct (IH r0 eq_refl Hl') as [r [Hr [He [Ho Hs]]]].
    exists r. split; [exact Hr|]. split; [exact He|]. split; [exact Ho|].
    intro sat. rewrite Hs. reflexivity.
Qed.

Lemma merge_none_iff (l : list (option pm)) :
  merge l = None <-> Forall (fun x => x = None) l.
Proof.
  unfold merge. induction l as [|[m|] l IH]; simpl.
  - split; [constructor | reflexivity].
  - destruct (fold_merge_some l m) as [r [Hr _]]. rewrite Hr.
    split; [discriminate | intro H; inversion H; discriminate].
  - rewrite IH. split; [constructor; [reflexivity | assumption] | intro H; inversion H; assumption].
Qed.

Lemma last_obs_none_acc (l : list (option pm)) (sat code : string) (acc : option fieldval) :
  last_obs l sat code acc =
  match last_obs l sat code None with Some v => Some v | None => acc end.
Proof.
  unfold last_obs. revert acc. induction l as [|[p|] l IH]; intro acc; simpl.
  - reflexivity.
  - destruct (obs_lookup p sat code) as [v|].
    + rewrite (IH (Some v)). destruct (fold_left _ l None); reflexivity.
    + rewrite (IH acc), (IH None). reflexivity.
  - rewrite (IH acc), (IH None). reflexivity.
Qed.

(** Over entries of one epoch, [merge] is [None] when every entry is, and
    otherwise a record of that epoch holding the last value set for each
    (satellite, code) and every satellite some entry has. *)
Lemma merge_same_epoch (T : Z) (l : list (option pm)) :
  same_epoch T l ->
  (merge l = None /\ Forall (fun x => x = None) l) \/
  exists r, merge l = Some r /\ pm_epoch r = T /\
    (forall sat code, obs_lookup r sat code = last_obs l sat code None) /\
    (forall sat, has_sat r sat = existsb (entry_has_sat sat) l).
Proof.
  unfold merge. induction l as [|[m|] l IH]; intro Hl; simpl.
  - left. split; [reflexivity | constructor].
  - right. inversion Hl as [|? ? Hm Hl']; subst.
    destruct (fold_merge_same (pm_epoch m) l m eq_refl Hl') as [r [Hr [He [Ho Hs]]]].
    exists r. split; [exact Hr|]. split; [exact He|]. split.
    + intros sat code. rewrite Ho. unfold last_obs. simpl.
      destruct (obs_lookup m sat code); reflexivity.
    + intro sat. rewrite Hs. reflexivity.
  - inversion Hl as [|? ? _ Hl']; subst.
    destruct (IH Hl') as [[Hn Hf]|[r [Hr [He [Ho Hs]]]]].
    + left. split; [exact Hn | constructor; [reflexivity | exact Hf]].
    + right. exists r. split; [exact Hr|]. split; [exact He|]. split; [exact Ho|].
      exact Hs.
Qed.

(** Two records that agree on epoch, satellites and observables are equal. *)
Lemma pm_ext (r1 r2 : pm) :
  pm_epoch r1 = pm_epoch r2 ->
  (forall sat, has_sat r1 sat = has_sat r2 sat) ->
  (forall sat code, obs_lookup r1 sat code = obs_lookup r2 sat code) ->
  r1 = r2.
Proof.
  destruct r1 as [e1 s1], r2 as [e2 s2]; unfold has_sat, obs_lookup; simpl.
  intros He Hs Ho. subst e2. f_equal. apply map_eq. intro sat.
  specialize (Hs sat). specialize (Ho sat).
  destruct (s1 !! sat) as [d1|], (s2 !! sat) as [d2|]; try discriminate.
  - f_equal. apply map_eq. exact Ho.
  - reflexivity.
Qed.

Lemma last_obs_all_none (l : list (option pm)) (sat code : string) (acc : option fieldval) :
  Forall (fun x => x = None) l -> last_obs l sat code acc = acc.
Proof.
  unfold last_obs. revert acc. induction l as [|x l IH]; intros acc Hl; simpl.
  - reflexivity.
  - inversion Hl as [|? ? Hx Hl']; subst. apply IH. exact Hl'.
Qed.

Lemma existsb_all_none (l : list (option pm)) (sat : string) :
  Forall (fun x => x = None) l -> existsb (entry_has_sat sat) l = false.
Proof.
  induction l as [|x l IH]; intro Hl; simpl.
  - reflexivity.
  - inversion Hl as [|? ? Hx Hl']; subst. simpl. apply IH. exact Hl'.
Qed.

Lemma last_obs_some_in (l : list (option pm)) (sat code : string) (acc : option fieldval) v :
  last_obs l sat code acc = Some v ->
  acc = Some v \/ exists p, In (Some p) l /\ obs_lookup p sat code = Some v.
Proof.
  unfold last_obs. revert acc. induction l as [|[p|] l IH]; intros acc H; simpl in H.
  - left. exact H.
  - destruct (IH _ H) as [Ha|[q [Hq Hqv]]].
    + destruct (obs_lookup p sat code) eqn:Ep.
      * right. exists p. split; [left; reflexivity | rewrite Ep; exact Ha].
      * left. exact Ha.
    + right. exists q. split; [right; exact Hq | exact Hqv].
  - destruct (IH _ H) as [Ha|[q [Hq Hqv]]].
    + left. exact Ha.
    + right. exists q. split; [right; exact Hq | exact Hqv].
Qed.

Lemma last_obs_some_acc (l : list (option pm)) (sat code : string) (v : fieldval) :
  exists w, last_obs l sat code (Some v) = Some w.
Proof.
  unfold last_obs. revert v. induction l as [|[q|] l IH]; intro v; simpl.
  - exists v. reflexivity.
  - destruct (obs_lookup q sat code) as [u|]; apply IH.
  - apply IH.
Qed.

Lemma last_obs_none_not_in (l : list (option pm)) (sat code : string) (acc : option fieldval) p :
  last_obs l sat code acc = None -> In (Some p) l -> obs_lookup p sat code = None.
Proof.
  revert acc. induction l as [|[q|] l IH]; intros acc H Hin.
  - destruct Hin.
  - unfold last_obs in H. simpl in H. fold (last_obs l sat code) in H.
    destruct Hin as [Hin|Hin].
    + injection Hin as ->.
      destruct (obs_lookup p sat code) as [v|] eqn:Ep; [|reflexivity].
      destruct (last_obs_some_acc l sat code v) as [w Hw].
      unfold last_obs in *. rewrite Hw in H. discriminate.
    + exact (IH _ H Hin).
  - destruct Hin as [Hin|Hin]; [discriminate|].
    unfold last_obs in H. simpl in H. fold (last_obs l sat code) in H.
    exact (IH _ H Hin).
Qed.

Lemma existsb_perm {A : Type} (f : A -> bool) (l l' : list A) :
  Permutation l l' -> existsb f l = existsb f l'.
Proof.
  induction 1 as [| x l l' _ IH | x y l | l l' l'' _ IH1 _ IH2]; simpl.
  - reflexivity.
  - rewrite IH. reflexivity.
  - rewrite !orb_assoc, (orb_comm (f y)). reflexivity.
  - rewrite IH1. exact IH2.
Qed.

Lemma filter_length_perm {A : Type} (f : A -> bool) (l l' : list A) :
  Permutation l l' -> length (List.filter f l) = length (List.filter f l').
Proof.
  induction 1 as [| x l l' _ IH | x y l | l l' l'' _ IH1 _ IH2]; simpl.
  - reflexivity.
  - destruct (f x); simpl; rewrite IH; reflexivity.
  - destruct (f x), (f y); reflexivity.
  - rewrite IH1. exact IH2.
Qed.

Lemma filter_at_most_one {A : Type} (f : A -> bool) (l : list A) (x y : A) :
  (length (List.filter f l) <= 1)%nat ->
  In x l -> f x = true -> In y l -> f y = true -> x = y.
Proof.
  intros Hlen Hx Hfx Hy Hfy.
  assert (Hx' : In x (List.filter f l)) by (apply filter_In; split; assumption).
  assert (Hy' : In y (List.filter f l)) by (apply filter_In; split; assumption).
  destruct (List.filter f l) as [|a [|b t]]; simpl in *.
  - destruct Hx'.
  - destruct Hx' as [<-|[]]; destruct Hy' as [<-|[]]; reflexivity.
  - lia.
Qed.

Lemma last_obs_cons (x : option pm) (l : list (option pm)) (sat code : string) acc :
  last_obs (x :: l) sat code acc =
  last_obs l sat code
    (match x with
     | Some p => match obs_lookup p sat code with Some v => Some v | None => acc end
     | None => acc
     end).
Proof. reflexivity. Qed.

Lemma last_obs_app (l1 l2 : list (option pm)) (sat code : string) acc :
  last_obs (l1 ++ l2)%list sat code acc = last_obs l2 sat code (last_obs l1 sat code acc).
Proof. unfold last_obs. apply fold_left_app. Qed.

Lemma merge_groups_contents (T : Z) (groups : list (list (option pm)))
    (sat code : string) (acc : option fieldval) :
  Forall (same_epoch T) groups ->
  last_obs (map merge groups) sat code acc = last_obs (concat groups) sat code acc /\
  existsb (entry_has_sat sat) (map merge groups) = existsb (entry_has_sat sat) (concat groups).
Proof.
  revert acc. induction groups as [|g gs IH]; intros acc Hg.
  - split; reflexivity.
  - inversion Hg as [|? ? Hg1 Hgs]; subst.
    change (map merge (g :: gs)) with (merge g :: map merge gs).
    change (concat (g :: gs)) with (app g (concat gs)).
    rewrite last_obs_cons, last_obs_app, existsb_app. simpl existsb.
    destruct (merge_same_epoch T g Hg1) as [[Hn Hf]|[r [Hr [He [Ho Hs]]]]].
    + rewrite Hn, (last_obs_all_none g sat code acc Hf), (existsb_all_none g sat Hf).
      apply (IH acc Hgs).
    + rewrite Hr. simpl entry_has_sat. rewrite Ho, Hs, <- last_obs_none_acc.
      destruct (IH (last_obs g sat code acc) Hgs) as [H1 H2].
      rewrite H1, H2. split; reflexivity.
Qed.

Lemma merge_perm_contents (l l' : list pm) (sat code : string) :
  unique_obs l -> Permutation l l' ->
  last_obs (map Some l) sat code None = last_obs (map Some l') sat code None.
Proof.
  intros Hu Hp.
  assert (Hu' : unique_obs l').
  { intros s c. rewrite <- (filter_length_perm _ _ _ Hp). apply Hu. }
  assert (Hin : forall (k k' : list pm), Permutation k k' -> forall p,
            In (Some p) (map Some k) -> In (Some p) (map Some k')).
  { intros k k' Hk p0 H. apply in_map_iff in H as [q [Hq Hqin]]. injection Hq as ->.
    apply in_map. exact (Permutation_in _ Hk Hqin). }
  assert (Hinv : forall (k : list pm) p, In (Some p) (map Some k) -> In p k).
  { intros k p0 H. apply in_map_iff in H as [q [Hq Hqin]]. injection Hq as ->. exact Hqin. }
  destruct (last_obs (map Some l) sat code None) as [v|] eqn:E1;
    destruct (last_obs (map Some l') sat code None) as [w|] eqn:E2.
  - destruct (last_obs_some_in _ _ _ _ _ E1) as [Hc|[p [Hpin Hpv]]]; [discriminate|].
    destruct (last_obs_some_in _ _ _ _ _ E2) as [Hc|[q [Hqin Hqv]]]; [discriminate|].
    assert (p = q) as <-.
    { apply (filter_at_most_one (fun p => has_obs p sat code) l' p q (Hu' sat code)).
      - apply Hinv. exact (Hin _ _ Hp p Hpin).
      - unfold has_obs. rewrite Hpv. reflexivity.
      - apply Hinv. exact Hqin.
      - unfold has_obs. rewrite Hqv. reflexivity. }
    congruence.
  - destruct (last_obs_some_in _ _ _ _ _ E1) as [Hc|[p [Hpin Hpv]]]; [discriminate|].
    pose proof (last_obs_none_not_in _ _ _ _ p E2 (Hin _ _ Hp p Hpin)). congruence.
  - destruct (last_obs_some_in _ _ _ _ _ E2) as [Hc|[p [Hpin Hpv]]]; [discriminate|].
    pose proof (last_obs_none_not_in _ _ _ _ p E1
                  (Hin _ _ (Permutation_sym Hp) p Hpin)). congruence.
  - reflexivity.
Qed.

(* ========================================================================== *)
(** * Claims *)

(** ** Week crossover *)

(** C1 (as amended): when the raw difference [tau = tRxSeconds - tTxSeconds]
    exceeds half a week, check_week_crossover returns either exactly zero or
    the residual [tau - round(tau/604800)*604800], which then lies between
    -302400 and 10 seconds; when [tau] is at most half a week (in particular
    when it is below -302400) [tau] is returned unchanged. *)
Theorem week_crossover_residual_window (tRxSeconds tTxSeconds : Q) :
  (302400 < tRxSeconds - tTxSeconds ->
   check_week_crossover tRxSeconds tTxSeconds = 0 \/
   (check_week_crossover tRxSeconds tTxSeconds =
      (tRxSeconds - tTxSeconds)
      - inject_Z (py_round ((tRxSeconds - tTxSeconds) / 604800)) * 604800 /\
    -302400 <= check_week_crossover tRxSeconds tTxSeconds /\
    check_week_crossover tRxSeconds tTxSeconds <= 10)) /\
  (tRxSeconds - tTxSeconds <= 302400 ->
   check_week_crossover tRxSeconds tTxSeconds = tRxSeconds - tTxSeconds).
Proof.
  split.
  - apply check_week_crossover_above.
  - apply check_week_crossover_below.
Qed.

(** C1 fails as stated: a transmit time 400000 s ahead of the reception time
    (|tau| > 302400) is returned as -400000 s, and a difference of 603800 s
    leaves the residual -1000 s; neither is zero nor within 10 s. *)
Lemma week_crossover_outside_window :
  302400 < Qabs (0 - 400000) /\
  check_week_crossover 0 400000 == -400000 /\
  10 < Qabs (check_week_crossover 0 400000) /\
  302400 < Qabs (604800 - 1000) /\
  check_week_crossover 604800 1000 == -1000 /\
  10 < Qabs (check_week_crossover 604800 1000).
Proof.
  repeat split; vm_compute; reflexivity.
Qed.

(** C10: when [tau = tRxSeconds - tTxSeconds <= 302400], check_week_crossover
    returns [tau] unchanged: a large negative difference is neither corrected
    nor zeroed. *)
Theorem week_crossover_identity_below_half_week (tRxSeconds tTxSeconds : Q)
    (Htau : tRxSeconds - tTxSeconds <= 302400) :
  check_week_crossover tRxSeconds tTxSeconds = tRxSeconds - tTxSeconds.
Proof.
  apply check_week_crossover_below. exact Htau.
Qed.

Lemma week_crossover_identity_below_half_week_witness :
  0 - 400000 <= 302400 /\ check_week_crossover 0 400000 = 0 - 400000.
Proof.
  split.
  - vm_compute. discriminate.
  - apply week_crossover_identity_below_half_week. vm_compute. discriminate.
Defined.

(** ** Frequency band and attribute *)

(** C2 (as amended): with [m = round(f / 10.23e6)], get_rnx_band_from_freq
    returns band 1 when [m >= 154], band 5 when [m = 115], band 2 when
    [m = 153], and raises ValueError for every other multiplier (152 among
    them); an empty frequency field counts as band 1.  process does not catch
    that ValueError: it propagates to process's caller. *)
Theorem rnx_band_classification (f : Q) :
  let m := py_round (f / 10230000) in
  ((154 <= m)%Z -> get_rnx_band_from_freq (FNum f) = Ok 1%Z) /\
  (m = 115%Z -> get_rnx_band_from_freq (FNum f) = Ok 5%Z) /\
  (m = 153%Z -> get_rnx_band_from_freq (FNum f) = Ok 2%Z) /\
  ((m < 154)%Z -> m <> 115%Z -> m <> 153%Z ->
   get_rnx_band_from_freq (FNum f) = Err ValueError) /\
  get_rnx_band_from_freq (FStr EmptyString) = Ok 1%Z /\
  (forall meas fb integerize bias satname,
     get_satname meas = Ok satname ->
     get_rnx_band_from_freq (get_frequency meas) = Err ValueError ->
     process meas fb integerize bias = Err ValueError).
Proof.
  intro m. unfold get_rnx_band_from_freq. simpl rbind. fold m.
  repeat split.
  - intro H. apply Z.leb_le in H. rewrite H. reflexivity.
  - intro H. rewrite H. reflexivity.
  - intro H. rewrite H. reflexivity.
  - intros H1 H2 H3.
    replace (154 <=? m)%Z with false by (symmetry; apply Z.leb_gt; exact H1).
    replace (m =? 115)%Z with false by (symmetry; apply Z.eqb_neq; exact H2).
    replace (m =? 153)%Z with false by (symmetry; apply Z.eqb_neq; exact H3).
    reflexivity.
  - intros meas fb integerize bias satname Hs Hb.
    unfold process. rewrite Hs. unfold get_obscode, get_rnx_band_from_freq.
    rewrite Hb. reflexivity.
Qed.

(** C2 fails as stated: the BeiDou B1I frequency 1561097980 Hz has multiplier
    153 (>= 152) and is band 2, and multiplier 152 is refused with
    ValueError. *)
Lemma rnx_band_152_153_not_band_1 :
  py_round (1561097980 / 10230000) = 153%Z /\
  get_rnx_band_from_freq (FNum 1561097980) = Ok 2%Z /\
  py_round (152 * 10230000 / 10230000) = 152%Z /\
  get_rnx_band_from_freq (FNum (152 * 10230000)) = Err ValueError.
Proof.
  repeat split; vm_compute; reflexivity.
Qed.

(** C9: get_rnx_attr returns 'Q' on band 5; 'I' on band 2 for BeiDou ('C');
    for Galileo ('E') on band 1, 'B' exactly when the E1C second-code-lock
    bit is clear and the E1B page-sync bit is set, else 'C'; and 'C' in
    every other case. *)
Theorem rnx_attr_cases (band : Z) (constellation : string) (state : Z) :
  (band = 5%Z -> get_rnx_attr band constellation state = "Q") /\
  (band = 2%Z -> constellation = "C" -> get_rnx_attr band constellation state = "I") /\
  (band = 1%Z -> constellation = "E" ->
   get_rnx_attr band constellation state =
   if ((Z.land state STATE_GAL_E1C_2ND_CODE_LOCK =? 0)%Z
       && negb (Z.land state STATE_GAL_E1B_PAGE_SYNC =? 0)%Z)%bool
   then "B" else "C") /\
  (band <> 5%Z -> ~ (band = 2%Z /\ constellation = "C") ->
   ~ (band = 1%Z /\ constellation = "E") ->
   get_rnx_attr band constellation state = "C").
Proof.
  unfold get_rnx_attr.
  repeat split.
  - intro H. subst band. simpl.
    destruct (String.eqb constellation "C"); reflexivity.
  - intros H1 H2. subst band constellation. reflexivity.
  - intros H1 H2. subst band constellation. simpl.
    destruct (_ && _)%bool; reflexivity.
  - intros H5 H2 H1.
    replace (band =? 5)%Z with false by (symmetry; apply Z.eqb_neq; exact H5).
    destruct (band =? 1)%Z eqn:E1; destruct (String.eqb constellation "E") eqn:EE;
      destruct (band =? 2)%Z eqn:E2; destruct (String.eqb constellation "C") eqn:EC;
      simpl; try reflexivity;
      try apply Z.eqb_eq in E1; try apply Z.eqb_eq in E2;
      try apply String.eqb_eq in EE; try apply String.eqb_eq in EC;
      exfalso; first [apply H1; split; assumption
                     | apply H2; split; assumption | lia].
Qed.

(** ** Epoch merger *)

(** C6: merge returns None exactly when every entry is None; otherwise the
    result's epoch is the epoch of the first entry that is not None, every
    observable value and every satellite of the result comes from an entry
    carrying that epoch, and an entry of another epoch is skipped: removing
    it does not change the result. *)
Theorem merge_first_epoch_sources (l : list (option pm)) :
  (merge l = None <-> Forall (fun x => x = None) l) /\
  (forall r, merge l = Some r ->
     (exists l1 p l2, l = (l1 ++ Some p :: l2)%list /\ Forall (fun x => x = None) l1 /\
        pm_epoch r = pm_epoch p) /\
     (forall sat code v, obs_lookup r sat code = Some v ->
        exists p, In (Some p) l /\ pm_epoch p = pm_epoch r /\ obs_lookup p sat code = Some v) /\
     (forall sat, has_sat r sat = true ->
        exists p, In (Some p) l /\ pm_epoch p = pm_epoch r /\ has_sat p sat = true)) /\
  (forall l1 q l2 r, merge l1 = Some r -> pm_epoch q <> pm_epoch r ->
     merge (l1 ++ Some q :: l2)%list = merge (l1 ++ l2)%list).
Proof.
  split; [apply merge_none_iff|]. split.
  - induction l as [|[m|] l IH]; intros r Hr.
    + discriminate.
    + unfold merge in Hr. simpl in Hr.
      destruct (fold_merge_sources l m r Hr) as [He [Ho Hs]].
      split; [|split].
      * exists [], m, l. split; [reflexivity|]. split; [constructor | exact He].
      * intros sat code v Hv. rewrite He.
        destruct (Ho sat code v Hv) as [H0|[p [Hin Hp]]].
        -- exists m. split; [left; reflexivity | split; [reflexivity | exact H0]].
        -- exists p. split; [right; exact Hin | exact Hp].
      * intros sat Hv. rewrite He.
        destruct (Hs sat Hv) as [H0|[p [Hin Hp]]].
        -- exists m. split; [left; reflexivity | split; [reflexivity | exact H0]].
        -- exists p. split; [right; exact Hin | exact Hp].
    + assert (Hr' : merge l = Some r) by exact Hr.
      destruct (IH r Hr') as [[l1 [p [l2 [Hl [Hn He]]]]] [Ho Hs]].
      split; [|split].
      * exists (None :: l1), p, l2. rewrite Hl.
        split; [reflexivity|]. split; [constructor; [reflexivity | exact Hn] | exact He].
      * intros sat code v Hv. destruct (Ho sat code v Hv) as [p' [Hin Hp]].
        exists p'. split; [right; exact Hin | exact Hp].
      * intros sat Hv. destruct (Hs sat Hv) as [p' [Hin Hp]].
        exists p'. split; [right; exact Hin | exact Hp].
  - intros l1 q l2 r Hr Hq. unfold merge in *.
    rewrite !fold_left_app, Hr. simpl. rewrite decide_False by exact Hq.
    reflexivity.
Qed.

(** C7 (as amended): over entries that all carry the epoch [T], merging an
    empty sequence gives None; merge is associative: merging the merges of
    any grouping equals merging the whole sequence; every observable of the
    result is the value of the last entry that sets that (satellite, code),
    so a permutation of the entries gives an equal record when no
    (satellite, code) is set by two entries (and in general need not). *)
Theorem merge_grouping_permutation (T : Z) :
  merge [] = None /\
  (forall groups : list (list (option pm)), Forall (same_epoch T) groups ->
     merge (map merge groups) = merge (concat groups)) /\
  (forall l : list (option pm), same_epoch T l ->
     forall r sat code, merge l = Some r -> obs_lookup r sat code = last_obs l sat code None) /\
  (forall l l' : list pm, Forall (fun p => pm_epoch p = T) l -> unique_obs l ->
     Permutation l l' -> merge (map Some l) = merge (map Some l')).
Proof.
  split; [reflexivity|]. split; [|split].
  - intros groups Hg.
    assert (HL : same_epoch T (map merge groups)).
    { unfold same_epoch. apply Forall_map. eapply Forall_impl; [exact Hg|].
      intros g Hg1. destruct (merge_same_epoch T g Hg1) as [[-> _]|[r [-> [He _]]]];
        [exact I | exact He]. }
    assert (HC : same_epoch T (concat groups)).
    { unfold same_epoch. apply Forall_concat. exact Hg. }
    destruct (merge_same_epoch T _ HL) as [[HnL HfL]|[rL [HrL [HeL [HoL HsL]]]]];
      destruct (merge_same_epoch T _ HC) as [[HnC HfC]|[rC [HrC [HeC [HoC HsC]]]]].
    + congruence.
    + exfalso. assert (merge (concat groups) = None) as Hc; [|congruence].
      apply merge_none_iff. apply Forall_concat. apply Forall_map in HfL.
      eapply Forall_impl; [exact HfL|]. intros g Hg0. apply merge_none_iff. exact Hg0.
    + exfalso. assert (merge (map merge groups) = None) as Hc; [|congruence].
      apply merge_none_iff. apply Forall_map. apply Forall_concat in HfC.
      eapply Forall_impl; [exact HfC|]. intros g Hg0. apply merge_none_iff. exact Hg0.
    + rewrite HrL, HrC. f_equal. apply pm_ext.
      * congruence.
      * intro sat. rewrite HsL, HsC.
        exact (proj2 (merge_groups_contents T groups sat EmptyString None Hg)).
      * intros sat code. rewrite HoL, HoC.
        exact (proj1 (merge_groups_contents T groups sat code None Hg)).
  - intros l Hl r sat code Hr.
    destruct (merge_same_epoch T l Hl) as [[Hn _]|[r' [Hr' [_ [Ho _]]]]]; [congruence|].
    rewrite Hr in Hr'. injection Hr' as <-. apply Ho.
  - intros l l' Hl Hu Hp.
    assert (Hl' : Forall (fun p => pm_epoch p = T) l')
      by (eapply Permutation_Forall; [exact Hp | exact Hl]).
    assert (HS : forall k, Forall (fun p => pm_epoch p = T) k -> same_epoch T (map Some k))
      by (intros k Hk; unfold same_epoch; apply Forall_map; exact Hk).
    destruct l as [|p0 l0].
    + apply Permutation_nil in Hp. subst l'. reflexivity.
    + destruct l' as [|p1 l1]; [apply Permutation_sym, Permutation_nil in Hp; discriminate|].
      destruct (merge_same_epoch T _ (HS _ Hl)) as [[_ Hf]|[r [Hr [He [Ho Hs]]]]];
        [inversion Hf; discriminate|].
      destruct (merge_same_epoch T _ (HS _ Hl')) as [[_ Hf]|[r' [Hr' [He' [Ho' Hs']]]]];
        [inversion Hf; discriminate|].
      rewrite Hr, Hr'. f_equal. apply pm_ext.
      * congruence.
      * intro sat. rewrite Hs, Hs'. apply existsb_perm, Permutation_map. exact Hp.
      * intros sat code. rewrite Ho, Ho'. apply merge_perm_contents; assumption.
Qed.

(** C7 fails as stated: two entries of one epoch that both set C1C of G05
    merge to 200.0 in one order and to 100.0 in the other. *)
Lemma merge_order_dependent :
  let a := {| pm_epoch := GPSTIME; pm_sats := {[ "G05" := {[ "C1C" := FNum 100 ]} ]} |} in
  let b := {| pm_epoch := GPSTIME; pm_sats := {[ "G05" := {[ "C1C" := FNum 200 ]} ]} |} in
  Permutation [a; b] [b; a] /\
  option_map (fun r => obs_lookup r "G05" "C1C") (merge [Some a; Some b])
    = Some (Some (FNum 200)) /\
  option_map (fun r => obs_lookup r "G05" "C1C") (merge [Some b; Some a])
    = Some (Some (FNum 100)).
Proof.
  split; [apply perm_swap|]. split; vm_compute; reflexivity.
Qed.

(** ** Satellite names *)

Lemma format_02d_two_digits_check :
  forallb (fun z => String.eqb (format_02d z)
             (String (ascii_of_N (48 + Z.to_N (z / 10)))
               (String (ascii_of_N (48 + Z.to_N (z mod 10))) EmptyString)))
    (map Z.of_nat (seq 0 100)) = true.
Proof. vm_compute. reflexivity. Qed.

(** For 0 <= z <= 99, [format(z, '02d')] is the two decimal digits of z. *)
Lemma format_02d_two_digits (z : Z) :
  (0 <= z <= 99)%Z ->
  format_02d z = String (ascii_of_N (48 + Z.to_N (z / 10)))
                   (String (ascii_of_N (48 + Z.to_N (z mod 10))) EmptyString).
Proof.
  intro Hz. pose proof format_02d_two_digits_check as H.
  rewrite forallb_forall in H.
  apply String.eqb_eq, H, in_map_iff. exists (Z.to_nat z). split.
  - apply Z2Nat.id. lia.
  - apply in_seq. lia.
Qed.

(** get_satname once the constellation letter is known. *)
Lemma get_satname_letter (meas : measurement) (c : string) :
  CONSTELLATION_LETTER (ConstellationType meas) = Ok c ->
  get_satname meas =
    if ((50 <? Svid meas)%Z && String.eqb c "R")%bool then Err ValueError
    else Ok (String.append c (format_02d (Svid meas))).
Proof. intro H. unfold get_satname, get_constellation. rewrite H. reflexivity. Qed.

Lemma rbind_ok_inv {A B : Type} (m : result A) (k : A -> result B) (x : B) :
  rbind m k = Ok x -> exists a, m = Ok a /\ k a = Ok x.
Proof. destruct m as [a|e]; simpl; [eauto | discriminate]. Qed.

(** Once get_satname has named the satellite, process returns a record or
    raises: it never returns None. *)
Lemma process_named_not_none meas fbo integerize pb satname :
  get_satname meas = Ok satname -> process meas fbo integerize pb <> Ok None.
Proof.
  intros Es H. unfold process in H. rewrite Es in H.
  apply rbind_ok_inv in H as [obscode [_ H]].
  apply rbind_ok_inv in H as [t [_ H]].
  apply rbind_ok_inv in H as [fb [_ H]].
  apply rbind_ok_inv in H as [[[epoch sow] frac] [_ H]]. cbn beta iota zeta in H.
  apply rbind_ok_inv in H as [freq [_ H]].
  apply rbind_ok_inv in H as [wl [_ H]].
  apply rbind_ok_inv in H as [range [_ H]].
  apply rbind_ok_inv in H as [cphase [_ H]].
  apply rbind_ok_inv in H as [prr [_ H]].
  apply rbind_ok_inv in H as [doppler [_ H]].
  discriminate H.
Qed.

(** C8 (as amended): for a ConstellationType outside 0..6, get_satname raises
    KeyError and process propagates it; for 0..6, get_satname raises
    ValueError exactly when the constellation is GLONASS and Svid > 50, and
    otherwise returns the constellation letter followed by Svid formatted
    with '02d' (two zero-padded digits for 0 <= Svid <= 99); process returns
    None exactly when get_satname raises ValueError. *)
Theorem satname_cases :
  (forall meas : measurement,
     (ConstellationType meas < 0 \/ 6 < ConstellationType meas)%Z ->
     get_satname meas = Err KeyError /\
     forall fb integerize bias, process meas fb integerize bias = Err KeyError) /\
  (forall meas : measurement, (0 <= ConstellationType meas <= 6)%Z ->
     (get_satname meas = Err ValueError <->
      ConstellationType meas = CONSTELLATION_GLONASS /\ (50 < Svid meas)%Z) /\
     (~ (ConstellationType meas = CONSTELLATION_GLONASS /\ (50 < Svid meas)%Z) ->
      exists c, CONSTELLATION_LETTER (ConstellationType meas) = Ok c /\
        get_satname meas = Ok (String.append c (format_02d (Svid meas))))) /\
  (forall meas fb integerize bias,
     get_satname meas = Err ValueError <-> process meas fb integerize bias = Ok None) /\
  (forall z, (0 <= z <= 99)%Z ->
     format_02d z = String (ascii_of_N (48 + Z.to_N (z / 10)))
                      (String (ascii_of_N (48 + Z.to_N (z mod 10))) EmptyString)).
Proof.
  split; [|split; [|split]].
  - intros meas Hc.
    assert (Hk : get_satname meas = Err KeyError).
    { unfold get_satname, get_constellation, CONSTELLATION_LETTER.
      destruct (ConstellationType meas) as [|p|p] eqn:E;
        unfold CONSTELLATION_GPS, CONSTELLATION_SBAS, CONSTELLATION_GLONASS,
          CONSTELLATION_QZSS, CONSTELLATION_BEIDOU, CONSTELLATION_GALILEO,
          CONSTELLATION_UNKNOWN;
        [lia | | reflexivity].
      repeat (rewrite (proj2 (Z.eqb_neq _ _)) by lia). reflexivity. }
    split; [exact Hk|]. intros fb integerize bias. unfold process. rewrite Hk.
    reflexivity.
  - intros meas Hc.
    assert (HL : exists c, CONSTELLATION_LETTER (ConstellationType meas) = Ok c /\
              (String.eqb c "R" = true <-> ConstellationType meas = CONSTELLATION_GLONASS)).
    { assert (Hct : ConstellationType meas = 0%Z \/ ConstellationType meas = 1%Z \/
                    ConstellationType meas = 2%Z \/ ConstellationType meas = 3%Z \/
                    ConstellationType meas = 4%Z \/ ConstellationType meas = 5%Z \/
                    ConstellationType meas = 6%Z) by lia.
      unfold CONSTELLATION_GLONASS.
      destruct Hct as [E|[E|[E|[E|[E|[E|E]]]]]]; rewrite E; eexists;
        (split; [reflexivity | split; intro H; first [reflexivity | discriminate]]). }
    destruct HL as [c [HL Hr]]. rewrite (get_satname_letter _ _ HL).
    split; [split|].
    + intro H. destruct (50 <? Svid meas)%Z eqn:Hs; destruct (String.eqb c "R") eqn:HR;
        simpl in H; try discriminate.
      split; [apply Hr; reflexivity | apply Z.ltb_lt; exact Hs].
    + intros [H1 H2]. apply Hr in H1. rewrite H1. apply Z.ltb_lt in H2. rewrite H2.
      reflexivity.
    + intro Hn. exists c. split; [exact HL|].
      destruct (50 <? Svid meas)%Z eqn:Hs; destruct (String.eqb c "R") eqn:HR;
        simpl; try reflexivity.
      exfalso. apply Hn. split; [apply Hr; reflexivity | apply Z.ltb_lt; exact Hs].
  - intros meas fb integerize bias. split.
    + intro H. unfold process. rewrite H. reflexivity.
    + intro H. destruct (get_satname meas) as [satname|e] eqn:Es.
      * exfalso. exact (process_named_not_none _ _ _ _ _ Es H).
      * destruct e; try reflexivity;
          unfold process in H; rewrite Es in H; discriminate H.
  - exact format_02d_two_digits.
Qed.

(** C8 fails as stated: a row with ConstellationType 7 makes get_satname
    raise KeyError although it is not GLONASS, and process raises it instead
    of returning None. *)
Lemma satname_unknown_constellation_key_error :
  get_satname (gnss_row 7 5 15 1 (FNum 1575420030) (FNum 1000000000)) = Err KeyError /\
  process (gnss_row 7 5 15 1 (FNum 1575420030) (FNum 1000000000)) None false 0
    = Err KeyError.
Proof. split; vm_compute; reflexivity. Qed.

(** ** The record process returns *)

Lemma pm_record_lookups epoch satname obscode range cphase doppler cn0 :
  let r := pm_record epoch satname obscode range cphase doppler cn0 in
  obs_lookup r satname (String.append "C" obscode) = Some range /\
  obs_lookup r satname (String.append "L" obscode) = Some cphase /\
  obs_lookup r satname (String.append "D" obscode) = Some (FNum doppler) /\
  obs_lookup r satname (String.append "S" obscode) = Some cn0.
Proof.
  unfold obs_lookup, pm_record. simpl. rewrite lookup_singleton. simpl.
  repeat split; simplify_map_eq; reflexivity.
Qed.

(** Everything a record returned by process is made of. *)
Lemma process_some_inv meas fbo integerize pb r :
  process meas fbo integerize pb = Ok (Some r) ->
  exists satname obscode fb t epoch sow frac freq wavelength range cphase prr doppler,
    get_satname meas = Ok satname /\
    get_obscode meas = Ok obscode /\
    py_float (TimeNanos meas) = Ok t /\
    num_of (effective_fullbias meas fbo) = Ok fb /\
    gps_time t fb (biasnanos_of meas) integerize = Ok (epoch, sow, frac) /\
    num_of (get_frequency meas) = Ok freq /\
    py_div SPEED_OF_LIGHT freq = Ok wavelength /\
    ((check_sync_state meas = Err ValueError /\ range = FNum 0) \/
     (exists b rstn tTx, check_sync_state meas = Ok b /\
        num_of (ReceivedSvTimeNanos meas) = Ok rstn /\
        spec_tTx (ConstellationType meas) epoch rstn = Ok tTx /\
        let tau := check_week_crossover (sow - timeoffsetnanos_of meas * NS_TO_S) tTx in
        range = FNum (if integerize then tau * SPEED_OF_LIGHT - pb - frac * prr
                      else tau * SPEED_OF_LIGHT - pb))) /\
    ((check_adr_state meas = Err ValueError /\ cphase = FNum 0) \/
     (exists b adr c, check_adr_state meas = Ok b /\
        num_of (AccumulatedDeltaRangeMeters meas) = Ok adr /\
        py_div adr wavelength = Ok c /\ cphase = FNum c)) /\
    num_of (PseudorangeRateMetersPerSecond meas) = Ok prr /\
    py_div (- prr) wavelength = Ok doppler /\
    r = pm_record epoch satname obscode range cphase doppler (Cn0DbHz meas).
Proof.
  intro H. unfold process in H.
  destruct (get_satname meas) as [satname|e] eqn:Es; [| destruct e; discriminate].
  apply rbind_ok_inv in H as [obscode [Eo H]].
  apply rbind_ok_inv in H as [t [Et H]].
  apply rbind_ok_inv in H as [fb [Efb H]].
  apply rbind_ok_inv in H as [[[epoch sow] frac] [Eg H]]. cbn beta iota zeta in H.
  apply rbind_ok_inv in H as [freq [Ef H]].
  apply rbind_ok_inv in H as [wl [Ew H]].
  apply rbind_ok_inv in H as [range [Er H]].
  apply rbind_ok_inv in H as [cphase [Ec H]].
  apply rbind_ok_inv in H as [prr [Ep H]].
  apply rbind_ok_inv in H as [doppler [Ed H]].
  injection H as <-.
  exists satname, obscode, fb, t, epoch, sow, frac, freq, wl, range, cphase, prr, doppler.
  split; [reflexivity|]. split; [exact Eo|]. split; [exact Et|].
  split; [exact Efb|]. split; [exact Eg|]. split; [exact Ef|]. split; [exact Ew|].
  split; [|split; [|split; [exact Ep|split; [exact Ed|reflexivity]]]].
  - destruct (check_sync_state meas) as [b|[]] eqn:Ecs; try discriminate Er.
    + right. apply rbind_ok_inv in Er as [rstn [Erstn Er]].
      apply rbind_ok_inv in Er as [tau [Etau Er]].
      unfold spec_tTx.
      destruct (ConstellationType meas =? CONSTELLATION_GLONASS)%Z.
      * apply rbind_ok_inv in Etau as [tTx [ETx Etau]].
        injection Etau as <-.
        exists b, rstn, tTx. split; [reflexivity|]. split; [exact Erstn|].
        split; [exact ETx|].
        destruct integerize.
        -- apply rbind_ok_inv in Er as [prr' [Ep' Er]].
           rewrite Ep in Ep'. injection Ep' as <-. injection Er as <-. reflexivity.
        -- injection Er as <-. reflexivity.
      * destruct (ConstellationType meas =? CONSTELLATION_BEIDOU)%Z;
          injection Etau as <-; eexists b, rstn, _;
          (split; [reflexivity|]); (split; [exact Erstn|]); (split; [reflexivity|]);
          (destruct integerize;
           [ apply rbind_ok_inv in Er as [prr' [Ep' Er]];
             rewrite Ep in Ep'; injection Ep' as <-; injection Er as <-; reflexivity
           | injection Er as <-; reflexivity ]).
    + left. split; [reflexivity|]. injection Er as <-. reflexivity.
  - destruct (check_adr_state meas) as [b|[]] eqn:Eca; try discriminate Ec.
    + right. apply rbind_ok_inv in Ec as [adr [Eadr Ec]].
      apply rbind_ok_inv in Ec as [c [Ecc Ec]]. injection Ec as <-.
      exists b, adr, c. auto.
    + left. split; [reflexivity|]. injection Ec as <-. reflexivity.
Qed.




(** ** Validity checks (C3) *)




(** ** Epoch of a record (C4) *)

Lemma timedelta_ok_inv (us d : Z) : timedelta us = Ok d -> d = us.
Proof.
  unfold timedelta. destruct (_ && _)%bool; intro H; [injection H as <-; reflexivity | discriminate H].
Qed.

Lemma dt_add_ok_inv (a b c : Z) : dt_add a b = Ok c -> c = (a + b)%Z.
Proof.
  unfold dt_add. destruct (_ && _)%bool; intro H; [injection H as <-; reflexivity | discriminate H].
Qed.

Lemma py_int_floor (x : Q) : 0 <= x -> py_int x = Qfloor x.
Proof.
  destruct x as [n d]. unfold py_int, Qfloor, Qle. simpl. intro H.
  apply Z.quot_div_nonneg; lia.
Qed.

(** C4 (as amended): in a record returned by process, with fb the effective
    full bias, week = floor(-fb * 1e-9 / 604800) and
    tow = (TimeNanos - (fb + BiasNanos)) * 1e-9 - week * 604800, the epoch
    is 1980-01-06 plus week weeks plus (tow - frac) seconds rounded to the
    microsecond (ties to even), hence within half a microsecond of the exact
    sum; frac is 0 without integerize and tow - int(tow + 0.5) with it, which
    is the remainder of rounding tow to the nearest second whenever
    tow >= -0.5. *)
Theorem epoch_from_clock_fields meas fbo integerize pb r :
  process meas fbo integerize pb = Ok (Some r) ->
  exists fb t,
    num_of (effective_fullbias meas fbo) = Ok fb /\
    py_float (TimeNanos meas) = Ok t /\
    let week := Qfloor (- fb * NS_TO_S / GPS_WEEKSECS) in
    let tow := (t - (fb + biasnanos_of meas)) * NS_TO_S - inject_Z week * GPS_WEEKSECS in
    let frac := if integerize then tow - inject_Z (py_int (tow + (1 # 2))) else 0 in
    pm_epoch r
      = (GPSTIME + week * 7 * US_PER_DAY + py_round ((tow - frac) * inject_Z US_PER_S))%Z /\
    Qabs (inject_Z (pm_epoch r)
          - (inject_Z (GPSTIME + week * 7 * US_PER_DAY) + (tow - frac) * inject_Z US_PER_S))
      <= 1 # 2 /\
    (integerize = true -> - (1 # 2) <= tow ->
     frac = tow - inject_Z (Qfloor (tow + (1 # 2)))).
Proof.
  intro H.
  destruct (process_some_inv _ _ _ _ _ H) as
    (satname & obscode & fb & t & epoch & sow & frac & freq & wl & range & cphase &
     prr & doppler & Es & Eo & Et & Efb & Eg & _ & _ & _ & _ & _ & _ & ->).
  exists fb, t. split; [exact Efb|]. split; [exact Et|].
  cbn zeta. simpl pm_epoch.
  unfold gps_time in Eg.
  apply rbind_ok_inv in Eg as [delta [Ed Eg]].
  apply rbind_ok_inv in Eg as [e [Ee Eg]].
  injection Eg as <- <- <-.
  apply timedelta_ok_inv in Ed. apply dt_add_ok_inv in Ee. subst e delta.
  unfold us_of_seconds.
  set (week := Qfloor (- fb * NS_TO_S / GPS_WEEKSECS)).
  set (tow := (t - (fb + biasnanos_of meas)) * NS_TO_S - inject_Z week * GPS_WEEKSECS).
  set (frac := if integerize then tow - inject_Z (py_int (tow + (1 # 2))) else 0).
  rewrite Z.add_assoc.
  split; [reflexivity|split].
  - destruct (py_round_spec ((tow - frac) * inject_Z US_PER_S)) as [Hlo Hhi].
    apply Qabs_Qle_condition.
    rewrite inject_Z_plus.
    set (x := (tow - frac) * inject_Z US_PER_S) in *.
    set (y := inject_Z (py_round x)) in *.
    set (a := inject_Z (GPSTIME + week * 7 * US_PER_DAY)).
    split; lra.
  - intros Hi Htow. unfold frac. rewrite Hi. rewrite py_int_floor; [reflexivity|].
    lra.
Qed.

(** An instance of C4: the sample GPS row with integerize set. *)
Lemma epoch_from_clock_fields_witness :
  exists r, process (gnss_row 1 5 15 1 (FNum 1575420000) (FNum 1000000400)) None true 0
              = Ok (Some r) /\
    exists fb t,
      num_of (effective_fullbias (gnss_row 1 5 15 1 (FNum 1575420000) (FNum 1000000400)) None)
        = Ok fb /\
      py_float (FNum 1000000400) = Ok t /\
      pm_epoch r = (GPSTIME + Qfloor (- fb * NS_TO_S / GPS_WEEKSECS) * 7 * US_PER_DAY
                    + 76801000000)%Z.
Proof.
  destruct (process (gnss_row 1 5 15 1 (FNum 1575420000) (FNum 1000000400)) None true 0)
    as [[r|]|err] eqn:E; [| vm_compute in E; discriminate E | vm_compute in E; discriminate E].
  exists r. split; [reflexivity|].
  destruct (epoch_from_clock_fields _ _ _ _ _ E) as (fb & t & Efb & Et & Hep & _).
  exists fb, t. split; [exact Efb|]. split; [exact Et|].
  vm_compute in Efb. injection Efb as <-. vm_compute in Et. injection Et as <-.
  rewrite Hep. vm_compute. reflexivity.
Defined.

(** C4 fails as stated: for the sample GPS row with TimeNanos 1000000400 ns
    (week 1984, tow = 76801.0000004 s) and no integerize, the epoch process
    returns is 0.4 microseconds short of 1980-01-06 + 1984 weeks + tow
    seconds: it is rounded to the microsecond. *)
Lemma epoch_rounded_to_microsecond :
  Qfloor (- (-1200000000000000000) * NS_TO_S / GPS_WEEKSECS) = 1984%Z /\
  (1000000400 - (-1200000000000000000 + 0)) * NS_TO_S - inject_Z 1984 * GPS_WEEKSECS
    == 76801 + (4 # 10000000) /\
  exists r, process (gnss_row 1 5 15 1 (FNum 1575420000) (FNum 1000000400)) None false 0
              = Ok (Some r) /\
    inject_Z (pm_epoch r) + (2 # 5)
      == inject_Z (GPSTIME + 1984 * 7 * US_PER_DAY)
         + (76801 + (4 # 10000000)) * inject_Z US_PER_S.
Proof.
  split; [vm_compute; reflexivity|]. split; [vm_compute; reflexivity|].
  destruct (process (gnss_row 1 5 15 1 (FNum 1575420000) (FNum 1000000400)) None false 0)
    as [[r|]|err] eqn:E; [| vm_compute in E; discriminate E | vm_compute in E; discriminate E].
  exists r. split; [reflexivity|].
  vm_compute in E. injection E as <-. vm_compute. reflexivity.
Qed.

(** ** GLONASS and BeiDou transmit times (C5) *)

Lemma timedelta_in_range (us : Z) :
  (- 999999999 <= us / US_PER_DAY <= 999999999)%Z -> timedelta us = Ok us.
Proof.
  intro H. unfold timedelta.
  replace ((-999999999 <=? us / US_PER_DAY) && (us / US_PER_DAY <=? 999999999))%Z%bool
    with true; [reflexivity|].
  symmetry. apply andb_true_intro. split; apply Z.leb_le; lia.
Qed.

Lemma dt_add_in_range (a b : Z) :
  (0 <= a + b <= DATETIME_MAX)%Z -> dt_add a b = Ok (a + b)%Z.
Proof.
  intro H. unfold dt_add.
  replace ((0 <=? a + b) && (a + b <=? DATETIME_MAX))%Z%bool with true; [reflexivity|].
  symmetry. apply andb_true_intro. split; apply Z.leb_le; lia.
Qed.

Lemma dt_add_overflow (a b : Z) :
  (DATETIME_MAX < a + b)%Z -> dt_add a b = Err OverflowError.
Proof.
  intro H. unfold dt_add.
  replace ((0 <=? a + b) && (a + b <=? DATETIME_MAX))%Z%bool with false; [reflexivity|].
  symmetry. apply andb_false_intro2. apply Z.leb_gt. exact H.
Qed.

Lemma glot_shift :
  timedelta ((3 * 3600 - CURRENT_GPS_LEAP_SECOND) * US_PER_S)%Z
    = Ok ((3 * 3600 - CURRENT_GPS_LEAP_SECOND) * US_PER_S)%Z.
Proof. reflexivity. Qed.

(** Dropping the microseconds before the shift does not change the day. *)
Lemma dt_midnight_whole_seconds (e : Z) :
  dt_midnight (dt_whole_seconds e + (3 * 3600 - CURRENT_GPS_LEAP_SECOND) * US_PER_S)
  = dt_midnight (e + (3 * 3600 - CURRENT_GPS_LEAP_SECOND) * US_PER_S).
Proof.
  unfold dt_midnight, dt_whole_seconds, CURRENT_GPS_LEAP_SECOND, US_PER_S, US_PER_DAY.
  pose proof (Z.mod_pos_bound e 1000000).
  pose proof (Z.div_mod e 1000000).
  pose proof (Z.mod_pos_bound (e - e mod 1000000 + (3 * 3600 - 18) * 1000000) 86400000000).
  pose proof (Z.div_mod (e - e mod 1000000 + (3 * 3600 - 18) * 1000000) 86400000000).
  pose proof (Z.mod_pos_bound (e + (3 * 3600 - 18) * 1000000) 86400000000).
  pose proof (Z.div_mod (e + (3 * 3600 - 18) * 1000000) 86400000000).
  lia.
Qed.

Lemma tod_days_in_range (m x : Z) :
  (0 <= m <= DATETIME_MAX)%Z -> (0 <= m + x <= DATETIME_MAX)%Z ->
  (- 999999999 <= x / US_PER_DAY <= 999999999)%Z.
Proof.
  unfold DATETIME_MAX, US_PER_DAY. intros Hm Hx.
  assert (Hx' : (- 315537897600000000 <= x <= 315537897600000000)%Z) by lia.
  split; [apply Z.div_le_lower_bound | apply Z.div_le_upper_bound]; lia.
Qed.

Lemma dt_whole_seconds_nonneg (e : Z) : (0 <= e)%Z -> (0 <= dt_whole_seconds e)%Z.
Proof.
  intro He. unfold dt_whole_seconds, US_PER_S.
  pose proof (Z.mod_le e 1000000 He ltac:(lia)). lia.
Qed.

Lemma dt_midnight_bounds (g : Z) : (0 <= g)%Z -> (0 <= dt_midnight g <= g)%Z.
Proof.
  intro Hg. unfold dt_midnight, US_PER_DAY.
  pose proof (Z.mod_pos_bound g 86400000000 ltac:(lia)).
  pose proof (Z.mod_le g 86400000000 Hg ltac:(lia)). lia.
Qed.

Lemma glot_to_gpst_in_range (e : Z) (tod : Q) :
  (0 <= e)%Z ->
  (dt_whole_seconds e + (3 * 3600 - CURRENT_GPS_LEAP_SECOND) * US_PER_S <= DATETIME_MAX)%Z ->
  (0 <= dt_midnight (dt_whole_seconds e + (3 * 3600 - CURRENT_GPS_LEAP_SECOND) * US_PER_S)
        + py_int tod * US_PER_S <= DATETIME_MAX)%Z ->
  glot_to_gpst e tod
  = Ok (inject_Z (isoweekday
           (dt_midnight (dt_whole_seconds e + (3 * 3600 - CURRENT_GPS_LEAP_SECOND) * US_PER_S)
            + py_int tod * US_PER_S) * DAYSEC)
        + tod - inject_Z GLOT_TO_UTC + inject_Z CURRENT_GPS_LEAP_SECOND).
Proof.
  intros He Hg Hd.
  pose proof (dt_whole_seconds_nonneg e He) as Hw.
  assert (Hg0 : (0 <= dt_whole_seconds e + (3 * 3600 - CURRENT_GPS_LEAP_SECOND) * US_PER_S)%Z).
  { unfold CURRENT_GPS_LEAP_SECOND, US_PER_S. lia. }
  pose proof (dt_midnight_bounds _ Hg0) as Hm.
  unfold glot_to_gpst. rewrite glot_shift. cbn [rbind].
  rewrite dt_add_in_range by (split; [exact Hg0 | exact Hg]). cbn [rbind].
  rewrite timedelta_in_range.
  2: { refine (tod_days_in_range _ _ _ Hd). lia. }
  cbn [rbind].
  rewrite dt_add_in_range by exact Hd. reflexivity.
Qed.

(** C5 (as amended): when the shifted epoch (microseconds dropped, plus
    3 h - 18 s) and the instant midnight-of-that-day + int(TOD) s are
    representable datetimes, glot_to_gpst returns 86400 times the ISO weekday
    of that instant + TOD - 10800 + 18, and the day is the one of the epoch
    shifted by 3 h - 18 s; when the shifted epoch is past 9999-12-31
    23:59:59.999999 it raises OverflowError; and in a record process returns
    with the synchronisation check passing, the C value is
    check_week_crossover(tRx, tTx) * c - pseudorange_bias (less frac * PRR with
    integerize) with tTx from glot_to_gpst for GLONASS, ReceivedSvTimeNanos *
    1e-9 + 14 for BeiDou and ReceivedSvTimeNanos * 1e-9 otherwise. *)
Theorem glonass_transmit_time :
  (forall (e : Z) (tod : Q), (0 <= e)%Z ->
     let g := (dt_whole_seconds e + (3 * 3600 - CURRENT_GPS_LEAP_SECOND) * US_PER_S)%Z in
     let d := (dt_midnight g + py_int tod * US_PER_S)%Z in
     (g <= DATETIME_MAX)%Z -> (0 <= d <= DATETIME_MAX)%Z ->
     dt_midnight g = dt_midnight (e + (3 * 3600 - CURRENT_GPS_LEAP_SECOND) * US_PER_S) /\
     glot_to_gpst e tod
       = Ok (inject_Z (isoweekday d * DAYSEC) + tod - inject_Z GLOT_TO_UTC
             + inject_Z CURRENT_GPS_LEAP_SECOND)) /\
  (forall (e : Z) (tod : Q),
     (DATETIME_MAX < dt_whole_seconds e + (3 * 3600 - CURRENT_GPS_LEAP_SECOND) * US_PER_S)%Z ->
     glot_to_gpst e tod = Err OverflowError) /\
  (forall meas fbo integerize pb r b,
     process meas fbo integerize pb = Ok (Some r) -> check_sync_state meas = Ok b ->
     exists satname obscode t fb sow frac rstn tTx prr,
       get_satname meas = Ok satname /\ get_obscode meas = Ok obscode /\
       py_float (TimeNanos meas) = Ok t /\
       num_of (effective_fullbias meas fbo) = Ok fb /\
       gps_time t fb (biasnanos_of meas) integerize = Ok (pm_epoch r, sow, frac) /\
       num_of (ReceivedSvTimeNanos meas) = Ok rstn /\
       spec_tTx (ConstellationType meas) (pm_epoch r) rstn = Ok tTx /\
       num_of (PseudorangeRateMetersPerSecond meas) = Ok prr /\
       let tau := check_week_crossover (sow - timeoffsetnanos_of meas * NS_TO_S) tTx in
       obs_lookup r satname (String.append "C" obscode)
         = Some (FNum (if integerize then tau * SPEED_OF_LIGHT - pb - frac * prr
                       else tau * SPEED_OF_LIGHT - pb))).
Proof.
  split; [|split].
  - intros e tod He g d Hg Hd.
    split; [apply dt_midnight_whole_seconds|].
    exact (glot_to_gpst_in_range e tod He Hg Hd).
  - intros e tod Hg.
    unfold glot_to_gpst. rewrite glot_shift. cbn [rbind].
    rewrite dt_add_overflow by exact Hg. reflexivity.
  - intros meas fbo integerize pb r b H Ecs.
    destruct (process_some_inv _ _ _ _ _ H) as
      (satname & obscode & fb & t & epoch & sow & frac & freq & wl & range & cphase &
       prr & doppler & Es & Eo & Et & Efb & Eg & _ & _ & Hrange & _ & Ep & _ & ->).
    destruct (pm_record_lookups epoch satname obscode range cphase doppler (Cn0DbHz meas))
      as (LC & _ & _ & _).
    destruct Hrange as [[Ecs' _] | (b' & rstn & tTx & _ & Erstn & ETx & Er)].
    { rewrite Ecs in Ecs'. discriminate Ecs'. }
    exists satname, obscode, t, fb, sow, frac, rstn, tTx, prr.
    split; [exact Es|]. split; [exact Eo|]. split; [exact Et|]. split; [exact Efb|].
    split; [exact Eg|]. split; [exact Erstn|]. split; [exact ETx|]. split; [exact Ep|].
    rewrite LC, Er. reflexivity.
Qed.

(** Instances of C5: the first part at the sample epoch (Sunday 21:20:01, which
    the shift carries into Monday) with TOD 10000 s, and the third part at a
    GLONASS row whose synchronisation check passes. *)
Lemma glonass_transmit_time_witness :
  glot_to_gpst 63651561601000000%Z 10000
    = Ok (inject_Z (1 * DAYSEC) + 10000 - inject_Z GLOT_TO_UTC
          + inject_Z CURRENT_GPS_LEAP_SECOND) /\
  exists r, process (gnss_row 3 5 227 1 (FNum 1602000000) (FNum 1000000400)) None true 0
              = Ok (Some r) /\
    exists (satname : string) (rstn tTx : Q),
      get_satname (gnss_row 3 5 227 1 (FNum 1602000000) (FNum 1000000400)) = Ok satname /\
      num_of (ReceivedSvTimeNanos (gnss_row 3 5 227 1 (FNum 1602000000) (FNum 1000000400)))
        = Ok rstn /\
      spec_tTx 3 (pm_epoch r) rstn = Ok tTx.
Proof.
  split.
  - destruct (proj1 glonass_transmit_time 63651561601000000%Z 10000) as [_ E].
    + lia.
    + apply Z.leb_le. vm_compute. reflexivity.
    + split; apply Z.leb_le; vm_compute; reflexivity.
    + rewrite E. vm_compute. reflexivity.
  - destruct (process (gnss_row 3 5 227 1 (FNum 1602000000) (FNum 1000000400)) None true 0)
      as [[r|]|err] eqn:E; [| vm_compute in E; discriminate E | vm_compute in E; discriminate E].
    exists r. split; [reflexivity|].
    destruct (proj2 (proj2 glonass_transmit_time) _ _ _ _ _ true E) as
      (satname & obscode & t & fb & sow & frac & rstn & tTx & prr &
       Es & _ & _ & _ & _ & Erstn & ETx & _ & _).
    + vm_compute. reflexivity.
    + exists satname, rstn, tTx.
      split; [exact Es|]. split; [exact Erstn|]. exact ETx.
Defined.

(** C5 fails as stated: at 9999-12-31 22:00 the shifted epoch is past the
    largest datetime and glot_to_gpst raises OverflowError. *)
Lemma glonass_epoch_near_datetime_max_overflows :
  (0 <= 3652058 * US_PER_DAY + 22 * 3600 * US_PER_S <= DATETIME_MAX)%Z /\
  glot_to_gpst (3652058 * US_PER_DAY + 22 * 3600 * US_PER_S) 0 = Err OverflowError.
Proof.
  split.
  - unfold DATETIME_MAX, US_PER_DAY, US_PER_S. lia.
  - vm_compute. reflexivity.
Qed.

(* ========================================================================== *)
(** * Further properties of the code *)

(** ** Week and day crossovers *)

(** Python's [round] returns the integer within less than one half. *)
Lemma py_round_near (x : Q) (z : Z) :
  inject_Z z - (1 # 2) < x -> x < inject_Z z + (1 # 2) -> py_round x = z.
Proof.
  intros Hlo Hhi. destruct (py_round_spec x) as [Hl Hh].
  destruct (Z.lt_trichotomy (py_round x) z) as [H|[H|H]]; [exfalso| exact H | exfalso].
  - assert (Hq : inject_Z (py_round x + 1) <= inject_Z z) by (rewrite <- Zle_Qle; lia).
    rewrite inject_Z_plus in Hq. change (inject_Z 1) with 1 in Hq. lra.
  - assert (Hq : inject_Z (z + 1) <= inject_Z (py_round x)) by (rewrite <- Zle_Qle; lia).
    rewrite inject_Z_plus in Hq. change (inject_Z 1) with 1 in Hq. lra.
Qed.

(** A propagation time of k whole weeks (k >= 1) plus r, with r strictly
    within half a week, loses exactly the k weeks: check_week_crossover
    returns r when r <= 10 s, and 0 when r > 10 s. *)
Theorem check_week_crossover_rollover (tRxSeconds tTxSeconds r : Q) (k : Z) :
  (1 <= k)%Z -> -302400 < r -> r < 302400 ->
  tRxSeconds - tTxSeconds == inject_Z k * 604800 + r ->
  check_week_crossover tRxSeconds tTxSeconds == (if Qlt_bool 10 r then 0 else r).
Proof.
  intros Hk Hr1 Hr2 Ht.
  assert (Hkq : 1 <= inject_Z k) by (change 1 with (inject_Z 1); rewrite <- Zle_Qle; lia).
  unfold check_week_crossover. cbv zeta.
  set (tau := tRxSeconds - tTxSeconds) in *.
  replace (Qlt_bool (GPS_WEEKSECS / 2) tau) with true
    by (symmetry; apply Qlt_bool_iff;
        assert (Hw : GPS_WEEKSECS / 2 == 302400) by reflexivity; lra).
  assert (E : tau / GPS_WEEKSECS == inject_Z k + r * (1 # 604800)).
  { unfold GPS_WEEKSECS. rewrite Ht. field. }
  rewrite (py_round_near (tau / GPS_WEEKSECS) k) by (rewrite E; lra).
  assert (Erho : tau - inject_Z k * GPS_WEEKSECS == r) by (unfold GPS_WEEKSECS; lra).
  destruct (Qlt_bool 10 r) eqn:E1; destruct (Qlt_bool 10 (tau - inject_Z k * GPS_WEEKSECS)) eqn:E2;
    try reflexivity.
  - apply Qlt_bool_iff in E1. apply Qlt_bool_false in E2. lra.
  - apply Qlt_bool_false in E1. apply Qlt_bool_iff in E2. lra.
  - exact Erho.
Qed.

(** check_day_crossover leaves a propagation time of at most half a day
    unchanged; above half a day it returns 0 or the residual after removing
    whole days, which then lies between minus half a day and 10 s. *)
Theorem check_day_crossover_window (tRxSeconds tTxSeconds : Q) :
  (tRxSeconds - tTxSeconds <= 43200 ->
   check_day_crossover tRxSeconds tTxSeconds = tRxSeconds - tTxSeconds) /\
  (43200 < tRxSeconds - tTxSeconds ->
   check_day_crossover tRxSeconds tTxSeconds = 0 \/
   (-43200 <= check_day_crossover tRxSeconds tTxSeconds /\
    check_day_crossover tRxSeconds tTxSeconds <= 10)).
Proof.
  assert (Hw : inject_Z DAYSEC / 2 == 43200) by reflexivity.
  split; intro H; unfold check_day_crossover.
  - replace (Qlt_bool (inject_Z DAYSEC / 2) (tRxSeconds - tTxSeconds)) with false;
      [reflexivity|].
    symmetry. apply Qlt_bool_false. lra.
  - replace (Qlt_bool (inject_Z DAYSEC / 2) (tRxSeconds - tTxSeconds)) with true
      by (symmetry; apply Qlt_bool_iff; lra).
    set (tau := tRxSeconds - tTxSeconds) in *.
    pose proof (py_round_spec (tau / inject_Z DAYSEC)) as [Hl Hh].
    set (k := inject_Z (py_round (tau / inject_Z DAYSEC))) in *.
    change (inject_Z DAYSEC) with 86400 in *.
    destruct (Qlt_bool 10 (tau - k * 86400)) eqn:E.
    + left. reflexivity.
    + right. apply Qlt_bool_false in E.
      assert (Hd : tau / 86400 == tau * (1 # 86400)) by reflexivity.
      split; lra.
Qed.

(** A propagation time of k whole days (k >= 1) plus r, with r strictly
    within half a day, loses exactly the k days: check_day_crossover returns
    r when r <= 10 s, and 0 when r > 10 s. *)
Theorem check_day_crossover_rollover (tRxSeconds tTxSeconds r : Q) (k : Z) :
  (1 <= k)%Z -> -43200 < r -> r < 43200 ->
  tRxSeconds - tTxSeconds == inject_Z k * 86400 + r ->
  check_day_crossover tRxSeconds tTxSeconds == (if Qlt_bool 10 r then 0 else r).
Proof.
  intros Hk Hr1 Hr2 Ht.
  assert (Hkq : 1 <= inject_Z k) by (change 1 with (inject_Z 1); rewrite <- Zle_Qle; lia).
  unfold check_day_crossover. cbv zeta.
  set (tau := tRxSeconds - tTxSeconds) in *.
  replace (Qlt_bool (inject_Z DAYSEC / 2) tau) with true
    by (symmetry; apply Qlt_bool_iff;
        assert (Hw : inject_Z DAYSEC / 2 == 43200) by reflexivity; lra).
  assert (E : tau / inject_Z DAYSEC == inject_Z k + r * (1 # 86400)).
  { change (inject_Z DAYSEC) with 86400. rewrite Ht. field. }
  rewrite (py_round_near (tau / inject_Z DAYSEC) k) by (rewrite E; lra).
  change (inject_Z DAYSEC) with 86400.
  assert (Erho : tau - inject_Z k * 86400 == r) by lra.
  destruct (Qlt_bool 10 r) eqn:E1; destruct (Qlt_bool 10 (tau - inject_Z k * 86400)) eqn:E2;
    try reflexivity.
  - apply Qlt_bool_iff in E1. apply Qlt_bool_false in E2. lra.
  - apply Qlt_bool_false in E1. apply Qlt_bool_iff in E2. lra.
  - exact Erho.
Qed.

(** An instance: a propagation time of two weeks and 0.07 s. *)
Lemma check_week_crossover_rollover_witness :
  check_week_crossover (1209600 + (7 # 100)) 0 == (7 # 100).
Proof.
  apply (check_week_crossover_rollover (1209600 + (7 # 100)) 0 (7 # 100) 2);
    [lia | reflexivity | reflexivity | reflexivity].
Defined.

(** An instance: a propagation time of one day and 0.07 s. *)
Lemma check_day_crossover_rollover_witness :
  check_day_crossover (86400 + (7 # 100)) 0 == (7 # 100).
Proof.
  apply (check_day_crossover_rollover (86400 + (7 # 100)) 0 (7 # 100) 1);
    [lia | reflexivity | reflexivity | reflexivity].
Defined.

(** * Observable codes, observable lists and GLONASS channels *)

Lemma get_rnx_band_values (v : fieldval) (band : Z) :
  get_rnx_band_from_freq v = Ok band -> band = 1%Z \/ band = 2%Z \/ band = 5%Z.
Proof.
  unfold get_rnx_band_from_freq, rbind. intros H.
  destruct v as [f | [|a s]]; try discriminate;
  repeat match type of H with context [if ?b then _ else _] => destruct b end;
  inversion H; auto.
Qed.

Lemma CONSTELLATION_LETTER_E (ctype : Z) :
  CONSTELLATION_LETTER ctype = Ok "E" -> ctype = CONSTELLATION_GALILEO.
Proof.
  unfold CONSTELLATION_LETTER.
  repeat match goal with |- context [if (?a =? ?b)%Z then _ else _] =>
    destruct (Z.eqb_spec a b); [try (intros H; inversion H; fail); try (intros; assumption)|] end;
  discriminate.
Qed.

Lemma CONSTELLATION_LETTER_C (ctype : Z) :
  CONSTELLATION_LETTER ctype = Ok "C" -> ctype = CONSTELLATION_BEIDOU.
Proof.
  unfold CONSTELLATION_LETTER.
  repeat match goal with |- context [if (?a =? ?b)%Z then _ else _] =>
    destruct (Z.eqb_spec a b); [try (intros H; inversion H; fail); try (intros; assumption)|] end;
  discriminate.
Qed.

(** get_obscode yields only 1C, 1B (Galileo only), 2C, 2I (BeiDou only) or
    5Q: the band is 1, 2 or 5, and band 5 is always Q. *)
Theorem get_obscode_values (measurement : measurement) (obscode : string) :
  get_obscode measurement = Ok obscode ->
  exists band, get_rnx_band_from_freq (get_frequency measurement) = Ok band /\
  ((band = 1%Z /\
    (obscode = "1C"
     \/ (obscode = "1B" /\ ConstellationType measurement = CONSTELLATION_GALILEO)))
   \/ (band = 2%Z /\
       (obscode = "2C"
        \/ (obscode = "2I" /\ ConstellationType measurement = CONSTELLATION_BEIDOU)))
   \/ (band = 5%Z /\ obscode = "5Q")).
Proof.
  unfold get_obscode.
  destruct (get_rnx_band_from_freq (get_frequency measurement)) as [band|e] eqn:Eb;
    [|discriminate]. simpl.
  destruct (get_constellation measurement) as [c|e] eqn:Ec; [|discriminate]. simpl.
  intros H; inversion H; subst obscode; clear H.
  exists band. split; [reflexivity|].
  unfold get_constellation in Ec.
  apply get_rnx_band_values in Eb as [-> | [-> | ->]]; unfold get_rnx_attr; cbn.
  - left. split; [reflexivity|].
    destruct (String.eqb_spec c "E") as [->|]; cbn.
    + destruct (_ && _)%bool.
      * right; split; [reflexivity | auto using CONSTELLATION_LETTER_E].
      * left; reflexivity.
    + left; reflexivity.
  - right; left. split; [reflexivity|].
    destruct (String.eqb_spec c "C") as [->|]; cbn.
    + right; split; [reflexivity | auto using CONSTELLATION_LETTER_C].
    + left; reflexivity.
  - right; right. split; reflexivity.
Qed.

Lemma obslist_add_lookup (acc acc' : gmap string (list string)) (m : measurement) :
  obslist_add acc m = Ok acc' ->
  exists c o, get_obscode m = Ok o /\ get_constellation m = Ok c /\
    acc' !! c = Some (let arr := default [] (acc !! c) in
                      if existsb (String.eqb o) arr then arr else (arr ++ [o])%list) /\
    forall c', c' <> c -> acc' !! c' = acc !! c'.
Proof.
  unfold obslist_add.
  destruct (get_obscode m) as [o|e] eqn:Eo; [|discriminate]. simpl.
  destruct (get_constellation m) as [c|e] eqn:Ec; [|discriminate]. simpl.
  intros H. exists c, o. split; [reflexivity|]. split; [reflexivity|].
  destruct (acc !! c) as [arr|] eqn:Ea; simpl in *.
  - rewrite Ea in H. simpl in H.
    destruct (existsb (String.eqb o) arr); inversion H; subst acc'; clear H.
    + split; [assumption | reflexivity].
    + split; [by rewrite lookup_insert_eq | intros c' Hc'; by rewrite lookup_insert_ne].
  - rewrite lookup_insert_eq in H. simpl in H. inversion H; subst acc'; clear H.
    split; [by rewrite lookup_insert_eq|].
    intros c' Hc'. rewrite !lookup_insert_ne by congruence. reflexivity.
Qed.

Lemma add_code_spec (o : string) (arr : list string) :
  (forall x, In x (if existsb (String.eqb o) arr then arr else (arr ++ [o])%list)
             <-> In x arr \/ x = o) /\
  (List.NoDup arr -> List.NoDup (if existsb (String.eqb o) arr then arr else (arr ++ [o])%list)).
Proof.
  destruct (existsb (String.eqb o) arr) eqn:E.
  - apply existsb_exists in E as [y [Hy Hoy]]. apply String.eqb_eq in Hoy. subst y.
    split; [|tauto]. intros x. split; [tauto|]. intros [H | ->]; assumption.
  - split.
    + intros x. rewrite in_app_iff. simpl. intuition.
    + intros Hnd. apply List.NoDup_app; [assumption | constructor; [simpl; tauto | constructor] |].
      intros a Ha [<- | []].
      assert (existsb (String.eqb o) arr = true) by
        (apply existsb_exists; exists o; split; [assumption | apply String.eqb_refl]).
      congruence.
Qed.

Lemma obslist_inv_empty : obslist_inv [] ∅.
Proof.
  split; [|split].
  - intros c. rewrite lookup_empty. split; [intros [? H]; discriminate | intros [m [[] _]]].
  - intros c arr H. rewrite lookup_empty in H. discriminate.
  - intros c arr H. rewrite lookup_empty in H. discriminate.
Qed.

Lemma obslist_inv_step (seen : list measurement) (acc acc' : gmap string (list string))
    (m : measurement) :
  obslist_inv seen acc -> obslist_add acc m = Ok acc' -> obslist_inv (seen ++ [m]) acc'.
Proof.
  intros [I1 [I2 I3]] H.
  apply obslist_add_lookup in H as [c [o [Eo [Ec [Hc Hne]]]]].
  assert (Hin : forall m', In m' (seen ++ [m]) <-> In m' seen \/ m' = m)
    by (intros m'; rewrite in_app_iff; simpl; intuition).
  (* the list of constellation c before the step *)
  assert (Harr : forall x, In x (default [] (acc !! c)) <->
            exists m', In m' seen /\ get_constellation m' = Ok c /\ get_obscode m' = Ok x).
  { intros x. destruct (acc !! c) as [arr|] eqn:Ea; simpl.
    - apply (I2 c arr Ea).
    - split; [intros []|]. intros [m' [Hm' [Hc' _]]].
      assert (Hs : is_Some (acc !! c)) by (apply I1; exists m'; auto).
      rewrite Ea in Hs. destruct Hs; discriminate. }
  assert (Hnd : List.NoDup (default [] (acc !! c))).
  { destruct (acc !! c) as [arr|] eqn:Ea; simpl; [exact (I3 c arr Ea) | constructor]. }
  destruct (add_code_spec o (default [] (acc !! c))) as [Hadd Haddnd].
  split; [|split].
  - intros c'. destruct (decide (c' = c)) as [->|Hc'].
    + rewrite Hc. split; [|eauto]. intros _. exists m. rewrite Hin. auto.
    + rewrite Hne by assumption. rewrite I1. split.
      * intros [m' [H1 H2]]. exists m'. rewrite Hin. auto.
      * intros [m' [H1 H2]]. apply Hin in H1 as [H1 | ->]; [eauto | congruence].
  - intros c' arr Ha x. destruct (decide (c' = c)) as [->|Hc'].
    + rewrite Hc in Ha. inversion Ha; subst arr; clear Ha.
      rewrite Hadd, Harr. split.
      * intros [[m' [H1 [H2 H3]]] | ->].
        -- exists m'. rewrite Hin. auto.
        -- exists m. rewrite Hin. auto.
      * intros [m' [H1 [H2 H3]]]. apply Hin in H1 as [H1 | ->].
        -- left. eauto.
        -- right. congruence.
    + rewrite Hne in Ha by assumption. rewrite (I2 c' arr Ha x). split.
      * intros [m' [H1 H2]]. exists m'. rewrite Hin. auto.
      * intros [m' [H1 [H2 H3]]]. apply Hin in H1 as [H1 | ->]; [eauto | congruence].
  - intros c' arr Ha. destruct (decide (c' = c)) as [->|Hc'].
    + rewrite Hc in Ha. inversion Ha; subst arr. apply Haddnd, Hnd.
    + rewrite Hne in Ha by assumption. exact (I3 c' arr Ha).
Qed.

Lemma obslist_inv_fold (l seen : list measurement) (acc r : gmap string (list string)) :
  obslist_inv seen acc -> fold_result obslist_add acc l = Ok r -> obslist_inv (seen ++ l) r.
Proof.
  revert seen acc. induction l as [|m l IH]; intros seen acc Hi H; simpl in H.
  - inversion H; subst r. rewrite app_nil_r. exact Hi.
  - destruct (obslist_add acc m) as [acc'|e] eqn:Ea; [|discriminate]. simpl in H.
    replace (seen ++ m :: l)%list with ((seen ++ [m]) ++ l)%list by (rewrite <- app_assoc; reflexivity).
    apply (IH _ acc'); [apply (obslist_inv_step seen acc) |]; assumption.
Qed.

Lemma insert_sorted_perm (x : string) (l : list string) :
  Permutation (insert_sorted x l) (x :: l).
Proof.
  induction l as [|y l IH]; simpl; [reflexivity|].
  destruct (String.leb x y); [reflexivity|].
  rewrite IH. apply perm_swap.
Qed.

Lemma py_sorted_perm (l : list string) : Permutation (py_sorted l) l.
Proof.
  unfold py_sorted. induction l as [|x l IH]; simpl; [reflexivity|].
  rewrite insert_sorted_perm. apply perm_skip, IH.
Qed.

Lemma insert_sorted_sorted (x : string) (l : list string) :
  Sorted (fun a b => String.leb a b = true) l ->
  Sorted (fun a b => String.leb a b = true) (insert_sorted x l).
Proof.
  induction 1 as [|y l Hs IH Hhd]; simpl.
  - repeat constructor.
  - destruct (String.leb x y) eqn:Exy.
    + constructor; [constructor; assumption | constructor; assumption].
    + assert (Hyx : String.leb y x = true)
        by (destruct (String.leb_total x y); congruence).
      constructor; [exact IH|].
      destruct l as [|z l]; simpl.
      * constructor. exact Hyx.
      * inversion Hhd; subst. destruct (String.leb x z); constructor; assumption.
Qed.

Lemma py_sorted_sorted (l : list string) :
  Sorted (fun a b => String.leb a b = true) (py_sorted l).
Proof.
  unfold py_sorted. induction l as [|x l IH]; simpl; [constructor|].
  apply insert_sorted_sorted, IH.
Qed.

Lemma in_obs_expand (arr : list string) (x : string) :
  In x (obs_expand arr) <-> exists o p, In o arr /\ In p OBS_LIST /\ x = String.append p o.
Proof.
  unfold obs_expand. rewrite in_concat. split.
  - intros [l [Hl Hx]]. apply in_map_iff in Hl as [o [<- Ho]].
    apply in_map_iff in Hx as [p [<- Hp]]. eauto.
  - intros [o [p [Ho [Hp ->]]]]. exists (map (fun m => String.append m o) OBS_LIST).
    split; [apply in_map_iff; eauto | apply in_map_iff; eauto].
Qed.

Lemma obs_prefix_inj (p p' o o' : string) :
  In p OBS_LIST -> In p' OBS_LIST -> String.append p o = String.append p' o' ->
  p = p' /\ o = o'.
Proof.
  intros Hp Hp' H.
  destruct Hp as [<-|[<-|[<-|[<-|[]]]]]; destruct Hp' as [<-|[<-|[<-|[<-|[]]]]];
    simpl in H; inversion H; auto.
Qed.

Lemma obs_expand_nodup (arr : list string) :
  List.NoDup arr -> List.NoDup (obs_expand arr).
Proof.
  induction 1 as [|o arr Ho Hnd IH]; [constructor|].
  change (obs_expand (o :: arr))
    with (map (fun m => String.append m o) OBS_LIST ++ obs_expand arr)%list.
  apply List.NoDup_app; [|exact IH|].
  - cbn. repeat constructor; simpl; intros H; repeat destruct H as [H|H];
      try (inversion H; fail); exact H.
  - intros x Hx Hx'. apply in_map_iff in Hx as [p [<- Hp]].
    apply in_obs_expand in Hx' as [o' [p' [Ho' [Hp' E]]]].
    apply obs_prefix_inj in E as [_ <-]; [contradiction | assumption | assumption].
Qed.

(** get_obslist: the keys are the constellations of the measurements, and a
    constellation's list is the C/L/D/S expansion of the sorted, duplicate-free
    codes of its measurements. *)
Theorem get_obslist_contents (batches : list (list measurement))
    (obslist : gmap string (list string)) :
  get_obslist batches = Ok obslist ->
  forall c,
    (is_Some (obslist !! c) <->
       exists m, In m (concat batches) /\ get_constellation m = Ok c) /\
    (forall xs, obslist !! c = Some xs ->
       exists codes, xs = obs_expand codes /\
         Sorted (fun a b => String.leb a b = true) codes /\ List.NoDup codes /\
         forall o, In o codes <->
           exists m, In m (concat batches) /\ get_constellation m = Ok c /\
                     get_obscode m = Ok o).
Proof.
  unfold get_obslist.
  destruct (fold_result obslist_add ∅ (concat batches)) as [acc|e] eqn:Ef; [|discriminate].
  simpl. intros H. inversion H; subst obslist; clear H.
  apply (obslist_inv_fold _ [] ∅ acc obslist_inv_empty) in Ef as [I1 [I2 I3]].
  simpl in I1, I2. intros c. rewrite lookup_fmap. split.
  - rewrite <- I1. destruct (acc !! c); simpl; split; intros [? H]; try discriminate; eauto.
  - intros xs Hxs. destruct (acc !! c) as [arr|] eqn:Ea; simpl in Hxs; [|discriminate].
    inversion Hxs; subst xs; clear Hxs.
    exists (py_sorted arr). split; [reflexivity|]. split; [apply py_sorted_sorted|].
    split.
    + apply (Permutation_NoDup (Permutation_sym (py_sorted_perm arr))), (I3 c arr Ea).
    + intros o. rewrite <- (I2 c arr Ea o). split; apply Permutation_in.
      * apply py_sorted_perm.
      * apply Permutation_sym, py_sorted_perm.
Qed.

Lemma obslist_add_err (acc : gmap string (list string)) (m : measurement) (e : pyerr) :
  obslist_add acc m = Err e <-> get_obscode m = Err e.
Proof.
  unfold obslist_add.
  destruct (get_obscode m) as [o|e'] eqn:Eo; simpl; [|split; congruence].
  revert Eo. unfold get_obscode.
  destruct (get_rnx_band_from_freq (get_frequency m)); simpl; [|discriminate].
  destruct (get_constellation m); simpl; [|discriminate].
  intros _. destruct (existsb _ _); split; discriminate.
Qed.

Lemma obslist_fold_err (l : list measurement) (acc : gmap string (list string)) (e : pyerr) :
  fold_result obslist_add acc l = Err e <->
  exists pre m post, l = (pre ++ m :: post)%list /\
    Forall (fun m' => exists o, get_obscode m' = Ok o) pre /\ get_obscode m = Err e.
Proof.
  revert acc. induction l as [|x l IH]; intros acc; simpl.
  - split; [discriminate|]. intros [pre [m [post [H _]]]]. destruct pre; discriminate.
  - destruct (obslist_add acc x) as [acc'|e'] eqn:Ex; simpl.
    + rewrite IH. assert (Hx : exists o, get_obscode x = Ok o).
      { destruct (get_obscode x) as [o|e''] eqn:Eo; [eauto|].
        apply (obslist_add_err acc) in Eo. congruence. }
      split.
      * intros [pre [m [post [-> [Hpre Hm]]]]]. exists (x :: pre), m, post.
        split; [reflexivity|]. split; [constructor; assumption | assumption].
      * intros [[|y pre] [m [post [Hl [Hpre Hm]]]]]; simpl in Hl; inversion Hl; subst.
        -- destruct Hx as [o Ho]. congruence.
        -- inversion Hpre; subst. exists pre, m, post. auto.
    + apply obslist_add_err in Ex. split.
      * intros H; inversion H; subst e'. exists [], x, l. auto.
      * intros [[|y pre] [m [post [Hl [Hpre Hm]]]]]; simpl in Hl; inversion Hl; subst.
        -- congruence.
        -- inversion Hpre as [|? ? [o Ho]]; subst. congruence.
Qed.

(** get_obslist raises the error of the first measurement whose observation
    code cannot be computed, and only then. *)
Theorem get_obslist_error (batches : list (list measurement)) (e : pyerr) :
  get_obslist batches = Err e <->
  exists pre m post, concat batches = (pre ++ m :: post)%list /\
    Forall (fun m' => exists o, get_obscode m' = Ok o) pre /\ get_obscode m = Err e.
Proof.
  rewrite <- (obslist_fold_err _ ∅). unfold get_obslist.
  destruct (fold_result obslist_add ∅ (concat batches)); simpl; split; congruence.
Qed.

Lemma get_obscode_constellation (m : measurement) (o : string) :
  get_obscode m = Ok o -> exists c, get_constellation m = Ok c.
Proof.
  unfold get_obscode. destruct (get_rnx_band_from_freq _); simpl; [|discriminate].
  destruct (get_constellation m); simpl; [eauto | discriminate].
Qed.

Lemma pm_record_lookup_inv epoch satname obscode range cphase doppler cn0 sat code v :
  obs_lookup (pm_record epoch satname obscode range cphase doppler cn0) sat code = Some v ->
  sat = satname /\ exists p, In p OBS_LIST /\ code = String.append p obscode.
Proof.
  unfold obs_lookup, pm_record. cbn [pm_sats]. intros H.
  destruct (decide (sat = satname)) as [->|Hne];
    [rewrite lookup_singleton, decide_True in H by reflexivity
    | rewrite lookup_singleton_ne in H by congruence; discriminate].
  split; [reflexivity|].
  apply lookup_insert_Some in H as [[<- _]|[_ H]]; [exists "C"; simpl; auto|].
  apply lookup_insert_Some in H as [[<- _]|[_ H]]; [exists "L"; simpl; auto|].
  apply lookup_insert_Some in H as [[<- _]|[_ H]]; [exists "D"; simpl; auto|].
  apply lookup_singleton_Some in H as [<- _]. exists "S"; simpl; auto 6.
Qed.

(** Every observable key of a record process returns for a measurement of the
    batches is in the get_obslist list of the measurement's constellation. *)
Theorem process_codes_in_obslist (batches : list (list measurement))
    (obslist : gmap string (list string)) (m : measurement) (fbo : option Q)
    (integerize : bool) (pb : Q) (r : pm) (sat code : string) (v : fieldval) :
  get_obslist batches = Ok obslist -> In m (concat batches) ->
  process m fbo integerize pb = Ok (Some r) -> obs_lookup r sat code = Some v ->
  exists c xs, get_constellation m = Ok c /\ obslist !! c = Some xs /\ In code xs.
Proof.
  intros Hol Hm Hp Hl.
  apply process_some_inv in Hp as
    [satname [obscode [fb [t [epoch [sow [frac [freq [wavelength [range [cphase [prr [doppler
      [_ [Eo [_ [_ [_ [_ [_ [_ [_ [_ [_ ->]]]]]]]]]]]]]]]]]]]]]]]].
  apply pm_record_lookup_inv in Hl as [_ [p [Hp ->]]].
  destruct (get_obscode_constellation m obscode Eo) as [c Ec].
  unfold get_obslist in Hol.
  destruct (fold_result obslist_add ∅ (concat batches)) as [acc|e] eqn:Ef; [|discriminate].
  simpl in Hol. inversion Hol; subst obslist; clear Hol.
  apply (obslist_inv_fold _ [] ∅ acc obslist_inv_empty) in Ef as [I1 [I2 _]].
  simpl in I1, I2.
  destruct (acc !! c) as [arr|] eqn:Ea.
  - exists c, (obs_expand (py_sorted arr)). split; [exact Ec|].
    rewrite lookup_fmap, Ea. split; [reflexivity|].
    apply in_obs_expand. exists obscode, p. split; [|auto].
    apply (Permutation_in _ (Permutation_sym (py_sorted_perm arr))).
    apply (I2 c arr Ea). eauto.
  - assert (Hs : is_Some (acc !! c)) by (apply I1; eauto).
    rewrite Ea in Hs. destruct Hs; discriminate.
Qed.

Lemma glo_chn_at_keep (seen : list measurement) (acc : gmap string Z) (m : measurement)
    (sat : string) :
  glo_chn_at seen acc sat ->
  (acc !! sat = None -> ConstellationType m = CONSTELLATION_GLONASS -> get_satname m <> Ok sat) ->
  glo_chn_at (seen ++ [m]) acc sat.
Proof.
  unfold glo_chn_at. intros I Hm. destruct (acc !! sat) as [n|] eqn:Ea.
  - destruct I as [pre [m0 [post [f [-> H]]]]].
    exists pre, m0, (post ++ [m])%list, f. split; [|exact H].
    rewrite <- app_assoc. reflexivity.
  - intros m' Hm'. apply in_app_iff in Hm' as [Hm' | [<- | []]]; [exact (I m' Hm')|].
    apply Hm. reflexivity.
Qed.

Lemma glo_chn_at_step (seen : list measurement) (acc acc' : gmap string Z) (m : measurement) :
  (forall sat, glo_chn_at seen acc sat) -> glo_chn_add acc m = Ok acc' ->
  forall sat, glo_chn_at (seen ++ [m]) acc' sat.
Proof.
  intros I H sat. unfold glo_chn_add in H.
  destruct (Z.eqb_spec (ConstellationType m) CONSTELLATION_GLONASS) as [Hg|Hg].
  2:{ inversion H; subst acc'. apply glo_chn_at_keep; [exact (I sat) | intros; contradiction]. }
  apply rbind_ok_inv in H as [s [Es H]].
  destruct (acc !! s) as [n0|] eqn:Es0.
  - inversion H; subst acc'. apply glo_chn_at_keep; [exact (I sat)|].
    intros Ea _ E. rewrite Es in E. inversion E; subst sat. congruence.
  - apply rbind_ok_inv in H as [f [Ef H]]. inversion H; subst acc'; clear H.
    destruct (decide (sat = s)) as [->|Hne].
    + unfold glo_chn_at. rewrite lookup_insert_eq. exists seen, m, [], f.
      split; [reflexivity|]. split; [exact Hg|]. split; [exact Es|].
      split; [|split; [exact Ef | reflexivity]].
      specialize (I s). unfold glo_chn_at in I. rewrite Es0 in I. exact I.
    + assert (E : glo_chn_at (seen ++ [m]) acc sat).
      { apply glo_chn_at_keep; [exact (I sat)|].
        intros _ _ E. rewrite Es in E. inversion E. congruence. }
      unfold glo_chn_at in *. rewrite lookup_insert_ne by congruence. exact E.
Qed.

Lemma glo_chn_at_fold (l seen : list measurement) (acc r : gmap string Z) :
  (forall sat, glo_chn_at seen acc sat) -> fold_result glo_chn_add acc l = Ok r ->
  forall sat, glo_chn_at (seen ++ l) r sat.
Proof.
  revert seen acc. induction l as [|m l IH]; intros seen acc Hi H; simpl in H.
  - inversion H; subst r. rewrite app_nil_r. exact Hi.
  - destruct (glo_chn_add acc m) as [acc'|e] eqn:Ea; [|discriminate]. simpl in H.
    replace (seen ++ m :: l)%list with ((seen ++ [m]) ++ l)%list
      by (rewrite <- app_assoc; reflexivity).
    apply (IH _ acc'); [apply (glo_chn_at_step seen acc) |]; assumption.
Qed.

Lemma glo_chn_spec (batches : list (list measurement)) (freq_chn_list : gmap string Z) :
  get_glo_freq_chn_list batches = Ok freq_chn_list ->
  forall sat, glo_chn_at (concat batches) freq_chn_list sat.
Proof.
  intros H sat. apply (glo_chn_at_fold (concat batches) [] ∅ freq_chn_list); [|exact H].
  intros s. unfold glo_chn_at. rewrite lookup_empty. intros m [].
Qed.

(** get_glo_freq_chn_list: a satellite is a key iff a GLONASS measurement has
    its name; its channel comes from the frequency of the first one. *)
Theorem get_glo_freq_chn_list_first (batches : list (list measurement))
    (freq_chn_list : gmap string Z) :
  get_glo_freq_chn_list batches = Ok freq_chn_list ->
  forall sat,
    (freq_chn_list !! sat = None ->
       forall m, In m (concat batches) -> ConstellationType m = CONSTELLATION_GLONASS ->
         get_satname m <> Ok sat) /\
    (forall n, freq_chn_list !! sat = Some n ->
       exists pre m post f, concat batches = (pre ++ m :: post)%list /\
         ConstellationType m = CONSTELLATION_GLONASS /\ get_satname m = Ok sat /\
         (forall m', In m' pre -> ConstellationType m' = CONSTELLATION_GLONASS ->
            get_satname m' <> Ok sat) /\
         num_of (get_frequency m) = Ok f /\
         n = py_round ((f - GLO_L1_CENTER_FREQ) / GLO_L1_DFREQ)).
Proof.
  intros H sat. pose proof (glo_chn_spec batches freq_chn_list H sat) as I.
  unfold glo_chn_at in I. split.
  - intros E. rewrite E in I. exact I.
  - intros n E. rewrite E in I. exact I.
Qed.

Lemma glo_chn_fold_satname_ok (l : list measurement) (acc r : gmap string Z) :
  fold_result glo_chn_add acc l = Ok r ->
  forall m, In m l -> ConstellationType m = CONSTELLATION_GLONASS ->
    exists s, get_satname m = Ok s.
Proof.
  revert acc. induction l as [|x l IH]; intros acc H m Hm Hg; [destruct Hm|].
  simpl in H. apply rbind_ok_inv in H as [acc' [Ex H]].
  destruct Hm as [<- | Hm]; [|exact (IH acc' H m Hm Hg)].
  unfold glo_chn_add in Ex. rewrite Hg, Z.eqb_refl in Ex.
  destruct (get_satname x) as [s|e]; [eauto | discriminate].
Qed.

(** A GLONASS measurement with Svid above 50 makes get_glo_freq_chn_list
    raise, while process skips that measurement (returns None). *)
Theorem get_glo_freq_chn_list_svid_over_50 (batches : list (list measurement))
    (m : measurement) :
  In m (concat batches) -> ConstellationType m = CONSTELLATION_GLONASS -> (50 < Svid m)%Z ->
  (exists e, get_glo_freq_chn_list batches = Err e) /\
  (forall fullbiasnanos integerize pseudorange_bias,
     process m fullbiasnanos integerize pseudorange_bias = Ok None).
Proof.
  intros Hm Hg Hs.
  assert (Ev : get_satname m = Err ValueError).
  { unfold get_satname, get_constellation. rewrite Hg. cbn.
    replace (50 <? Svid m)%Z with true by (symmetry; apply Z.ltb_lt; exact Hs).
    reflexivity. }
  split.
  - unfold get_glo_freq_chn_list.
    destruct (fold_result glo_chn_add ∅ (concat batches)) as [r|e] eqn:E; [|eauto].
    destruct (glo_chn_fold_satname_ok _ _ _ E m Hm Hg) as [s Es].
    congruence.
  - intros fullbiasnanos integerize pseudorange_bias. unfold process. rewrite Ev.
    reflexivity.
Qed.

Lemma glo_channel_round (f : Q) (k : Z) :
  Qabs (f - (GLO_L1_CENTER_FREQ + inject_Z k * GLO_L1_DFREQ)) < GLO_L1_DFREQ / 2 ->
  py_round ((f - GLO_L1_CENTER_FREQ) / GLO_L1_DFREQ) = k.
Proof.
  intros H. apply Qabs_Qlt_condition in H as [H1 H2].
  unfold GLO_L1_CENTER_FREQ, GLO_L1_DFREQ in *.
  set (x := (f - 1602000000) / 562500).
  assert (Hx : x * 562500 == f - 1602000000) by (unfold x; field).
  assert (Hh : 562500 / 2 == 281250) by reflexivity.
  apply py_round_near; nra.
Qed.

(** A satellite whose GLONASS measurements lie within half a channel step of
    the nominal frequency of channel k gets channel k. *)
Theorem get_glo_freq_chn_list_channel (batches : list (list measurement))
    (freq_chn_list : gmap string Z) (sat : string) (n k : Z) :
  get_glo_freq_chn_list batches = Ok freq_chn_list ->
  freq_chn_list !! sat = Some n ->
  (forall m f, In m (concat batches) -> ConstellationType m = CONSTELLATION_GLONASS ->
     get_satname m = Ok sat -> num_of (get_frequency m) = Ok f ->
     Qabs (f - (GLO_L1_CENTER_FREQ + inject_Z k * GLO_L1_DFREQ)) < GLO_L1_DFREQ / 2) ->
  n = k.
Proof.
  intros H Hn Hf. pose proof (glo_chn_spec batches freq_chn_list H sat) as I.
  unfold glo_chn_at in I. rewrite Hn in I.
  destruct I as [pre [m [post [f [Hl [Hg [Hs [_ [Ef ->]]]]]]]]].
  apply glo_channel_round, (Hf m f); [|assumption..].
  rewrite Hl. apply in_app_iff. right. left. reflexivity.
Qed.

(** A Galileo E1 measurement with page sync and no secondary-code lock. *)
Lemma get_obscode_values_witness :
  get_obscode (gnss_row 6 11 4096 1 (FNum 1575420000) (FNum 1000)) = Ok "1B" /\
  exists band,
    get_rnx_band_from_freq (get_frequency (gnss_row 6 11 4096 1 (FNum 1575420000) (FNum 1000)))
      = Ok band /\
    ((band = 1%Z /\
      ("1B" = "1C"
       \/ ("1B" = "1B" /\ ConstellationType (gnss_row 6 11 4096 1 (FNum 1575420000) (FNum 1000))
                          = CONSTELLATION_GALILEO)))
     \/ (band = 2%Z /\
         ("1B" = "2C"
          \/ ("1B" = "2I" /\ ConstellationType (gnss_row 6 11 4096 1 (FNum 1575420000) (FNum 1000))
                             = CONSTELLATION_BEIDOU)))
     \/ (band = 5%Z /\ "1B" = "5Q")).
Proof.
  assert (E : get_obscode (gnss_row 6 11 4096 1 (FNum 1575420000) (FNum 1000)) = Ok "1B")
    by reflexivity.
  split; [exact E | exact (get_obscode_values _ _ E)].
Defined.

(** Two batches: two GPS measurements (L1, L5) and a Galileo E1 one. *)
Lemma get_obslist_contents_witness :
  exists obslist codes,
    get_obslist [[gnss_row 1 5 15 1 (FNum 1575420000) (FNum 1000);
                  gnss_row 1 7 15 1 (FNum 1176450000) (FNum 1000)];
                 [gnss_row 6 11 4096 1 (FNum 1575420000) (FNum 2000)]] = Ok obslist /\
    obslist !! "E" = Some (obs_expand codes) /\ In "1B" codes.
Proof.
  set (B := [[gnss_row 1 5 15 1 (FNum 1575420000) (FNum 1000);
              gnss_row 1 7 15 1 (FNum 1176450000) (FNum 1000)];
             [gnss_row 6 11 4096 1 (FNum 1575420000) (FNum 2000)]]).
  destruct (get_obslist B) as [ol|e] eqn:E; [|vm_compute in E; discriminate E].
  destruct (get_obslist_contents B ol E "E") as [Hk Hc].
  destruct (proj2 Hk) as [xs Hxs].
  { exists (gnss_row 6 11 4096 1 (FNum 1575420000) (FNum 2000)).
    split; [simpl; auto | reflexivity]. }
  destruct (Hc xs Hxs) as [codes [-> [_ [_ Hin]]]].
  exists ol, codes. split; [reflexivity|]. split; [exact Hxs|].
  apply Hin. exists (gnss_row 6 11 4096 1 (FNum 1575420000) (FNum 2000)).
  split; [simpl; auto|]. split; reflexivity.
Defined.

(** The second measurement has a carrier frequency float() refused. *)
Lemma get_obslist_error_witness :
  get_obslist [[gnss_row 1 5 15 1 (FNum 1575420000) (FNum 1000);
                gnss_row 1 6 15 1 (FStr "n/a") (FNum 1000)]] = Err TypeError.
Proof.
  apply get_obslist_error.
  exists [gnss_row 1 5 15 1 (FNum 1575420000) (FNum 1000)],
         (gnss_row 1 6 15 1 (FStr "n/a") (FNum 1000)), [].
  split; [reflexivity|]. split; [|reflexivity].
  constructor; [exists "1C"; reflexivity | constructor].
Defined.

(** A tracked GPS L1 measurement. *)
Lemma process_codes_in_obslist_witness :
  exists obslist r v c xs,
    get_obslist [[gnss_row 1 5 15 1 (FNum 1575420000) (FNum 1000000400)]] = Ok obslist /\
    process (gnss_row 1 5 15 1 (FNum 1575420000) (FNum 1000000400)) None false 0
      = Ok (Some r) /\
    obs_lookup r "G05" "C1C" = Some v /\
    get_constellation (gnss_row 1 5 15 1 (FNum 1575420000) (FNum 1000000400)) = Ok c /\
    obslist !! c = Some xs /\ In "C1C" xs.
Proof.
  set (m := gnss_row 1 5 15 1 (FNum 1575420000) (FNum 1000000400)).
  destruct (get_obslist [[m]]) as [ol|e] eqn:E; [|vm_compute in E; discriminate E].
  destruct (process m None false 0) as [[r|]|e] eqn:Ep;
    [| vm_compute in Ep; discriminate Ep | vm_compute in Ep; discriminate Ep].
  destruct (obs_lookup r "G05" "C1C") as [v|] eqn:El.
  2:{ vm_compute in Ep. injection Ep as <-. vm_compute in El. discriminate El. }
  destruct (process_codes_in_obslist [[m]] ol m None false 0 r "G05" "C1C" v E
              (or_introl eq_refl) Ep El) as [c [xs [Hc [Hxs Hin]]]].
  exists ol, r, v, c, xs. auto 6.
Defined.

(** GLONASS R05 on channel -7, then again on channel 1, and a GPS satellite. *)
Lemma get_glo_freq_chn_list_first_witness :
  exists freq_chn_list,
    get_glo_freq_chn_list
      [[gnss_row 3 5 227 1 (FNum (1602000000 - 7 * 562500)) (FNum 1000);
        gnss_row 1 6 15 1 (FNum 1575420000) (FNum 1000)];
       [gnss_row 3 5 227 1 (FNum (1602000000 + 562500)) (FNum 2000)]] = Ok freq_chn_list /\
    freq_chn_list !! "R05" = Some (-7)%Z /\ freq_chn_list !! "R06" = None /\
    (forall m, In m (concat
      [[gnss_row 3 5 227 1 (FNum (1602000000 - 7 * 562500)) (FNum 1000);
        gnss_row 1 6 15 1 (FNum 1575420000) (FNum 1000)];
       [gnss_row 3 5 227 1 (FNum (1602000000 + 562500)) (FNum 2000)]]) ->
       ConstellationType m = CONSTELLATION_GLONASS -> get_satname m <> Ok "R06").
Proof.
  set (B := [[gnss_row 3 5 227 1 (FNum (1602000000 - 7 * 562500)) (FNum 1000);
              gnss_row 1 6 15 1 (FNum 1575420000) (FNum 1000)];
             [gnss_row 3 5 227 1 (FNum (1602000000 + 562500)) (FNum 2000)]]).
  destruct (get_glo_freq_chn_list B) as [fcl|e] eqn:E; [|vm_compute in E; discriminate E].
  assert (H6 : fcl !! "R06" = None).
  { pose proof E as E'. vm_compute in E'. injection E' as <-. reflexivity. }
  exists fcl. split; [reflexivity|]. split.
  - pose proof E as E'. vm_compute in E'. injection E' as <-. reflexivity.
  - split; [exact H6|]. exact (proj1 (get_glo_freq_chn_list_first B fcl E "R06") H6).
Defined.

(** A GLONASS measurement with Svid 51 after a GPS one. *)
Lemma get_glo_freq_chn_list_svid_over_50_witness :
  (exists e, get_glo_freq_chn_list
    [[gnss_row 1 6 15 1 (FNum 1575420000) (FNum 1000);
      gnss_row 3 51 227 1 (FNum 1602000000) (FNum 1000)]] = Err e) /\
  (forall fullbiasnanos integerize pseudorange_bias,
     process (gnss_row 3 51 227 1 (FNum 1602000000) (FNum 1000))
       fullbiasnanos integerize pseudorange_bias = Ok None).
Proof.
  apply (get_glo_freq_chn_list_svid_over_50 _ (gnss_row 3 51 227 1 (FNum 1602000000) (FNum 1000)));
    [simpl; auto | reflexivity | simpl; lia].
Defined.

(** R05 at 1 kHz above the nominal frequency of channel -7. *)
Lemma get_glo_freq_chn_list_channel_witness :
  exists freq_chn_list,
    get_glo_freq_chn_list
      [[gnss_row 3 5 227 1 (FNum (1602000000 - 7 * 562500 + 1000)) (FNum 1000)]]
      = Ok freq_chn_list /\ freq_chn_list !! "R05" = Some (-7)%Z.
Proof.
  set (B := [[gnss_row 3 5 227 1 (FNum (1602000000 - 7 * 562500 + 1000)) (FNum 1000)]]).
  destruct (get_glo_freq_chn_list B) as [fcl|e] eqn:E; [|vm_compute in E; discriminate E].
  exists fcl. split; [reflexivity|].
  destruct (fcl !! "R05") as [n|] eqn:En.
  2:{ vm_compute in E. injection E as <-. vm_compute in En. discriminate En. }
  f_equal. apply (get_glo_freq_chn_list_channel B fcl "R05" n (-7) E En).
  intros m f [<- | []] _ _ Ef. vm_compute in Ef. injection Ef as <-. reflexivity.
Defined.

(** * Log batches *)

Lemma dict_get_ok (d : gmap string fieldval) (k : string) (v : fieldval) :
  dict_get d k = Ok v <-> d !! k = Some v.
Proof. unfold dict_get. destruct (d !! k); split; congruence. Qed.

Lemma batch_uniform_snoc (batch : list (gmap string fieldval)) (r : gmap string fieldval) :
  batch_uniform batch ->
  (forall r0 rs, batch = r0 :: rs -> exists t t0, r !! BATCH_DELIMITER = Some t /\
     r0 !! BATCH_DELIMITER = Some t0 /\ fieldval_eqb t t0 = true) ->
  batch_uniform (batch ++ [r])%list.
Proof.
  destruct batch as [|r0 rs]; simpl; intros Hu Hr; [constructor|].
  apply Forall_app. split; [exact Hu|]. constructor; [apply (Hr r0 rs eq_refl) | constructor].
Qed.

Lemma raw_batches_loop_spec (parse_line : string -> result (gmap string fieldval))
    (lines : list string) (batch : list (gmap string fieldval))
    (bs : list (list (gmap string fieldval))) :
  raw_batches_loop parse_line lines batch = Ok bs -> batch_uniform batch ->
  exists rows,
    Forall2 (fun l r => parse_line l = Ok r) (List.filter (String.prefix "Raw") lines) rows /\
    concat bs = (batch ++ rows)%list /\
    Forall batch_uniform bs /\ batches_split bs /\
    (exists b bs', bs = b :: bs' /\ hd_error b = hd_error (batch ++ rows)%list) /\
    ((batch ++ rows)%list <> [] -> Forall (fun b => b <> []) bs) /\
    ((batch ++ rows)%list = [] -> bs = [[]]).
Proof.
  revert batch bs. induction lines as [|line rest IH]; intros batch bs H Hu; simpl in H.
  - inversion H; subst bs. exists []. rewrite app_nil_r. simpl.
    split; [constructor|]. split; [rewrite app_nil_r; reflexivity|].
    split; [constructor; [exact Hu | constructor]|]. split; [exact I|].
    split; [eauto|]. split; [intros Hb; constructor; [exact Hb | constructor] | intros ->; reflexivity].
  - simpl. destruct (String.prefix "Raw" line) eqn:Ep; [|exact (IH batch bs H Hu)].
    apply rbind_ok_inv in H as [lf [Elf H]].
    apply rbind_ok_inv in H as [nb [Enb H]].
    destruct nb.
    + (* a new batch starts with lf *)
      destruct batch as [|b0 bt]; [discriminate Enb|].
      apply rbind_ok_inv in Enb as [t [Et Enb]].
      apply rbind_ok_inv in Enb as [t0 [Et0 Enb]].
      injection Enb as Hne.
      apply rbind_ok_inv in H as [bs' [Ebs' H]]. inversion H; subst bs; clear H.
      destruct (IH [lf] bs' Ebs' (List.Forall_nil _)) as
        [rows [Hf [Hc [Hus [Hsp [[b [bs'' [-> Hhd]]] [Hne' _]]]]]]].
      exists (lf :: rows). split; [constructor; assumption|].
      split; [simpl in *; rewrite Hc; reflexivity|].
      split; [constructor; assumption|].
      split.
      * simpl. split; [|exact Hsp].
        destruct b as [|r2 b]; [discriminate Hhd|]. simpl in Hhd. inversion Hhd; subst r2.
        apply dict_get_ok in Et, Et0. exists t0, t. split; [exact Et0|]. split; [exact Et|].
        destruct (fieldval_eqb t t0); [discriminate Hne | reflexivity].
      * split; [eauto|]. split; [|intros Hx; discriminate Hx].
        intros _. constructor; [discriminate|]. apply Hne'. discriminate.
    + (* lf joins the current batch *)
      assert (Hu' : batch_uniform (batch ++ [lf])%list).
      { apply batch_uniform_snoc; [exact Hu|]. intros r0 rs ->.
        apply rbind_ok_inv in Enb as [t [Et Enb]].
        apply rbind_ok_inv in Enb as [t0 [Et0 Enb]].
        injection Enb as Heq. apply dict_get_ok in Et, Et0. exists t, t0.
        split; [exact Et|]. split; [exact Et0|].
        destruct (fieldval_eqb t t0); [reflexivity | discriminate Heq]. }
      destruct (IH (batch ++ [lf])%list bs H Hu') as [rows [Hf [Hc [Hus [Hsp [Hhd [Hne Hnil]]]]]]].
      exists (lf :: rows). rewrite <- app_assoc in Hc, Hhd, Hne, Hnil. simpl in Hc, Hhd, Hne, Hnil.
      split; [constructor; assumption|]. split; [exact Hc|]. split; [exact Hus|].
      split; [exact Hsp|]. split; [exact Hhd|].
      split; [intros _; apply Hne; destruct batch; discriminate|].
      intros Hx. destruct batch; discriminate Hx.
Qed.

(** [GnssLog.raw_batches], when it goes through the whole log: the batches
    hold exactly the parsed rows of the lines starting with [Raw], in their
    order.  A log without such a line gives one empty batch; otherwise no
    batch is empty. *)
Theorem raw_batches_partition (parse_line : string -> result (gmap string fieldval))
    (lines : list string) (bs : list (list (gmap string fieldval))) :
  raw_batches parse_line lines = Ok bs ->
  exists rows,
    Forall2 (fun l r => parse_line l = Ok r) (List.filter (String.prefix "Raw") lines) rows /\
    concat bs = rows /\
    (rows = [] -> bs = [[]]) /\
    (rows <> [] -> Forall (fun b => b <> []) bs).
Proof.
  intros H. destruct (raw_batches_loop_spec parse_line lines [] bs H I) as
    [rows [Hf [Hc [_ [_ [_ [Hne Hnil]]]]]]].
  exists rows. auto.
Qed.

(** [GnssLog.raw_batches]: every row of a batch has the TimeNanos value of
    the batch's first row, and the first rows of two consecutive batches have
    different TimeNanos values. *)
Theorem raw_batches_grouping (parse_line : string -> result (gmap string fieldval))
    (lines : list string) (bs : list (list (gmap string fieldval))) :
  raw_batches parse_line lines = Ok bs ->
  Forall batch_uniform bs /\ batches_split bs.
Proof.
  intros H. destruct (raw_batches_loop_spec parse_line lines [] bs H I) as
    [rows [_ [_ [Hu [Hs _]]]]].
  auto.
Qed.

Lemma raw_batches_loop_err (parse_line : string -> result (gmap string fieldval))
    (lines : list string) (batch : list (gmap string fieldval)) (e : pyerr) :
  raw_batches_loop parse_line lines batch = Err e ->
  (exists l, In l lines /\ String.prefix "Raw" l = true /\ parse_line l = Err e) \/
  (e = KeyError /\
   ((exists l r, In l lines /\ String.prefix "Raw" l = true /\ parse_line l = Ok r /\
                 r !! BATCH_DELIMITER = None) \/
    (exists r, hd_error batch = Some r /\ r !! BATCH_DELIMITER = None))).
Proof.
  revert batch. induction lines as [|line rest IH]; intros batch H; simpl in H; [discriminate|].
  destruct (String.prefix "Raw" line) eqn:Ep.
  2:{ destruct (IH batch H) as [[l [? [? ?]]] | [-> [[l [r [? [? [? ?]]]]] | Hb]]].
      - left. exists l. simpl. auto.
      - right. split; [reflexivity|]. left. exists l, r. simpl. auto.
      - right. split; [reflexivity|]. right. exact Hb. }
  destruct (parse_line line) as [lf|e'] eqn:Elf; simpl in H.
  2:{ inversion H; subst. left. exists line. simpl. auto. }
  (* the outcome of the rest of the loop, started on a batch whose first row
     is [lf] or the first row of [batch] *)
  assert (Lift : forall batch', raw_batches_loop parse_line rest batch' = Err e ->
            hd_error batch' = Some lf \/ hd_error batch' = hd_error batch ->
            (exists l, In l (line :: rest) /\ String.prefix "Raw" l = true /\
                       parse_line l = Err e) \/
            (e = KeyError /\
             ((exists l r, In l (line :: rest) /\ String.prefix "Raw" l = true /\
                           parse_line l = Ok r /\ r !! BATCH_DELIMITER = None) \/
              (exists r, hd_error batch = Some r /\ r !! BATCH_DELIMITER = None)))).
  { intros batch' H' Hh.
    destruct (IH batch' H') as [[l [? [? ?]]] | [-> [[l [r [? [? [? ?]]]]] | [r [Hb Hr]]]]].
    - left. exists l. simpl. auto.
    - right. split; [reflexivity|]. left. exists l, r. simpl. auto.
    - right. split; [reflexivity|]. destruct Hh as [Hh | Hh]; rewrite Hh in Hb.
      + injection Hb as <-. left. exists line, lf. simpl. auto.
      + right. exists r. auto. }
  destruct batch as [|b0 bt]; simpl in H.
  - exact (Lift [lf] H (or_introl eq_refl)).
  - unfold dict_get in H at 1.
    destruct (lf !! BATCH_DELIMITER) as [t|] eqn:Et; simpl in H.
    2:{ inversion H; subst. right. split; [reflexivity|]. left.
        exists line, lf. simpl. auto. }
    unfold dict_get in H.
    destruct (b0 !! BATCH_DELIMITER) as [t0|] eqn:Et0; simpl in H.
    2:{ inversion H; subst. right. split; [reflexivity|]. right.
        exists b0. auto. }
    destruct (negb (fieldval_eqb t t0)).
    + destruct (raw_batches_loop parse_line rest [lf]) eqn:Er; simpl in H; [discriminate|].
      inversion H; subst. exact (Lift [lf] Er (or_introl eq_refl)).
    + exact (Lift _ H (or_intror eq_refl)).
Qed.

(** [GnssLog.raw_batches] raises only the exception of parsing one of the
    [Raw] lines, or a KeyError, and the KeyError only when some [Raw] line
    parses to a row without TimeNanos. *)
Theorem raw_batches_errors (parse_line : string -> result (gmap string fieldval))
    (lines : list string) (e : pyerr) :
  raw_batches parse_line lines = Err e ->
  (exists l, In l lines /\ String.prefix "Raw" l = true /\ parse_line l = Err e) \/
  (e = KeyError /\
   exists l r, In l lines /\ String.prefix "Raw" l = true /\ parse_line l = Ok r /\
               r !! BATCH_DELIMITER = None).
Proof.
  intro H. unfold raw_batches in H.
  destruct (raw_batches_loop_err parse_line lines [] e H)
    as [Hp | [Hk [Hl | [r [Hr _]]]]]; [left; exact Hp | right; auto | discriminate Hr].
Qed.

Lemma raw_batches_loop_ok (parse_line : string -> result (gmap string fieldval))
    (lines : list string) (batch : list (gmap string fieldval)) :
  (forall l, In l lines -> String.prefix "Raw" l = true ->
     exists r, parse_line l = Ok r /\ is_Some (r !! BATCH_DELIMITER)) ->
  Forall (fun r => is_Some (r !! BATCH_DELIMITER)) batch ->
  exists bs, raw_batches_loop parse_line lines batch = Ok bs.
Proof.
  revert batch. induction lines as [|line rest IH]; intros batch Hl Hb; simpl; [eauto|].
  assert (Hl' : forall l, In l rest -> String.prefix "Raw" l = true ->
     exists r, parse_line l = Ok r /\ is_Some (r !! BATCH_DELIMITER)) by (intros; apply Hl; simpl; auto).
  destruct (String.prefix "Raw" line) eqn:Ep; [|exact (IH batch Hl' Hb)].
  destruct (Hl line (or_introl eq_refl) Ep) as [lf [Elf [t Et]]]. rewrite Elf. simpl.
  assert (Hb1 : Forall (fun r => is_Some (r !! BATCH_DELIMITER)) [lf]) by (repeat constructor; eauto).
  destruct batch as [|b0 bt]; simpl; [exact (IH [lf] Hl' Hb1)|].
  inversion Hb as [|? ? [t0 Et0] Hbt]; subst.
  unfold dict_get. rewrite Et, Et0. simpl.
  destruct (negb (fieldval_eqb t t0)).
  - destruct (IH [lf] Hl' Hb1) as [bs Ebs]. rewrite Ebs. simpl. eauto.
  - apply IH; [exact Hl'|]. apply (Forall_app _ (b0 :: bt) [lf]). split; [exact Hb | exact Hb1].
Qed.

(** [GnssLog.raw_batches] goes through the whole log when every [Raw] line
    parses to a row that has a TimeNanos field. *)
Theorem raw_batches_total (parse_line : string -> result (gmap string fieldval))
    (lines : list string) :
  (forall l, In l lines -> String.prefix "Raw" l = true ->
     exists r, parse_line l = Ok r /\ is_Some (r !! BATCH_DELIMITER)) ->
  exists bs, raw_batches parse_line lines = Ok bs.
Proof. intros H. apply raw_batches_loop_ok; [exact H | constructor]. Qed.

(** Three Raw lines, the first two with the same TimeNanos, between a
    header line and a Fix line. *)
Lemma raw_batches_partition_witness :
  exists bs,
    raw_batches (fun l => Ok {[ "TimeNanos" := FNum (inject_Z (Z.of_nat (String.length l))) ]})
      ["# Header"; "Raw,a"; "Raw,b"; "Fix,x"; "Raw,ccc"] = Ok bs /\
    Forall (fun b => b <> []) bs /\ length (concat bs) = 3%nat.
Proof.
  set (P := fun l => Ok {[ "TimeNanos" := FNum (inject_Z (Z.of_nat (String.length l))) ]}
         : result (gmap string fieldval)).
  set (L := ["# Header"; "Raw,a"; "Raw,b"; "Fix,x"; "Raw,ccc"]).
  destruct (raw_batches P L) as [bs|e] eqn:E; [|vm_compute in E; discriminate E].
  destruct (raw_batches_partition P L bs E) as [rows [Hf [Hc [_ Hne]]]].
  assert (Hlen : length rows = 3%nat) by (apply Forall2_length in Hf; rewrite <- Hf; reflexivity).
  exists bs. split; [reflexivity|]. split.
  - apply Hne. intros ->. discriminate Hlen.
  - rewrite Hc. exact Hlen.
Defined.

(** The same log: the batches are split where TimeNanos changes. *)
Lemma raw_batches_grouping_witness :
  exists bs,
    raw_batches (fun l => Ok {[ "TimeNanos" := FNum (inject_Z (Z.of_nat (String.length l))) ]})
      ["# Header"; "Raw,a"; "Raw,b"; "Fix,x"; "Raw,ccc"] = Ok bs /\
    Forall batch_uniform bs /\ batches_split bs.
Proof.
  set (P := fun l => Ok {[ "TimeNanos" := FNum (inject_Z (Z.of_nat (String.length l))) ]}
         : result (gmap string fieldval)).
  set (L := ["# Header"; "Raw,a"; "Raw,b"; "Fix,x"; "Raw,ccc"]).
  destruct (raw_batches P L) as [bs|e] eqn:E; [|vm_compute in E; discriminate E].
  exists bs. split; [reflexivity|]. exact (raw_batches_grouping P L bs E).
Defined.

(** Rows without TimeNanos: the second Raw line raises KeyError. *)
Lemma raw_batches_errors_witness :
  raw_batches (fun _ => Ok ∅) ["Raw,a"; "Raw,b"] = Err KeyError /\
  ((exists l, In l ["Raw,a"; "Raw,b"] /\ String.prefix "Raw" l = true /\
              (fun _ => Ok ∅) l = @Err (gmap string fieldval) KeyError) \/
   (KeyError = KeyError /\
    exists l r, In l ["Raw,a"; "Raw,b"] /\ String.prefix "Raw" l = true /\
                (fun _ => @Ok (gmap string fieldval) ∅) l = Ok r /\
                r !! BATCH_DELIMITER = None)).
Proof.
  assert (E : raw_batches (fun _ => Ok ∅) ["Raw,a"; "Raw,b"] = Err KeyError) by reflexivity.
  split; [exact E | exact (raw_batches_errors _ _ KeyError E)].
Defined.

(** Every Raw line parses to a row with TimeNanos. *)
Lemma raw_batches_total_witness :
  exists bs,
    raw_batches (fun l => Ok {[ "TimeNanos" := FNum (inject_Z (Z.of_nat (String.length l))) ]})
      ["# Header"; "Raw,a"; "Raw,b"; "Fix,x"; "Raw,ccc"] = Ok bs.
Proof.
  apply raw_batches_total. intros l _ _. eexists. split; [reflexivity|].
  eexists. reflexivity.
Defined.

(** * Log header *)

Lemma py_lstrip_length (s : string) : (String.length (py_lstrip s) <= String.length s)%nat.
Proof. induction s as [|a s IH]; simpl; [lia|]. destruct (py_isspace a); simpl; lia. Qed.

Lemma py_rstrip_length (s : string) : (String.length (py_rstrip s) <= String.length s)%nat.
Proof.
  induction s as [|a s IH]; simpl; [lia|].
  destruct (py_rstrip s) eqn:E; [destruct (py_isspace a)|]; simpl in *; lia.
Qed.

Lemma py_strip_lstrip (s : string) : py_strip s = s -> py_lstrip s = s.
Proof.
  unfold py_strip. intros H.
  destruct s as [|a s']; [reflexivity|]. simpl in *.
  destruct (py_isspace a) eqn:Ea; [|reflexivity].
  pose proof (py_rstrip_length (py_lstrip s')). pose proof (py_lstrip_length s').
  rewrite H in *. simpl in *. lia.
Qed.

Lemma py_strip_rstrip (s : string) : py_strip s = s -> py_rstrip s = s.
Proof. intros H. pose proof (py_strip_lstrip s H) as L. unfold py_strip in H. rewrite L in H. exact H. Qed.

Lemma py_rstrip_app (s t : string) :
  py_rstrip (s ++ t) = match py_rstrip t with EmptyString => py_rstrip s | r => (s ++ r)%string end.
Proof.
  induction s as [|a s IH].
  - change (("" ++ t)%string) with t. destruct (py_rstrip t); reflexivity.
  - change ((String a s ++ t)%string) with (String a (s ++ t)). simpl. rewrite IH. destruct (py_rstrip t) as [|b r] eqn:Et; [reflexivity|].
    destruct (s ++ String b r)%string eqn:E; [destruct s; discriminate|].
    rewrite <- E. reflexivity.
Qed.

Lemma py_lstrip_nonspace (a : ascii) (s : string) :
  py_isspace a = false -> py_lstrip (String a s) = String a s.
Proof. cbn [py_lstrip]. intros ->. reflexivity. Qed.

Lemma py_lstrip_first (a : ascii) (s : string) :
  py_lstrip (String a s) = String a s -> py_isspace a = false.
Proof.
  cbn [py_lstrip]. destruct (py_isspace a); [|reflexivity]. intros H.
  pose proof (py_lstrip_length s). rewrite H in H0. simpl in H0. lia.
Qed.

Lemma py_rstrip_nil_lstrip (s : string) : py_lstrip s = EmptyString -> py_rstrip s = EmptyString.
Proof.
  induction s as [|a s IH]; cbn [py_lstrip py_rstrip]; [reflexivity|].
  destruct (py_isspace a) eqn:Ea; [|discriminate].
  intros H. rewrite (IH H). reflexivity.
Qed.

Lemma py_strip_nil (s : string) : py_strip s = EmptyString -> py_lstrip s = EmptyString.
Proof.
  unfold py_strip. intros H. destruct (py_lstrip s) as [|a r] eqn:E; [reflexivity|].
  exfalso. assert (Ha : py_isspace a = false).
  { induction s as [|b s IHs]; cbn [py_lstrip] in E; [discriminate|].
    destruct (py_isspace b) eqn:Eb; [apply IHs; exact E|]. inversion E; subst. exact Eb. }
  cbn [py_rstrip] in H. destruct (py_rstrip r); [rewrite Ha in H|]; discriminate.
Qed.

Lemma py_split_app (sep : ascii) (k t : string) :
  no_char sep k ->
  py_split sep (k ++ t) =
    match py_split sep t with p :: ps => (k ++ p)%string :: ps | [] => [k] end.
Proof.
  induction k as [|a k IH]; intros Hk.
  - change (("" ++ t)%string) with t. destruct (py_split sep t) eqn:E; [|reflexivity].
    destruct t; simpl in E; [discriminate|].
    destruct (Ascii.eqb _ _); [discriminate|]. destruct (py_split _ t); discriminate.
  - change ((String a k ++ t)%string) with (String a (k ++ t)). simpl.
    rewrite IH by (intros i; exact (Hk (S i))).
    replace (Ascii.eqb a sep) with false
      by (symmetry; apply Ascii.eqb_neq; intros ->; exact (Hk O eq_refl)).
    destruct (py_split sep t); reflexivity.
Qed.

Lemma str_app_nil_r (s : string) : (s ++ EmptyString)%string = s.
Proof. induction s as [|a s IH]; [reflexivity|]. change (String a (s ++ EmptyString) = String a s). rewrite IH. reflexivity. Qed.

Lemma py_split_no_char (sep : ascii) (k : string) : no_char sep k -> py_split sep k = [k].
Proof.
  intros Hk. rewrite <- (str_app_nil_r k) at 1. rewrite py_split_app by exact Hk.
  simpl. rewrite str_app_nil_r. reflexivity.
Qed.

Lemma concat_cons2 (sep k n : string) (ns : list string) :
  String.concat sep (k :: n :: ns) = (k ++ sep ++ String.concat sep (n :: ns))%string.
Proof. reflexivity. Qed.

Lemma py_split_join (sep : ascii) (key : string) (names : list string) :
  no_char sep key -> Forall (no_char sep) names ->
  py_split sep (String.concat (String sep EmptyString) (key :: names)) = key :: names.
Proof.
  revert key. induction names as [|n ns IH]; intros key Hk Hns.
  - apply py_split_no_char, Hk.
  - inversion Hns as [|? ? Hn Hns']; subst.
    rewrite concat_cons2, py_split_app by exact Hk.
    change ((String sep EmptyString ++ String.concat (String sep EmptyString) (n :: ns))%string)
      with (String sep (String.concat (String sep EmptyString) (n :: ns))).
    cbn [py_split]. rewrite Ascii.eqb_refl.
    rewrite (IH n Hn Hns'). rewrite str_app_nil_r. reflexivity.
Qed.

Lemma py_rstrip_comma (x : string) :
  py_rstrip x = x -> py_rstrip (String ","%char x) = String ","%char x.
Proof.
  intros H. cbn [py_rstrip]. rewrite H. destruct x; reflexivity.
Qed.

Lemma py_rstrip_app_fixed (s t : string) :
  py_rstrip t = t -> t <> EmptyString -> py_rstrip (s ++ t) = (s ++ t)%string.
Proof.
  intros H Hne. rewrite py_rstrip_app, H. destruct t; [contradiction | reflexivity].
Qed.

Lemma py_rstrip_join (key : string) (names : list string) :
  py_rstrip key = key -> Forall (fun n => py_rstrip n = n) names ->
  py_rstrip (String.concat "," (key :: names)) = String.concat "," (key :: names).
Proof.
  revert key. induction names as [|n ns IH]; intros key Hk Hns; [exact Hk|].
  inversion Hns as [|? ? Hn Hns']; subst.
  rewrite concat_cons2. apply py_rstrip_app_fixed; [|discriminate].
  apply py_rstrip_comma, IH; assumption.
Qed.

Lemma py_strip_join_ws (key : string) (names : list string) (ws : string) :
  py_strip key = key -> Forall (fun n => py_strip n = n) names -> py_strip ws = EmptyString ->
  py_strip (String.concat "," (key :: names) ++ ws) = String.concat "," (key :: names).
Proof.
  intros Hk Hns Hws.
  apply py_strip_nil in Hws. pose proof (py_rstrip_nil_lstrip ws Hws) as Hwr.
  assert (HR : py_rstrip (String.concat "," (key :: names)) = String.concat "," (key :: names)).
  { apply py_rstrip_join; [apply py_strip_rstrip, Hk|].
    eapply Forall_impl; [exact Hns|]. intros n Hn. apply py_strip_rstrip, Hn. }
  unfold py_strip.
  destruct (String.concat "," (key :: names)) as [|a b] eqn:EB.
  - change ((EmptyString ++ ws)%string) with ws. rewrite Hws. reflexivity.
  - assert (Ha : py_isspace a = false).
    { destruct key as [|c k'].
      - destruct names as [|n ns]; [discriminate EB|].
        rewrite concat_cons2 in EB. change ((EmptyString ++ String ","%char (String.concat "," (n :: ns)))%string)
          with (String ","%char (String.concat "," (n :: ns))) in EB.
        inversion EB; subst. reflexivity.
      - destruct names as [|n ns].
        + simpl in EB. inversion EB; subst. eapply py_lstrip_first. apply py_strip_lstrip, Hk.
        + rewrite concat_cons2 in EB.
          change ((String c k' ++ String ","%char (String.concat "," (n :: ns)))%string)
            with (String c (k' ++ String ","%char (String.concat "," (n :: ns)))) in EB.
          inversion EB; subst. apply (py_lstrip_first a k'), py_strip_lstrip, Hk. }
    change ((String a b ++ ws)%string) with (String a (b ++ ws)).
    rewrite py_lstrip_nonspace by exact Ha.
    change (String a (b ++ ws)) with ((String a b ++ ws)%string).
    rewrite py_rstrip_app, Hwr. exact HR.
Qed.

(** [GnssLogHeader.get_fieldnames] on a line made of two leading characters,
    a key and field names joined by commas, then trailing whitespace: the
    names are stored under the key, unchanged, when the key and the names are
    already stripped and contain no comma. *)
Theorem get_fieldnames_round_trip (fields : gmap string (list string)) (c1 c2 : ascii)
    (key : string) (names : list string) (ws : string) :
  py_strip key = key -> no_char ","%char key ->
  Forall (fun n => py_strip n = n /\ no_char ","%char n) names ->
  py_strip ws = EmptyString ->
  get_fieldnames fields (String c1 (String c2 (String.concat "," (key :: names) ++ ws)))
    = <[key := names]> fields.
Proof.
  intros Hk Hkc Hns Hws. unfold get_fieldnames. cbn [str_drop].
  rewrite py_strip_join_ws by
    first [exact Hk | exact Hws | eapply Forall_impl; [exact Hns | intros n [Hn _]; exact Hn]].
  rewrite py_split_join by
    first [exact Hkc | eapply Forall_impl; [exact Hns | intros n [_ Hn]; exact Hn]].
  cbn [map]. rewrite Hk.
  replace (map py_strip names) with names; [reflexivity|].
  induction Hns as [|n ns [Hn _] _ IH]; [reflexivity|]. cbn [map]. rewrite Hn, <- IH. reflexivity.
Qed.

Lemma py_split_nonempty (sep : ascii) (s : string) : py_split sep s <> [].
Proof.
  induction s as [|a s IH]; simpl; [discriminate|].
  destruct (Ascii.eqb a sep); [discriminate|]. destruct (py_split sep s); discriminate.
Qed.

Lemma parse_version_loop_some (fields : list string) (p : gmap string string) (k v : string) :
  p !! k = Some v -> exists r, parse_version_loop p (Some k) fields = Some r.
Proof.
  revert p k v. induction fields as [|f fs IH]; intros p k v Hk; simpl; [eauto|].
  destruct (str_endswith ":"%char f).
  - eapply IH. apply lookup_insert_eq.
  - rewrite Hk. eapply IH. apply lookup_insert_eq.
Qed.

(** [GnssLogHeader.parse_version] raises exactly when the stripped line has
    a second space-separated field and that field does not end with a colon:
    a value is then appended before any key was read.  Later fields never
    make it raise. *)
Theorem parse_version_raises (parameters : gmap string string) (line : string) :
  parse_version parameters line = None <->
  exists h f fs, py_split " "%char (py_strip line) = h :: f :: fs /\
                 str_endswith ":"%char f = false.
Proof.
  unfold parse_version.
  destruct (py_split " "%char (py_strip line)) as [|h fields] eqn:E.
  - split; [discriminate|]. intros [h [f [fs [H _]]]]. discriminate H.
  - destruct fields as [|f fs]; simpl.
    + split; [discriminate|]. intros [h' [f [fs [H _]]]]. discriminate H.
    + destruct (str_endswith ":"%char f) eqn:Ef.
      * destruct (parse_version_loop_some fs (<[str_init f := EmptyString]> parameters)
                    (str_init f) EmptyString (lookup_insert_eq _ _ _)) as [r Hr].
        rewrite Hr. split; [discriminate|]. intros [h' [f' [fs' [H Hf']]]].
        inversion H; subst. congruence.
      * split; [intros _; exists h, f, fs; auto | reflexivity].
Qed.

Lemma str_endswith_colon (k : string) : str_endswith ":"%char (k ++ ":") = true.
Proof.
  induction k as [|a k IH]; [reflexivity|].
  change ((String a k ++ ":")%string) with (String a (k ++ ":")).
  cbn [str_endswith]. destruct (k ++ ":")%string eqn:E; [destruct k; discriminate|].
  exact IH.
Qed.

Lemma str_init_colon (k : string) : str_init (k ++ ":") = k.
Proof.
  induction k as [|a k IH]; [reflexivity|].
  change ((String a k ++ ":")%string) with (String a (k ++ ":")).
  cbn [str_init]. destruct (k ++ ":")%string eqn:E; [destruct k; discriminate|].
  rewrite IH. reflexivity.
Qed.

Lemma parse_version_loop_words (p : gmap string string) (k v : string) (ws rest : list string) :
  p !! k = Some v -> Forall (fun w => str_endswith ":"%char w = false) ws ->
  parse_version_loop p (Some k) (ws ++ rest) =
  parse_version_loop (<[k := fold_left (fun acc w => (acc ++ " " ++ w)%string) ws v]> p) (Some k) rest.
Proof.
  revert p v. induction ws as [|w ws IH]; intros p v Hk Hws; simpl.
  - rewrite insert_id by exact Hk. reflexivity.
  - inversion Hws as [|? ? Hw Hws']; subst. rewrite Hw, Hk.
    rewrite (IH _ _ (lookup_insert_eq _ _ _) Hws'). rewrite insert_insert_eq. reflexivity.
Qed.

Lemma str_app_assoc (s t u : string) : ((s ++ t) ++ u)%string = (s ++ (t ++ u))%string.
Proof.
  induction s as [|a s IH]; [reflexivity|].
  change (String a ((s ++ t) ++ u) = String a (s ++ (t ++ u))). rewrite IH. reflexivity.
Qed.

Lemma no_char_app (c : ascii) (s t : string) : no_char c s -> no_char c t -> no_char c (s ++ t).
Proof.
  induction s as [|a s IH]; intros Hs Ht; [exact Ht|].
  intros [|i]; simpl.
  - exact (Hs 0%nat).
  - apply IH; [|exact Ht]. intros j. exact (Hs (S j)).
Qed.

Lemma py_rstrip_cons_fixed (a : ascii) (x : string) :
  py_rstrip x = x -> x <> EmptyString -> py_rstrip (String a x) = String a x.
Proof. intros H Hne. cbn [py_rstrip]. rewrite H. destruct x; [contradiction | reflexivity]. Qed.

Lemma str_concat_nonempty (sep n : string) (ns : list string) :
  n <> EmptyString -> String.concat sep (n :: ns) <> EmptyString.
Proof. intros Hn. destruct ns; [exact Hn|]. destruct n; [contradiction | discriminate]. Qed.

Lemma py_rstrip_join_sep (sep : ascii) (key : string) (names : list string) :
  py_rstrip key = key -> Forall (fun n => n <> EmptyString /\ py_rstrip n = n) names ->
  py_rstrip (String.concat (String sep EmptyString) (key :: names))
    = String.concat (String sep EmptyString) (key :: names).
Proof.
  revert key. induction names as [|n ns IH]; intros key Hk Hns; [exact Hk|].
  inversion Hns as [|? ? [Hn Hnr] Hns']; subst.
  rewrite concat_cons2. apply py_rstrip_app_fixed; [|discriminate].
  change ((String sep EmptyString ++ String.concat (String sep EmptyString) (n :: ns))%string)
    with (String sep (String.concat (String sep EmptyString) (n :: ns))).
  apply py_rstrip_cons_fixed; [apply IH; assumption | apply str_concat_nonempty, Hn].
Qed.

Lemma py_lstrip_join_head (sep w : string) (ws : list string) :
  w <> EmptyString -> py_lstrip w = w ->
  py_lstrip (String.concat sep (w :: ws)) = String.concat sep (w :: ws).
Proof.
  intros Hne Hl. destruct w as [|a w']; [contradiction|].
  apply py_lstrip_first in Hl.
  destruct ws as [|x xs]; [apply py_lstrip_nonspace, Hl|].
  rewrite concat_cons2.
  change ((String a w' ++ sep ++ String.concat sep (x :: xs))%string)
    with (String a (w' ++ sep ++ String.concat sep (x :: xs))).
  apply py_lstrip_nonspace, Hl.
Qed.

(** The value accumulated by [self.parameters[key] += ' ' + field]. *)
Lemma version_value_acc (ws : list string) (acc : string) :
  fold_left (fun acc w => (acc ++ " " ++ w)%string) ws acc
  = (acc ++ fold_left (fun acc w => (acc ++ " " ++ w)%string) ws EmptyString)%string.
Proof.
  revert acc. induction ws as [|w ws IH]; intros acc; cbn [fold_left].
  - rewrite str_app_nil_r. reflexivity.
  - rewrite IH, (IH (EmptyString ++ " " ++ w)%string). rewrite str_app_assoc. reflexivity.
Qed.

Lemma version_value_join (w : string) (ws : list string) :
  fold_left (fun acc w => (acc ++ " " ++ w)%string) (w :: ws) EmptyString
  = String " "%char (String.concat " " (w :: ws)).
Proof.
  revert w. induction ws as [|w' ws IH]; intros w; [reflexivity|].
  change (fold_left (fun acc w => (acc ++ " " ++ w)%string) (w' :: ws) (" " ++ w)%string
          = String " "%char (String.concat " " (w :: w' :: ws))).
  rewrite version_value_acc, IH, concat_cons2. reflexivity.
Qed.

Lemma version_value_strip (ws : list string) :
  Forall (fun w => w <> EmptyString /\ py_strip w = w) ws ->
  py_strip (fold_left (fun acc w => (acc ++ " " ++ w)%string) ws EmptyString) = String.concat " " ws.
Proof.
  intros Hws. destruct ws as [|w ws]; [reflexivity|].
  rewrite version_value_join.
  inversion Hws as [|? ? [Hw Hws0] Hws']; subst.
  unfold py_strip. cbn [py_lstrip]. change (py_isspace " "%char) with true. cbv iota.
  rewrite py_lstrip_join_head by (first [exact Hw | apply py_strip_lstrip, Hws0]).
  apply py_rstrip_join_sep; [apply py_strip_rstrip, Hws0|].
  eapply Forall_impl; [exact Hws'|]. intros n [Hn Hns]. split; [exact Hn | apply py_strip_rstrip, Hns].
Qed.

Lemma version_tokens_ok (kvs : list (string * list string)) :
  Forall (fun kv => no_char " "%char (fst kv) /\ Forall version_word_ok (snd kv)) kvs ->
  Forall (fun t => (t <> EmptyString /\ py_rstrip t = t) /\ no_char " "%char t) (version_tokens kvs).
Proof.
  induction 1 as [|[k ws] kvs [Hk Hws] _ IH]; [constructor|].
  unfold version_tokens. cbn [map List.concat fst snd].
  constructor.
  - split; [split|].
    + destruct k; discriminate.
    + apply py_rstrip_app_fixed; [reflexivity | discriminate].
    + apply no_char_app; [exact Hk|]. intros [|[|i]]; discriminate.
  - apply Forall_app. split; [|exact IH].
    eapply Forall_impl; [exact Hws|]. intros w (Hw & Hs & Hc & _).
    split; [split; [exact Hw | apply py_strip_rstrip, Hs] | exact Hc].
Qed.

Lemma version_line_strip (toks : list string) (ws : string) :
  Forall (fun t => t <> EmptyString /\ py_rstrip t = t) toks -> py_strip ws = EmptyString ->
  py_strip (String.concat " " ("#" :: toks) ++ ws) = String.concat " " ("#" :: toks).
Proof.
  intros Ht Hws. apply py_strip_nil in Hws. pose proof (py_rstrip_nil_lstrip ws Hws) as Hwr.
  assert (EB : exists b, String.concat " " ("#" :: toks) = String "#"%char b)
    by (destruct toks; eexists; reflexivity).
  destruct EB as [b EB]. unfold py_strip. rewrite EB.
  change ((String "#"%char b ++ ws)%string) with (String "#"%char (b ++ ws)).
  rewrite py_lstrip_nonspace by reflexivity.
  change (String "#"%char (b ++ ws)) with ((String "#"%char b ++ ws)%string).
  rewrite py_rstrip_app, Hwr, <- EB. apply py_rstrip_join_sep; [reflexivity | exact Ht].
Qed.

Lemma parse_version_loop_kvs (p : gmap string string) (key : option string)
    (kvs : list (string * list string)) :
  Forall (fun kv => Forall (fun w => str_endswith ":"%char w = false) (snd kv)) kvs ->
  parse_version_loop p key (version_tokens kvs)
  = Some (foldl (fun m kv => <[fst kv := fold_left (fun acc w => (acc ++ " " ++ w)%string)
                                           (snd kv) EmptyString]> m) p kvs).
Proof.
  revert p key. induction kvs as [|[k ws] kvs IH]; intros p key Hkvs; [reflexivity|].
  inversion Hkvs as [|? ? Hws Hkvs']; subst.
  unfold version_tokens. cbn [map List.concat fst snd].
  change ((((k ++ ":")%string :: ws) ++ List.concat (map (fun kv => (fst kv ++ ":")%string :: snd kv) kvs))%list)
    with ((k ++ ":")%string :: (ws ++ version_tokens kvs)%list).
  cbn [parse_version_loop]. rewrite str_endswith_colon, str_init_colon.
  rewrite (parse_version_loop_words _ k EmptyString) by first [apply lookup_insert_eq | exact Hws].
  rewrite insert_insert_eq. rewrite IH by exact Hkvs'. reflexivity.
Qed.

Lemma version_fmap_strip (p : gmap string string) (kvs : list (string * list string)) :
  Forall (fun kv => Forall version_word_ok (snd kv)) kvs ->
  py_strip <$> foldl (fun m kv => <[fst kv := fold_left (fun acc w => (acc ++ " " ++ w)%string)
                                              (snd kv) EmptyString]> m) p kvs
  = foldl (fun m kv => <[fst kv := String.concat " " (snd kv)]> m) (py_strip <$> p) kvs.
Proof.
  revert p. induction kvs as [|[k ws] kvs IH]; intros p Hkvs; [reflexivity|].
  inversion Hkvs as [|? ? Hws Hkvs']; subst. cbn [foldl fst snd].
  rewrite IH by exact Hkvs'. f_equal. rewrite fmap_insert. f_equal.
  apply version_value_strip. eapply Forall_impl; [exact Hws|]. intros w (Hw & Hs & _). auto.
Qed.

(** [GnssLogHeader.parse_version] on the line [# k1: w w ... k2: w ...]
    followed by trailing whitespace: each key is stored with its words joined
    by single spaces (a key without words gets the empty string), later keys
    overriding earlier ones, and the values already present are stripped.
    Keys contain no space; words are non-empty, stripped, contain no space and
    do not end with a colon. *)
Theorem parse_version_round_trip (parameters : gmap string string)
    (kvs : list (string * list string)) (ws : string) :
  Forall (fun kv => no_char " "%char (fst kv) /\ Forall version_word_ok (snd kv)) kvs ->
  py_strip ws = EmptyString ->
  parse_version parameters (String.concat " " ("#" :: version_tokens kvs) ++ ws)
  = Some (foldl (fun m kv => <[fst kv := String.concat " " (snd kv)]> m) (py_strip <$> parameters) kvs).
Proof.
  intros Hkvs Hws. pose proof (version_tokens_ok kvs Hkvs) as Ht.
  unfold parse_version. rewrite version_line_strip; cycle 1.
  { eapply Forall_impl; [exact Ht|]. intros t [H _]. exact H. }
  { exact Hws. }
  rewrite (py_split_join " "%char "#"); cycle 1.
  { intros [|[|i]]; discriminate. }
  { eapply Forall_impl; [exact Ht|]. intros t [_ H]. exact H. }
  rewrite parse_version_loop_kvs.
  - f_equal. apply version_fmap_strip.
    eapply Forall_impl; [exact Hkvs|]. intros kv [_ H]. exact H.
  - eapply Forall_impl; [exact Hkvs|]. intros kv [_ H].
    eapply Forall_impl; [exact H|]. intros w (_ & _ & _ & Hw). exact Hw.
Qed.

Lemma no_char_b_spec (c : ascii) (s : string) : no_char_b c s = true -> no_char c s.
Proof.
  induction s as [|a s IH]; intros H i; [destruct i; discriminate|].
  simpl in H. apply andb_prop in H as [Ha Hs].
  destruct i as [|i]; simpl.
  - intros E. injection E as ->. rewrite Ascii.eqb_refl in Ha. discriminate.
  - exact (IH Hs i).
Qed.

(** The line [# Raw,utcTimeMillis,TimeNanos] followed by a newline. *)
Lemma get_fieldnames_round_trip_witness :
  py_strip "Raw" = "Raw" /\ no_char ","%char "Raw" /\
  Forall (fun n => py_strip n = n /\ no_char ","%char n) ["utcTimeMillis"; "TimeNanos"] /\
  py_strip (String (ascii_of_nat 10) EmptyString) = EmptyString /\
  get_fieldnames ∅ (String "#"%char (String " "%char
      (String.concat "," ["Raw"; "utcTimeMillis"; "TimeNanos"] ++ String (ascii_of_nat 10) EmptyString)))
    = <["Raw" := ["utcTimeMillis"; "TimeNanos"]]> ∅.
Proof.
  assert (H1 : py_strip "Raw" = "Raw") by reflexivity.
  assert (H2 : no_char ","%char "Raw") by (apply no_char_b_spec; reflexivity).
  assert (H3 : Forall (fun n => py_strip n = n /\ no_char ","%char n) ["utcTimeMillis"; "TimeNanos"])
    by (repeat constructor; apply no_char_b_spec; reflexivity).
  assert (H4 : py_strip (String (ascii_of_nat 10) EmptyString) = EmptyString) by reflexivity.
  split; [exact H1|]. split; [exact H2|]. split; [exact H3|]. split; [exact H4|].
  apply (get_fieldnames_round_trip ∅ "#"%char " "%char "Raw" ["utcTimeMillis"; "TimeNanos"]
           (String (ascii_of_nat 10) EmptyString) H1 H2 H3 H4).
Defined.

(** The version line of a GnssLogger file, followed by a newline. *)
Lemma parse_version_round_trip_witness :
  Forall (fun kv => no_char " "%char (fst kv) /\ Forall version_word_ok (snd kv)) version_example /\
  py_strip (String (ascii_of_nat 10) EmptyString) = EmptyString /\
  parse_version ∅ (String.concat " " ("#" :: version_tokens version_example)
                     ++ String (ascii_of_nat 10) EmptyString)
  = Some (foldl (fun m kv => <[fst kv := String.concat " " (snd kv)]> m) (py_strip <$> ∅) version_example).
Proof.
  assert (H1 : Forall (fun kv => no_char " "%char (fst kv) /\ Forall version_word_ok (snd kv)) version_example).
  { unfold version_example, version_word_ok.
    repeat constructor; try (apply no_char_b_spec; reflexivity); discriminate. }
  assert (H2 : py_strip (String (ascii_of_nat 10) EmptyString) = EmptyString) by reflexivity.
  split; [exact H1|]. split; [exact H2|].
  apply (parse_version_round_trip ∅ version_example _ H1 H2).
Defined.

(** [GnssLogHeader.__init__] reads nothing after the first line that does not
    start with [#]: the header is the one of the lines before it (or the same
    exception). *)
Theorem header_stops_at_first_data_line (h : GnssLogHeader) (pre : list string)
    (line : string) (post : list string) :
  starts_with_hash line = false ->
  header_loop h (pre ++ line :: post) = header_loop h pre.
Proof.
  intros Hl. revert h. induction pre as [|l pre IH]; intros h; cbn [app header_loop].
  - rewrite Hl. reflexivity.
  - destruct (negb (starts_with_hash l)); [reflexivity|].
    destruct (String.eqb (py_strip l) "#"); [apply IH|].
    destruct (header_line h l); [apply IH | reflexivity].
Qed.

Lemma re_split_class_nonempty (cs : list ascii) (s : string) : re_split_class cs s <> [].
Proof.
  induction s as [|a s IH]; simpl; [discriminate|].
  destruct (existsb (Ascii.eqb a) cs); [discriminate|]. destruct (re_split_class cs s); discriminate.
Qed.

Lemma re_split_class_app (cs : list ascii) (k t : string) :
  (forall c, In c cs -> no_char c k) ->
  re_split_class cs (k ++ t) =
    match re_split_class cs t with p :: ps => (k ++ p)%string :: ps | [] => [k] end.
Proof.
  induction k as [|a k IH]; intros Hk.
  - change ((EmptyString ++ t)%string) with t.
    destruct (re_split_class cs t) as [|p ps] eqn:E; [exfalso; exact (re_split_class_nonempty cs t E)|].
    reflexivity.
  - change ((String a k ++ t)%string) with (String a (k ++ t)). cbn [re_split_class].
    destruct (existsb (Ascii.eqb a) cs) eqn:E.
    + exfalso. apply existsb_exists in E as [c [Hc Heq]]. apply Ascii.eqb_eq in Heq. subst c.
      exact (Hk a Hc 0%nat eq_refl).
    + rewrite IH.
      * destruct (re_split_class cs t) as [|p ps]; reflexivity.
      * intros c Hc i. exact (Hk c Hc (S i)).
Qed.

Lemma re_split_class_head (cs : list ascii) (key : string) (names : list string) :
  (forall c, In c cs -> no_char c key) -> In ","%char cs ->
  exists ps, re_split_class cs (String.concat "," (key :: names)) = key :: ps.
Proof.
  intros Hk Hc. destruct names as [|n ns].
  - cbn [String.concat]. pose proof (re_split_class_app cs key EmptyString Hk) as E.
    cbn [re_split_class] in E. rewrite !str_app_nil_r in E. rewrite E. eauto.
  - rewrite concat_cons2, re_split_class_app by exact Hk.
    change ((","%string ++ String.concat "," (n :: ns))%string) with
      (String ","%char (String.concat "," (n :: ns))).
    cbn [re_split_class].
    replace (existsb (Ascii.eqb ",") cs) with true
      by (symmetry; apply existsb_exists; exists ","%char; split; [exact Hc | apply Ascii.eqb_refl]).
    cbv iota. rewrite str_app_nil_r. eauto.
Qed.

Lemma lower_letter_char (a : ascii) :
  is_lower_letter (py_lower_char a) = true ->
  py_isspace a = false /\ existsb (Ascii.eqb a) HEADER_SEPARATORS = false.
Proof. destruct a as [[] [] [] [] [] [] [] []]; vm_compute; first [discriminate | auto]. Qed.

Lemma lower_letters (k : string) :
  forallb is_lower_letter (list_ascii_of_string (py_lower k)) = true ->
  (forall c, In c HEADER_SEPARATORS -> no_char c k) /\ py_rstrip k = k /\ py_lstrip k = k.
Proof.
  induction k as [|a k IH]; intros H.
  - split; [intros c _ i; destruct i; discriminate | auto].
  - cbn [py_lower list_ascii_of_string forallb] in H. apply andb_prop in H as [Ha Hk].
    destruct (lower_letter_char a Ha) as [Hs Hsep].
    destruct (IH Hk) as [IHc [IHr _]]. split; [|split].
    + intros c Hc [|i].
      * intros E. injection E as ->. cbn in Hsep.
        destruct Hc as [<- | [<- | [<- | []]]]; rewrite Ascii.eqb_refl in Hsep;
          repeat rewrite orb_true_r in Hsep; discriminate.
      * exact (IHc c Hc i).
    + cbn [py_rstrip]. rewrite IHr. destruct k; [rewrite Hs|]; reflexivity.
    + apply py_lstrip_nonspace, Hs.
Qed.

Lemma concat_cons_prefix (sep : string) (a : ascii) (k : string) (names : list string) :
  String.concat sep (String a k :: names) = String a (String.concat sep (k :: names)).
Proof. destruct names; reflexivity. Qed.

Lemma header_line_declaration (h : GnssLogHeader) (key : string) (names : list string) (ws : string) :
  In (py_lower key) FIELD_DECLARATIONS ->
  Forall (fun n => py_strip n = n /\ no_char ","%char n) names ->
  py_strip ws = EmptyString ->
  let line := String "#"%char (String " "%char (String.concat "," (key :: names) ++ ws)) in
  starts_with_hash line = true /\ String.eqb (py_strip line) "#" = false /\
  header_line h line = Some {| parameters := parameters h; fields := <[key := names]> (fields h) |}.
Proof.
  intros Hkey Hns Hws line.
  assert (Hne : key <> EmptyString)
    by (intros ->; destruct Hkey as [E | [E | [E | []]]]; discriminate E).
  destruct (lower_letters key) as (Hsep & Hr & Hl).
  { destruct Hkey as [<- | [<- | [<- | []]]]; reflexivity. }
  assert (Hks : py_strip key = key) by (unfold py_strip; rewrite Hl, Hr; reflexivity).
  assert (Hkc : no_char ","%char key) by (apply Hsep; right; right; left; reflexivity).
  assert (Hst : py_strip line = String "#"%char (String " "%char (String.concat "," (key :: names)))).
  { unfold line.
    change (String "#"%char (String " "%char (String.concat "," (key :: names) ++ ws)))
      with ((String "#"%char (String " "%char (String.concat "," (key :: names))) ++ ws)%string).
    rewrite <- !concat_cons_prefix. apply py_strip_join_ws; [| |exact Hws].
    - unfold py_strip. rewrite py_lstrip_nonspace by reflexivity.
      apply py_rstrip_cons_fixed; [|discriminate]. apply py_rstrip_cons_fixed; assumption.
    - eapply Forall_impl; [exact Hns|]. intros n [Hn _]. exact Hn. }
  split; [reflexivity|]. split; [rewrite Hst; reflexivity|].
  unfold header_line. rewrite Hst.
  destruct (re_split_class_head HEADER_SEPARATORS key names Hsep) as [ps Hps].
  { right; right; left; reflexivity. }
  cbn [re_split_class]. change (existsb (Ascii.eqb "#") HEADER_SEPARATORS) with false.
  change (existsb (Ascii.eqb " ") HEADER_SEPARATORS) with true. cbv iota.
  rewrite Hps. cbv iota zeta.
  unfold line. rewrite (get_fieldnames_round_trip (fields h) "#"%char " "%char key names ws Hks Hkc Hns Hws).
  destruct Hkey as [<- | [<- | [<- | []]]]; reflexivity.
Qed.

(** [GnssLogHeader.__init__] on a header of field declarations
    [# Kind,name1,name2,...] (Kind being Fix, Raw or Nav in any letter case),
    each followed by the same trailing whitespace, and then a data line: no
    parameter is set and the fields map each Kind to its names, a later
    declaration of a Kind replacing an earlier one. *)
Theorem GnssLogHeader_init_field_declarations (decls : list (string * list string))
    (ws line : string) (post : list string) :
  Forall (fun d => In (py_lower (fst d)) FIELD_DECLARATIONS /\
                   Forall (fun n => py_strip n = n /\ no_char ","%char n) (snd d)) decls ->
  py_strip ws = EmptyString -> starts_with_hash line = false ->
  GnssLogHeader_init
    (map (fun d => String "#"%char (String " "%char (String.concat "," (fst d :: snd d) ++ ws))) decls
     ++ line :: post)
  = Some {| parameters := ∅; fields := foldl (fun m d => <[fst d := snd d]> m) ∅ decls |}.
Proof.
  intros Hd Hws Hl. unfold GnssLogHeader_init.
  generalize (∅ : gmap string string) (∅ : gmap string (list string)). intros p f.
  revert p f. induction Hd as [|[key names] decls [Hk Hns] _ IH]; intros p f.
  - cbn [map app header_loop]. rewrite Hl. reflexivity.
  - cbn [map app header_loop fst snd].
    destruct (header_line_declaration {| parameters := p; fields := f |} key names ws Hk Hns Hws)
      as (H1 & H2 & H3).
    rewrite H1, H2, H3. cbn [negb]. apply IH.
Qed.

(** A field declaration, a Raw data line, then another declaration. *)
Lemma header_stops_at_first_data_line_witness :
  starts_with_hash "Raw,1,2" = false /\
  header_loop {| parameters := ∅; fields := ∅ |} (["# Raw,a,b"] ++ "Raw,1,2" :: ["# Fix,c"])
  = header_loop {| parameters := ∅; fields := ∅ |} ["# Raw,a,b"].
Proof.
  split; [reflexivity|].
  apply (header_stops_at_first_data_line _ ["# Raw,a,b"] "Raw,1,2" ["# Fix,c"]). reflexivity.
Defined.

(** A Raw and a Fix declaration, then a Raw data line. *)
Lemma GnssLogHeader_init_field_declarations_witness :
  Forall (fun d => In (py_lower (fst d)) FIELD_DECLARATIONS /\
                   Forall (fun n => py_strip n = n /\ no_char ","%char n) (snd d)) header_example /\
  py_strip (String (ascii_of_nat 10) EmptyString) = EmptyString /\
  starts_with_hash "Raw,1,2" = false /\
  GnssLogHeader_init
    (map (fun d => String "#"%char (String " "%char (String.concat "," (fst d :: snd d)
                                                     ++ String (ascii_of_nat 10) EmptyString)))
       header_example ++ ["Raw,1,2"])
  = Some {| parameters := ∅; fields := foldl (fun m d => <[fst d := snd d]> m) ∅ header_example |}.
Proof.
  assert (H1 : Forall (fun d => In (py_lower (fst d)) FIELD_DECLARATIONS /\
                   Forall (fun n => py_strip n = n /\ no_char ","%char n) (snd d)) header_example).
  { unfold header_example, FIELD_DECLARATIONS.
    repeat constructor; first [apply no_char_b_spec; reflexivity | cbn; tauto]. }
  assert (H2 : py_strip (String (ascii_of_nat 10) EmptyString) = EmptyString) by reflexivity.
  assert (H3 : starts_with_hash "Raw,1,2" = false) by reflexivity.
  split; [exact H1|]. split; [exact H2|]. split; [exact H3|].
  apply (GnssLogHeader_init_field_declarations header_example _ "Raw,1,2" [] H1 H2 H3).
Defined.

(** * Synchronisation state checks *)

Lemma require_bit_cases (state flag : Z) :
  (require_bit state flag = Ok tt /\ Z.land state flag <> 0%Z) \/
  (require_bit state flag = Err ValueError /\ Z.land state flag = 0%Z).
Proof.
  unfold require_bit. destruct (Z.land state flag =? 0)%Z eqn:E.
  - right. split; [reflexivity|]. apply Z.eqb_eq, E.
  - left. split; [reflexivity|]. apply Z.eqb_neq, E.
Qed.

Ltac bits :=
  repeat match goal with
  | |- context [require_bit ?s ?f] =>
      destruct (require_bit_cases s f) as [[-> ?] | [-> ?]]; cbn [rbind]
  end.

(** [check_sync_state] on a GPS, QZSS or BeiDou measurement whose frequency
    is classified: it returns True exactly when the code lock, TOW decoded,
    bit sync and subframe sync bits are set in [State], and raises a
    ValueError otherwise. *)
Theorem check_sync_state_gps_qzss_beidou (m : measurement) (band : Z) :
  get_rnx_band_from_freq (get_frequency m) = Ok band ->
  ConstellationType m = CONSTELLATION_GPS \/ ConstellationType m = CONSTELLATION_QZSS \/
  ConstellationType m = CONSTELLATION_BEIDOU ->
  (check_sync_state m = Ok true <->
   Z.land (State m) STATE_CODE_LOCK <> 0%Z /\ Z.land (State m) STATE_TOW_DECODED <> 0%Z /\
   Z.land (State m) STATE_BIT_SYNC <> 0%Z /\ Z.land (State m) STATE_SUBFRAME_SYNC <> 0%Z) /\
  (check_sync_state m <> Ok true -> check_sync_state m = Err ValueError).
Proof.
  intros Hb Hc. unfold check_sync_state. rewrite Hb. cbn [rbind].
  destruct Hc as [-> | [-> | ->]]; cbn -[require_bit]; bits;
    split; try split; intros; try tauto; try discriminate; try reflexivity; try congruence.
Qed.

Ltac sync_cases :=
  repeat match goal with
  | |- context [require_bit ?s ?f] =>
      destruct (require_bit_cases s f) as [[-> ?] | [-> ?]]; cbn [rbind]
  | |- context [(Z.land ?s ?f =? 0)%Z] => destruct (Z.eqb_spec (Z.land s f) 0); cbn [rbind]
  | |- context [(?b =? ?c)%Z] => destruct (Z.eqb_spec b c); cbn [rbind]
  end.

(** [check_sync_state] on an SBAS measurement whose frequency is classified:
    True exactly when the code lock, TOW decoded, bit sync, symbol sync and
    SBAS sync bits are set, a ValueError otherwise. *)
Theorem check_sync_state_sbas (m : measurement) (band : Z) :
  get_rnx_band_from_freq (get_frequency m) = Ok band ->
  ConstellationType m = CONSTELLATION_SBAS ->
  (check_sync_state m = Ok true <->
   Z.land (State m) STATE_CODE_LOCK <> 0%Z /\ Z.land (State m) STATE_TOW_DECODED <> 0%Z /\
   Z.land (State m) STATE_BIT_SYNC <> 0%Z /\ Z.land (State m) STATE_SYMBOL_SYNC <> 0%Z /\
   Z.land (State m) STATE_SBAS_SYNC <> 0%Z) /\
  (check_sync_state m <> Ok true -> check_sync_state m = Err ValueError).
Proof.
  intros Hb Hc. unfold check_sync_state. rewrite Hb, Hc. cbn -[require_bit]. bits;
    split; try split; intros; try tauto; try discriminate; try reflexivity; try congruence.
Qed.

(** [check_sync_state] on a GLONASS measurement whose frequency is
    classified: True exactly when the code lock, symbol sync, bit sync, TOD
    decoded and string sync bits are set, a ValueError otherwise. *)
Theorem check_sync_state_glonass (m : measurement) (band : Z) :
  get_rnx_band_from_freq (get_frequency m) = Ok band ->
  ConstellationType m = CONSTELLATION_GLONASS ->
  (check_sync_state m = Ok true <->
   Z.land (State m) STATE_CODE_LOCK <> 0%Z /\ Z.land (State m) STATE_SYMBOL_SYNC <> 0%Z /\
   Z.land (State m) STATE_BIT_SYNC <> 0%Z /\ Z.land (State m) STATE_GLO_TOD_DECODED <> 0%Z /\
   Z.land (State m) STATE_GLO_STRING_SYNC <> 0%Z) /\
  (check_sync_state m <> Ok true -> check_sync_state m = Err ValueError).
Proof.
  intros Hb Hc. unfold check_sync_state. rewrite Hb, Hc. cbn -[require_bit]. bits;
    split; try split; intros; try tauto; try discriminate; try reflexivity; try congruence.
Qed.

(** [check_sync_state] on a Galileo measurement whose frequency is
    classified.  In band 1 it needs the E1BC code lock bit and either the E1C
    secondary code lock bit or the TOW decoded, bit sync and E1B page sync
    bits; in band 5 the code lock, TOW decoded, bit sync and subframe sync
    bits; in band 2 it checks nothing.  Otherwise it raises a ValueError. *)
Theorem check_sync_state_galileo (m : measurement) (band : Z) :
  get_rnx_band_from_freq (get_frequency m) = Ok band ->
  ConstellationType m = CONSTELLATION_GALILEO ->
  (check_sync_state m = Ok true <->
   (band = 1%Z ->
      Z.land (State m) STATE_GAL_E1BC_CODE_LOCK <> 0%Z /\
      (Z.land (State m) STATE_GAL_E1C_2ND_CODE_LOCK <> 0%Z \/
       (Z.land (State m) STATE_TOW_DECODED <> 0%Z /\ Z.land (State m) STATE_BIT_SYNC <> 0%Z /\
        Z.land (State m) STATE_GAL_E1B_PAGE_SYNC <> 0%Z))) /\
   (band = 5%Z ->
      Z.land (State m) STATE_CODE_LOCK <> 0%Z /\ Z.land (State m) STATE_TOW_DECODED <> 0%Z /\
      Z.land (State m) STATE_BIT_SYNC <> 0%Z /\ Z.land (State m) STATE_SUBFRAME_SYNC <> 0%Z)) /\
  (check_sync_state m <> Ok true -> check_sync_state m = Err ValueError).
Proof.
  intros Hb Hc. unfold check_sync_state. rewrite Hb, Hc. cbn -[require_bit STATE_GAL_E1C_2ND_CODE_LOCK].
  sync_cases; subst;
    intuition (try lia; try discriminate; try congruence).
Qed.

(** [check_sync_state] on a measurement whose frequency is classified: for
    the unknown constellation (0) it returns True exactly when the code lock
    and TOW decoded bits are set, a ValueError otherwise; a constellation type
    below 0 or above 6 always raises a ValueError. *)
Theorem check_sync_state_unknown_or_invalid (m : measurement) (band : Z) :
  get_rnx_band_from_freq (get_frequency m) = Ok band ->
  (ConstellationType m = CONSTELLATION_UNKNOWN ->
   (check_sync_state m = Ok true <->
    Z.land (State m) STATE_CODE_LOCK <> 0%Z /\ Z.land (State m) STATE_TOW_DECODED <> 0%Z) /\
   (check_sync_state m <> Ok true -> check_sync_state m = Err ValueError)) /\
  ((ConstellationType m < 0 \/ 6 < ConstellationType m)%Z -> check_sync_state m = Err ValueError).
Proof.
  intros Hb. split.
  - intros Hc. unfold check_sync_state. rewrite Hb, Hc. cbn -[require_bit]. bits;
      split; try split; intros; try tauto; try discriminate; try reflexivity; try congruence.
  - intros Hc. unfold check_sync_state. rewrite Hb. cbn [rbind].
    unfold CONSTELLATION_GPS, CONSTELLATION_SBAS, CONSTELLATION_GLONASS, CONSTELLATION_QZSS,
      CONSTELLATION_BEIDOU, CONSTELLATION_GALILEO, CONSTELLATION_UNKNOWN.
    repeat match goal with
    | |- context [(ConstellationType m =? ?c)%Z] =>
        destruct (Z.eqb_spec (ConstellationType m) c); [lia|]
    end.
    reflexivity.
Qed.

(** [check_sync_state] never returns False: it returns True or raises a
    ValueError, except for a carrier frequency that is a non-empty string,
    where it raises a TypeError; and every such carrier frequency does make
    it raise a TypeError. *)
Theorem check_sync_state_outcome (m : measurement) :
  (check_sync_state m = Ok true \/ check_sync_state m = Err ValueError \/
   (check_sync_state m = Err TypeError /\
    exists s, CarrierFrequencyHz m = FStr s /\ s <> EmptyString)) /\
  (forall s, CarrierFrequencyHz m = FStr s -> s <> EmptyString ->
     check_sync_state m = Err TypeError).
Proof.
  split.
  2:{ intros s Hs Hne. unfold check_sync_state, get_rnx_band_from_freq, get_frequency.
      rewrite Hs. destruct s as [|a s]; [contradiction | reflexivity]. }
  unfold check_sync_state.
  destruct (get_rnx_band_from_freq (get_frequency m)) as [band|e] eqn:Hb; cbn [rbind].
  - cbn -[require_bit STATE_GAL_E1C_2ND_CODE_LOCK]. sync_cases; auto.
  - unfold get_rnx_band_from_freq, get_frequency in Hb.
    destruct (CarrierFrequencyHz m) as [q|[|a s]]; cbn [rbind] in Hb.
    + repeat (destruct (_ <=? _)%Z || destruct (_ =? _)%Z);
        first [discriminate Hb | injection Hb as <-; auto].
    + discriminate.
    + injection Hb as <-. right; right. split; [reflexivity|]. eexists; split; [reflexivity|discriminate].
Qed.

(** A GPS L1 measurement with State 7 (no TOW decoded bit). *)
Lemma check_sync_state_gps_qzss_beidou_witness :
  get_rnx_band_from_freq (get_frequency (gnss_row 1 5 7 1 (FNum 1575420000) (FNum 1000))) = Ok 1%Z /\
  (check_sync_state (gnss_row 1 5 7 1 (FNum 1575420000) (FNum 1000)) = Ok true <->
   Z.land 7 STATE_CODE_LOCK <> 0%Z /\ Z.land 7 STATE_TOW_DECODED <> 0%Z /\
   Z.land 7 STATE_BIT_SYNC <> 0%Z /\ Z.land 7 STATE_SUBFRAME_SYNC <> 0%Z) /\
  (check_sync_state (gnss_row 1 5 7 1 (FNum 1575420000) (FNum 1000)) <> Ok true ->
   check_sync_state (gnss_row 1 5 7 1 (FNum 1575420000) (FNum 1000)) = Err ValueError).
Proof.
  assert (Hb : get_rnx_band_from_freq (get_frequency (gnss_row 1 5 7 1 (FNum 1575420000) (FNum 1000)))
               = Ok 1%Z) by reflexivity.
  split; [exact Hb|].
  apply (check_sync_state_gps_qzss_beidou _ _ Hb). left. reflexivity.
Defined.

(** An SBAS L1 measurement with all five bits set. *)
Lemma check_sync_state_sbas_witness :
  get_rnx_band_from_freq (get_frequency (gnss_row 2 33 8239 1 (FNum 1575420000) (FNum 1000))) = Ok 1%Z /\
  ConstellationType (gnss_row 2 33 8239 1 (FNum 1575420000) (FNum 1000)) = CONSTELLATION_SBAS /\
  (check_sync_state (gnss_row 2 33 8239 1 (FNum 1575420000) (FNum 1000)) = Ok true <->
   Z.land 8239 STATE_CODE_LOCK <> 0%Z /\ Z.land 8239 STATE_TOW_DECODED <> 0%Z /\
   Z.land 8239 STATE_BIT_SYNC <> 0%Z /\ Z.land 8239 STATE_SYMBOL_SYNC <> 0%Z /\
   Z.land 8239 STATE_SBAS_SYNC <> 0%Z) /\
  (check_sync_state (gnss_row 2 33 8239 1 (FNum 1575420000) (FNum 1000)) <> Ok true ->
   check_sync_state (gnss_row 2 33 8239 1 (FNum 1575420000) (FNum 1000)) = Err ValueError).
Proof.
  assert (Hb : get_rnx_band_from_freq (get_frequency (gnss_row 2 33 8239 1 (FNum 1575420000) (FNum 1000)))
               = Ok 1%Z) by reflexivity.
  assert (Hc : ConstellationType (gnss_row 2 33 8239 1 (FNum 1575420000) (FNum 1000)) = CONSTELLATION_SBAS)
    by reflexivity.
  split; [exact Hb|]. split; [exact Hc|].
  apply (check_sync_state_sbas _ _ Hb Hc).
Defined.

(** A GLONASS L1 measurement with State 227. *)
Lemma check_sync_state_glonass_witness :
  get_rnx_band_from_freq (get_frequency (gnss_row 3 7 227 1 (FNum 1602562500) (FNum 1000))) = Ok 1%Z /\
  ConstellationType (gnss_row 3 7 227 1 (FNum 1602562500) (FNum 1000)) = CONSTELLATION_GLONASS /\
  (check_sync_state (gnss_row 3 7 227 1 (FNum 1602562500) (FNum 1000)) = Ok true <->
   Z.land 227 STATE_CODE_LOCK <> 0%Z /\ Z.land 227 STATE_SYMBOL_SYNC <> 0%Z /\
   Z.land 227 STATE_BIT_SYNC <> 0%Z /\ Z.land 227 STATE_GLO_TOD_DECODED <> 0%Z /\
   Z.land 227 STATE_GLO_STRING_SYNC <> 0%Z) /\
  (check_sync_state (gnss_row 3 7 227 1 (FNum 1602562500) (FNum 1000)) <> Ok true ->
   check_sync_state (gnss_row 3 7 227 1 (FNum 1602562500) (FNum 1000)) = Err ValueError).
Proof.
  assert (Hb : get_rnx_band_from_freq (get_frequency (gnss_row 3 7 227 1 (FNum 1602562500) (FNum 1000)))
               = Ok 1%Z) by reflexivity.
  assert (Hc : ConstellationType (gnss_row 3 7 227 1 (FNum 1602562500) (FNum 1000)) = CONSTELLATION_GLONASS)
    by reflexivity.
  split; [exact Hb|]. split; [exact Hc|].
  apply (check_sync_state_glonass _ _ Hb Hc).
Defined.

(** A Galileo E1 measurement with E1BC and E1C secondary code locks. *)
Lemma check_sync_state_galileo_witness :
  get_rnx_band_from_freq (get_frequency (gnss_row 6 11 3072 1 (FNum 1575420000) (FNum 1000))) = Ok 1%Z /\
  ConstellationType (gnss_row 6 11 3072 1 (FNum 1575420000) (FNum 1000)) = CONSTELLATION_GALILEO /\
  (check_sync_state (gnss_row 6 11 3072 1 (FNum 1575420000) (FNum 1000)) = Ok true <->
   (1%Z = 1%Z ->
      Z.land 3072 STATE_GAL_E1BC_CODE_LOCK <> 0%Z /\
      (Z.land 3072 STATE_GAL_E1C_2ND_CODE_LOCK <> 0%Z \/
       (Z.land 3072 STATE_TOW_DECODED <> 0%Z /\ Z.land 3072 STATE_BIT_SYNC <> 0%Z /\
        Z.land 3072 STATE_GAL_E1B_PAGE_SYNC <> 0%Z))) /\
   (1%Z = 5%Z ->
      Z.land 3072 STATE_CODE_LOCK <> 0%Z /\ Z.land 3072 STATE_TOW_DECODED <> 0%Z /\
      Z.land 3072 STATE_BIT_SYNC <> 0%Z /\ Z.land 3072 STATE_SUBFRAME_SYNC <> 0%Z)) /\
  (check_sync_state (gnss_row 6 11 3072 1 (FNum 1575420000) (FNum 1000)) <> Ok true ->
   check_sync_state (gnss_row 6 11 3072 1 (FNum 1575420000) (FNum 1000)) = Err ValueError).
Proof.
  assert (Hb : get_rnx_band_from_freq (get_frequency (gnss_row 6 11 3072 1 (FNum 1575420000) (FNum 1000)))
               = Ok 1%Z) by reflexivity.
  assert (Hc : ConstellationType (gnss_row 6 11 3072 1 (FNum 1575420000) (FNum 1000)) = CONSTELLATION_GALILEO)
    by reflexivity.
  split; [exact Hb|]. split; [exact Hc|].
  apply (check_sync_state_galileo _ _ Hb Hc).
Defined.

(** A measurement of constellation type 7 in band 5. *)
Lemma check_sync_state_unknown_or_invalid_witness :
  get_rnx_band_from_freq (get_frequency (gnss_row 7 3 9 1 (FNum 1176450000) (FNum 1000))) = Ok 5%Z /\
  (ConstellationType (gnss_row 7 3 9 1 (FNum 1176450000) (FNum 1000)) = CONSTELLATION_UNKNOWN ->
   (check_sync_state (gnss_row 7 3 9 1 (FNum 1176450000) (FNum 1000)) = Ok true <->
    Z.land 9 STATE_CODE_LOCK <> 0%Z /\ Z.land 9 STATE_TOW_DECODED <> 0%Z) /\
   (check_sync_state (gnss_row 7 3 9 1 (FNum 1176450000) (FNum 1000)) <> Ok true ->
    check_sync_state (gnss_row 7 3 9 1 (FNum 1176450000) (FNum 1000)) = Err ValueError)) /\
  ((ConstellationType (gnss_row 7 3 9 1 (FNum 1176450000) (FNum 1000)) < 0 \/
    6 < ConstellationType (gnss_row 7 3 9 1 (FNum 1176450000) (FNum 1000)))%Z ->
   check_sync_state (gnss_row 7 3 9 1 (FNum 1176450000) (FNum 1000)) = Err ValueError).
Proof.
  assert (Hb : get_rnx_band_from_freq (get_frequency (gnss_row 7 3 9 1 (FNum 1176450000) (FNum 1000)))
               = Ok 5%Z) by reflexivity.
  split; [exact Hb|].
  apply (check_sync_state_unknown_or_invalid _ _ Hb).
Defined.

(** * Parsing one line of the log *)

Lemma parse_line_loop_ok (conv : string -> string -> result fieldval)
    (names values : list string) (row0 row : gmap string fieldval) :
  parse_line_loop conv names values row0 = LineOk row ->
  (length values <= length names)%nat /\
  (forall k, is_Some (row !! k) <-> is_Some (row0 !! k) \/ In k (take (length values) names)) /\
  (forall k x, row !! k = Some x ->
     row0 !! k = Some x \/ exists v, In v values /\ conv k v = Ok x).
Proof.
  revert names row0. induction values as [|v vs IH]; intros names row0 H; cbn in H.
  - injection H as <-. split; [cbn; lia|]. split.
    + intros k. rewrite take_0. cbn. tauto.
    + intros k x Hk. left. exact Hk.
  - destruct names as [|n ns]; [discriminate|].
    destruct (conv n v) as [x|e] eqn:Ec; [|discriminate].
    destruct (IH ns _ H) as (Hlen & Hkeys & Hvals). split; [cbn; lia|]. split.
    + intros k. rewrite Hkeys. cbn [length take In].
      destruct (decide (n = k)) as [<- | Hne].
      * rewrite lookup_insert_eq. split; [intros _; right; left; reflexivity | intros _; left; eauto].
      * rewrite lookup_insert_ne by exact Hne. tauto.
    + intros k y Hk. destruct (Hvals k y Hk) as [H0 | [w [Hw Hcw]]].
      * destruct (decide (n = k)) as [<- | Hne].
        -- rewrite lookup_insert_eq in H0. injection H0 as <-. right. exists v. split; [left; reflexivity | exact Ec].
        -- rewrite lookup_insert_ne in H0 by exact Hne. left. exact H0.
      * right. exists w. split; [right; exact Hw | exact Hcw].
Qed.

(** [GnssLog.__parse_line__], when it returns a row: the line's kind is
    declared in the header, the line has at most as many values as the kind
    has field names, the row's keys are exactly the field names paired with a
    value (the first ones, as many as there are values), and each entry is
    the conversion of one of the line's values for that name. *)
Theorem parse_line_row (conv : string -> string -> result fieldval)
    (header_fields : gmap string (list string)) (line : string) (row : gmap string fieldval) :
  __parse_line__ conv header_fields line = LineOk row ->
  exists kind field_names values,
    py_split ","%char (py_strip line) = kind :: values /\
    header_fields !! kind = Some field_names /\
    (length values <= length field_names)%nat /\
    (forall k, is_Some (row !! k) <-> In k (take (length values) field_names)) /\
    (forall k x, row !! k = Some x -> exists v, In v values /\ conv k v = Ok x).
Proof.
  unfold __parse_line__. intros H.
  destruct (py_split ","%char (py_strip line)) as [|kind values]; [discriminate|].
  destruct (header_fields !! kind) as [names|] eqn:Eh; [|discriminate].
  destruct (parse_line_loop_ok conv names values ∅ row H) as (Hlen & Hkeys & Hvals).
  exists kind, names, values. split; [reflexivity|]. split; [exact Eh|]. split; [exact Hlen|]. split.
  - intros k. rewrite Hkeys. rewrite lookup_empty. split; [intros [[? H0] | H0]; [discriminate | exact H0] | auto].
  - intros k x Hk. destruct (Hvals k x Hk) as [H0 | H0]; [rewrite lookup_empty in H0; discriminate | exact H0].
Qed.

Lemma parse_line_loop_complete (conv : string -> string -> result fieldval)
    (names values : list string) (row0 : gmap string fieldval) :
  (length values <= length names)%nat ->
  (forall i n v, names !! i = Some n -> values !! i = Some v -> exists x, conv n v = Ok x) ->
  exists row, parse_line_loop conv names values row0 = LineOk row.
Proof.
  revert names row0. induction values as [|v vs IH]; intros names row0 Hlen Hc; cbn; [eauto|].
  destruct names as [|n ns]; [cbn in Hlen; lia|].
  destruct (Hc 0%nat n v eq_refl eq_refl) as [x Ex]. rewrite Ex.
  apply IH; [cbn in Hlen; lia|]. intros i m w Hm Hw. exact (Hc (S i) m w Hm Hw).
Qed.

Lemma parse_line_loop_too_many (conv : string -> string -> result fieldval)
    (names values : list string) (row0 : gmap string fieldval) :
  (length names < length values)%nat ->
  parse_line_loop conv names values row0 = LineIndexError \/
  exists i n v e, names !! i = Some n /\ values !! i = Some v /\ conv n v = Err e /\
                  parse_line_loop conv names values row0 = LineErr e.
Proof.
  revert names row0. induction values as [|v vs IH]; intros names row0 Hlen; [cbn in Hlen; lia|].
  destruct names as [|n ns]; [left; reflexivity|]. cbn.
  destruct (conv n v) as [x|e] eqn:Ec.
  - destruct (IH ns (<[n := x]> row0)) as [H | (i & m & w & e & H1 & H2 & H3 & H4)]; [cbn in Hlen; lia | left; exact H|].
    right. exists (S i), m, w, e. auto.
  - right. exists 0%nat, n, v, e. auto.
Qed.

(** [GnssLog.__parse_line__] raises a KeyError for a line whose kind is not
    declared in the header.  For a declared kind, it returns a row when the
    line has at most as many values as field names and every value converts;
    with more values than names it never returns a row: it raises an
    IndexError, or the exception of a value's conversion. *)
Theorem parse_line_outcome (conv : string -> string -> result fieldval)
    (header_fields : gmap string (list string)) (line kind : string) (values : list string) :
  py_split ","%char (py_strip line) = kind :: values ->
  match header_fields !! kind with
  | None => __parse_line__ conv header_fields line = LineErr KeyError
  | Some field_names =>
    ((length values <= length field_names)%nat ->
     (forall i n v, field_names !! i = Some n -> values !! i = Some v -> exists x, conv n v = Ok x) ->
     exists row, __parse_line__ conv header_fields line = LineOk row) /\
    ((length field_names < length values)%nat ->
     __parse_line__ conv header_fields line = LineIndexError \/
     exists i n v e, field_names !! i = Some n /\ values !! i = Some v /\ conv n v = Err e /\
                     __parse_line__ conv header_fields line = LineErr e)
  end.
Proof.
  intros Hs. unfold __parse_line__. rewrite Hs.
  destruct (header_fields !! kind) as [names|]; [|reflexivity]. split.
  - apply parse_line_loop_complete.
  - apply parse_line_loop_too_many.
Qed.

(** A Raw line with two values for three declared names. *)
Lemma parse_line_row_witness :
  exists row,
    __parse_line__ (fun _ v => Ok (FStr v)) parse_line_example_header
      ("Raw,1,2" ++ String (ascii_of_nat 10) EmptyString) = LineOk row /\
    (forall k, is_Some (row !! k) <-> In k ["utcTimeMillis"; "TimeNanos"]).
Proof.
  destruct (__parse_line__ (fun _ v => Ok (FStr v)) parse_line_example_header
              ("Raw,1,2" ++ String (ascii_of_nat 10) EmptyString)) as [row| |] eqn:E;
    [| vm_compute in E; discriminate E..].
  exists row. split; [reflexivity|].
  destruct (parse_line_row _ _ _ row E) as (kind & names & values & Hs & Hn & _ & Hk & _).
  vm_compute in Hs. injection Hs as <- <-. vm_compute in Hn. injection Hn as <-. exact Hk.
Defined.

(** A Raw line with four values for three declared names. *)
Lemma parse_line_outcome_witness :
  py_split ","%char (py_strip "Raw,1,2,3,4") = "Raw" :: ["1"; "2"; "3"; "4"] /\
  match parse_line_example_header !! "Raw" with
  | None => __parse_line__ (fun _ v => Ok (FStr v)) parse_line_example_header "Raw,1,2,3,4" = LineErr KeyError
  | Some field_names =>
    ((length ["1"; "2"; "3"; "4"] <= length field_names)%nat ->
     (forall i n v, field_names !! i = Some n -> ["1"; "2"; "3"; "4"] !! i = Some v ->
        exists x, (fun _ v => Ok (FStr v)) n v = Ok x) ->
     exists row, __parse_line__ (fun _ v => Ok (FStr v)) parse_line_example_header "Raw,1,2,3,4" = LineOk row) /\
    ((length field_names < length ["1"; "2"; "3"; "4"])%nat ->
     __parse_line__ (fun _ v => Ok (FStr v)) parse_line_example_header "Raw,1,2,3,4" = LineIndexError \/
     exists i n v e, field_names !! i = Some n /\ ["1"; "2"; "3"; "4"] !! i = Some v /\
                     (fun _ v => Ok (FStr v)) n v = Err e /\
                     __parse_line__ (fun _ v => Ok (FStr v)) parse_line_example_header "Raw,1,2,3,4" = LineErr e)
  end.
Proof.
  assert (Hs : py_split ","%char (py_strip "Raw,1,2,3,4") = "Raw" :: ["1"; "2"; "3"; "4"]) by reflexivity.
  split; [exact Hs|].
  exact (parse_line_outcome (fun _ v => Ok (FStr v)) parse_line_example_header _ _ _ Hs).
Defined.
